(** * Companion: key mapping, configuration upgrades and the Elgato plugin service

    A shallow embedding of three parts of the Companion sources:

    - the key-index helpers of [lib/Resources/Util] ([from15to32],
      [toDeviceKey], [toGlobalKey]);
    - the configuration upgrade driver ([upgradeStartup], [upgradeImport]);
    - the websocket service [ServiceElgatoPlugin].

    JavaScript numbers that hold key indices, versions, pages and banks are
    integers far below 2^53, where double arithmetic is exact; they are
    modelled as [Z].  [%] is the truncating remainder ([Z.rem]) and
    [Math.floor (a / b)] is the floor quotient ([Z.div]).  The one place where
    a quotient is used without [Math.floor] is modelled with rationals. *)

From Stdlib Require Import ZArith QArith Lia Ascii.
From stdpp Require Import gmap strings list pretty.

Local Open Scope Z_scope.

(** ** Globals set by the application registry *)

Definition MAX_BUTTONS : Z := 32.
Definition MAX_BUTTONS_PER_ROW : Z := 8.

(** ** JavaScript quotients *)

(** The value of [a / b] for two integer operands: a rational, one of the
    two infinities, or NaN. *)
Inductive jsnum : Type :=
| Fin (q : Q)
| PosInf
| NegInf
| NaN.

Definition js_div (a b : Z) : jsnum :=
  match b with
  | Z0 => match a with
          | Z0 => NaN
          | Zpos _ => PosInf
          | Zneg _ => NegInf
          end
  | Zpos p => Fin (a # p)
  | Zneg p => Fin ((- a) # p)
  end.

(** [x >= y] for an integer [x] and a quotient [y]; every comparison with
    NaN is false. *)
Definition js_ge (x : Z) (y : jsnum) : bool :=
  match y with
  | Fin q => Qle_bool q (inject_Z x)
  | PosInf => false
  | NegInf => true
  | NaN => false
  end.

(** ** lib/Resources/Util *)

Module Util.

(** Legacy 15-key (5 per row) index to the 32-key (8 per row) grid.  The
    [debug] call of the clamping branch has no effect on the result. *)
Definition from15to32 (key : Z) : Z :=
  let key := key - 1 in
  let rows := key / 5 in
  let col := Z.rem key 5 + 1 in
  let res := rows * 8 + col in
  if 32 <=? res then 31 else res.

(** From global key number to device key number, [-1] when the device has
    no such key. *)
Definition toDeviceKey (keysTotal keysPerRow key : Z) : Z :=
  if keysTotal =? MAX_BUTTONS then key
  else if keysPerRow <? Z.rem key MAX_BUTTONS_PER_ROW then -1
  else
    let row := key / MAX_BUTTONS_PER_ROW in
    let col := Z.rem key MAX_BUTTONS_PER_ROW in
    if js_ge row (js_div keysTotal keysPerRow) || (keysPerRow <=? col)
    then -1
    else row * keysPerRow + col.

(** From device key number to global key number.  With [keysPerRow = 0]
    the column [key % 0] is NaN and so is the sum: [None]. *)
Definition toGlobalKey (keysPerRow key : Z) : option Z :=
  if keysPerRow =? 0 then None
  else
    let rows := key / keysPerRow in
    let col := Z.rem key keysPerRow in
    Some (rows * MAX_BUTTONS_PER_ROW + col).

End Util.

(** The result of the device mapping as the specification words it for a
    layout other than the full grid: with [row = key / 8] and
    [col = key % 8], no key when [col] is outside [0, keysPerRow) or [row]
    is outside [0, keysTotal / keysPerRow), and [row * keysPerRow + col]
    otherwise. *)
Definition cropped_spec (keysTotal keysPerRow key : Z) : Z :=
  let row := key / 8 in
  let col := key mod 8 in
  if (col <? 0) || (keysPerRow <=? col) || (row <? 0)
     || (keysTotal / keysPerRow <=? row)
  then -1
  else row * keysPerRow + col.

(** The DeviceLayout invariants. *)
Definition valid_layout (keysTotal keysPerRow : Z) : Prop :=
  keysPerRow <= MAX_BUTTONS_PER_ROW /\ (keysPerRow | keysTotal).

(** The device mapping in the specification's words: the identity on the
    layout [(32, 8)], the cropping on every other layout. *)
Definition toDeviceKey_spec (keysTotal keysPerRow key : Z) : Z :=
  if (keysTotal =? MAX_BUTTONS) && (keysPerRow =? MAX_BUTTONS_PER_ROW)
  then key
  else cropped_spec keysTotal keysPerRow key.

(** ** JavaScript's [parseInt] *)

Module JS.

(** An argument that is an integer number or a string.  Numbers and parsed
    values stay below 2^53, where doubles are exact. *)
Inductive arg : Type :=
| Num (n : Z)
| Str (s : string).

(** [ToString]: the decimal digits of a number, after [-] when it is
    negative. *)
Definition toString (x : arg) : string :=
  match x with
  | Num n => pretty n
  | Str s => s
  end.

(** The integers that a double holds exactly. *)
Definition safeInteger (n : Z) : Prop := - 2 ^ 53 < n < 2 ^ 53.

Definition code (c : ascii) : Z := Z.of_N (N_of_ascii c).

(** Tab, line feed, vertical tab, form feed, carriage return and space. *)
Definition isWhite (c : ascii) : bool :=
  ((9 <=? code c) && (code c <=? 13)) || (code c =? 32).

Fixpoint trimStart (s : string) : string :=
  match s with
  | String c s' => if isWhite c then trimStart s' else s
  | EmptyString => s
  end.

(** The value of a digit: [0-9], then [a-z] or [A-Z] for 10 to 35. *)
Definition digitValue (c : ascii) : option Z :=
  if (48 <=? code c) && (code c <=? 57) then Some (code c - 48)
  else if (97 <=? code c) && (code c <=? 122) then Some (code c - 87)
  else if (65 <=? code c) && (code c <=? 90) then Some (code c - 55)
  else None.

(** The number read from the longest prefix of digits of the radix, after
    the digits already read; NaN ([None]) when there is no digit at all. *)
Fixpoint digits (radix : Z) (s : string) (acc : Z) (seen : bool) : option Z :=
  match s with
  | String c s' =>
      match digitValue c with
      | Some d => if d <? radix then digits radix s' (acc * radix + d) true
                  else if seen then Some acc else None
      | None => if seen then Some acc else None
      end
  | EmptyString => if seen then Some acc else None
  end.

Definition stripSign (s : string) : Z * string :=
  match s with
  | String "-"%char s' => (-1, s')
  | String "+"%char s' => (1, s')
  | _ => (1, s)
  end.

Definition stripHex (s : string) : option string :=
  match s with
  | String "0"%char (String "x"%char s') => Some s'
  | String "0"%char (String "X"%char s') => Some s'
  | _ => None
  end.

Definition parseInt (x : arg) (radix : Z) : option Z :=
  let '(sign, s) := stripSign (trimStart (toString x)) in
  if negb (radix =? 0) && ((radix <? 2) || (36 <? radix)) then None
  else
    let r := if radix =? 0 then 10 else radix in
    let '(r, s) :=
      if (radix =? 0) || (radix =? 16) then
        match stripHex s with
        | Some s' => (16, s')
        | None => (r, s)
        end
      else (r, s) in
    (fun v => sign * v) <$> digits r s 0 false.

End JS.

(** ** lib/Resources/Util: colours *)

Module Colors.
Import JS.

(** [rgb (r, g, b, base = 10)]; [None] is the result [false]. *)
Definition rgb (r g b : arg) (base : Z) : option Z :=
  match parseInt r base, parseInt g base, parseInt b base with
  | Some r, Some g, Some b =>
      Some (Z.lor (Z.lor (Z.shiftl (Z.land r 255) 16)
                         (Z.shiftl (Z.land g 255) 8))
                  (Z.land b 255))
  | _, _, _ => None
  end.

(** [argb (a, r, g, b, base = 10)]: the source parses [r] into [a]; the
    inner [rgb] is given the parsed numbers and its default base. *)
Definition argb (a r g b : arg) (base : Z) : option Z :=
  match parseInt r base, parseInt r base, parseInt g base, parseInt b base with
  | Some a, Some r, Some g, Some b =>
      Some (a * 16777216
            + match rgb (Num r) (Num g) (Num b) 10 with
              | Some c => c
              | None => 0
              end)
  | _, _, _, _ => None
  end.

Record RedGreenBlue : Type := mkRedGreenBlue {
  red : Z;
  green : Z;
  blue : Z;
}.

Definition decimalToRgb (decimal : Z) : RedGreenBlue :=
  {| red := Z.land (Z.shiftr decimal 16) 255;
     green := Z.land (Z.shiftr decimal 8) 255;
     blue := Z.land decimal 255 |}.

Record RGB : Type := mkRGB {
  r : Z;
  g : Z;
  b : Z;
}.

(** [Math.round] is the identity on the integers that [dec] is. *)
Definition rgbRev (dec : Z) : RGB :=
  {| r := Z.shiftr (Z.land dec 16711680) 16;
     g := Z.shiftr (Z.land dec 65280) 8;
     b := Z.land dec 255 |}.

End Colors.

(** ** lib/Resources/Util: [parseLineParameters] *)

Module LineParameters.
Import JS.

(** The characters that [.] does not match: line feed and carriage
    return. *)
Definition isTerminator (c : ascii) : bool := (code c =? 10) || (code c =? 13).

Definition isBackslash (c : ascii) : bool := code c =? 92.

(** The matches of [/\\?.|^$/g] in a line that is not empty: a backslash
    with the character it escapes, or one character; a line terminator
    matches nothing and is passed over. *)
Fixpoint tokens (line : string) : list string :=
  match line with
  | EmptyString => []
  | String c rest =>
      if isTerminator c then tokens rest
      else if isBackslash c then
        match rest with
        | String d rest' =>
            if isTerminator d then String c EmptyString :: tokens rest
            else String c (String d EmptyString) :: tokens rest'
        | EmptyString => [String c EmptyString]
        end
      else String c EmptyString :: tokens rest
  end.

(** [line.match (...)]: the empty line has the one empty match of [^$];
    no match at all gives [null] ([None]). *)
Definition matchAll (line : string) : option (list string) :=
  match line with
  | EmptyString => Some [EmptyString]
  | _ => match tokens line with
         | [] => None
         | ts => Some ts
         end
  end.

(** The accumulator of the [reduce]: [p.quote] and [p.a]. *)
Record acc : Type := mkAcc {
  quote : bool;
  a : list string;
}.

(** [p.a[p.a.length - 1] += x]. *)
Fixpoint appendLast (xs : list string) (x : string) : list string :=
  match xs with
  | [] => []
  | [l] => [(l ++ x)%string]
  | h :: t => h :: appendLast t x
  end.

(** [c.replace (/\\(.)/, '$1')] on a match. *)
Definition unescape (c : string) : string :=
  match c with
  | String b (String d EmptyString) => if isBackslash b then String d EmptyString else c
  | _ => c
  end.

Definition step (p : acc) (c : string) : acc :=
  if String.eqb c (String (ascii_of_nat 34) EmptyString) then
    {| quote := negb (quote p); a := a p |}
  else if negb (quote p) && String.eqb c " " then
    {| quote := quote p; a := a p ++ [EmptyString] |}
  else
    {| quote := quote p; a := appendLast (a p) (unescape c) |}.

(** The fragments of a line; [None] is the TypeError of reducing
    [null]. *)
Definition fragments (line : string) : option (list string) :=
  (fun ts => a (fold_left step ts {| quote := false; a := [EmptyString] |}))
    <$> matchAll line.

(** [fragment.split ('=')]. *)
Fixpoint splitEq (s : string) : list string :=
  match s with
  | EmptyString => [EmptyString]
  | String c rest =>
      if (code c =? 61) then EmptyString :: splitEq rest
      else match splitEq rest with
           | h :: t => String c h :: t
           | [] => [String c EmptyString]
           end
  end.

(** A value of the result: [true] or a string. *)
Inductive value : Type :=
| VTrue
| VStr (s : string).

(** [const [key, value] = fragment.split ('=')] and what is stored under
    the key. *)
Definition entry (fragment : string) : string * value :=
  match splitEq fragment with
  | key :: v :: _ => (key, VStr v)
  | [key] => (key, VTrue)
  | [] => (EmptyString, VTrue)
  end.

(** [res[key] = v] on a plain object whose values are primitives: the key
    [__proto__] is the accessor of [Object.prototype], whose setter leaves
    the object as it is when given a primitive. *)
Definition assign (res : gmap string value) (key : string) (v : value) :
    gmap string value :=
  if String.eqb key "__proto__" then res else <[key := v]> res.

Definition parseLineParameters (line : string) : option (gmap string value) :=
  (fun fs => fold_left (fun res f => assign res (fst (entry f)) (snd (entry f))) fs ∅)
    <$> fragments line.

(** Whether every character of a string passes a test. *)
Fixpoint all (P : ascii -> bool) (s : string) : bool :=
  match s with
  | EmptyString => true
  | String c rest => P c && all P rest
  end.

(** A character that is a match of its own: neither a backslash nor a
    line terminator. *)
Definition simple (c : ascii) : bool := negb (isBackslash c) && negb (isTerminator c).

(** A character that may stand between quotes in a value: simple, not a
    quote and not [=]. *)
Definition textChar (c : ascii) : bool :=
  simple c && negb (code c =? 34) && negb (code c =? 61).

(** A character of a bare key or value: as between quotes, and not a
    space. *)
Definition wordChar (c : ascii) : bool := textChar c && negb (code c =? 32).

(** The reducer run over the characters of a string, one match each. *)
Fixpoint runChars (s : string) (p : acc) : acc :=
  match s with
  | EmptyString => p
  | String c rest => runChars rest (step p (String c EmptyString))
  end.

(** A parameter as a sender writes it: a flag [key], a pair [key=value],
    or a pair with the value between quotes. *)
Inductive param : Type :=
| Flag (k : string)
| Plain (k v : string)
| Quoted (k v : string).

Definition dquote : string := String (ascii_of_nat 34) EmptyString.

Definition render (p : param) : string :=
  match p with
  | Flag k => k
  | Plain k v => k ++ "=" ++ v
  | Quoted k v => k ++ "=" ++ dquote ++ v ++ dquote
  end.

Definition wellFormed (p : param) : bool :=
  match p with
  | Flag k => all wordChar k
  | Plain k v => all wordChar k && all wordChar v
  | Quoted k v => all wordChar k && all textChar v
  end.

Definition key (p : param) : string :=
  match p with
  | Flag k | Plain k _ | Quoted k _ => k
  end.

Definition val (p : param) : value :=
  match p with
  | Flag _ => VTrue
  | Plain _ v | Quoted _ v => VStr v
  end.

(** The fragment a well formed parameter leaves. *)
Definition bare (p : param) : string :=
  match p with
  | Flag k => k
  | Plain k v | Quoted k v => k ++ "=" ++ v
  end.

End LineParameters.

(** ** lib/Data/Upgrade *)

Module Upgrade.

Section Migrator.

(** Everything the store holds besides the version key, and the payload of
    an exported configuration object. *)
Context {Data Body : Type}.

(** Modelled from the spec: the mapping store (lib/Data/Database is not
    part of the sources at hand).  It answers [getKey], [setKey], [save],
    [getJSON] and [getCfgFile]; [page_config_version] is the only key the
    upgrade driver reads or writes, and [save] makes the live contents
    durable. *)
Record Contents : Type := mkContents {
  page_config_version : option Z;
  data : Data;
}.

(** Modelled from the spec: the store itself, with the contents in memory,
    the contents last saved and its backing location. *)
Record Database : Type := mkDatabase {
  live : Contents;
  durable : Contents;
  cfgFile : string;
}.

Definition getKey_version (db : Database) (default : Z) : Z :=
  match page_config_version (live db) with
  | Some v => v
  | None => default
  end.

Definition setKey_version (db : Database) (v : Z) : Database :=
  {| live := {| page_config_version := Some v; data := data (live db) |};
     durable := durable db;
     cfgFile := cfgFile db |}.

Definition save (db : Database) : Database :=
  {| live := live db; durable := live db; cfgFile := cfgFile db |}.

(** An exported page or full configuration. *)
Record Export : Type := mkExport {
  version : option Z;
  body : Body;
}.

(** One entry of [allUpgrades]: the scripts of ./Upgrades/vNtovM.js, which
    are parameters here and are taken to return normally.  The import
    script is optional. *)
Record UpgradeStep : Type := mkStep {
  step_upgradeStartup : Database -> Database;
  step_upgradeImport : option (Export -> Export);
}.

Variable allUpgrades : list UpgradeStep.

(** [db.getJSON ()]: the serialised store, or undefined. *)
Variable getJSON : Database -> option string.

(** Whether [fs.writeFileSync] succeeds on a path; a failure is caught and
    only logged. *)
Variable writable : string -> bool.

Definition targetVersion : Z := Z.of_nat (length allUpgrades) + 1.

(** [allUpgrades[i - 1]]: undefined below index 0 and past the end. *)
Definition upgradeAt (i : Z) : option UpgradeStep :=
  if i - 1 <? 0 then None else allUpgrades !! Z.to_nat (i - 1).

(** What [upgradeStartup] does to its surroundings, in order. *)
Inductive call : Type :=
| WriteFile (path content : string)
| RunStep (i : Z)
| SetKey (key : string) (v : Z)
| Save.

(** How a run ends: by returning, by the ReferenceError of calling a name
    that is not in scope, or by the TypeError of reading a property of
    undefined. *)
Inductive outcome : Type :=
| Returned
| ReferenceError
| TypeError.

Record Run : Type := mkRun {
  result : outcome;
  db : Database;
  calls : list call;
}.

Definition decimal (i : Z) : string := pretty i.

Definition saveUpgradeCopy (d : Database) (i : Z) : list call :=
  match getJSON d with
  | Some jsonSave =>
      let path := cfgFile d +:+ ".v" +:+ decimal i in
      if writable path then [WriteFile path jsonSave] else []
  | None => []
  end.

(** The body of [for (let i = ...; i < targetVersion; i++)], for the [n]
    iterations that remain. *)
Fixpoint runScripts (n : nat) (i : Z) (d : Database) (log : list call) : Run :=
  match n with
  | O => mkRun Returned d log
  | S n' =>
      let log := log ++ saveUpgradeCopy d i in
      match upgradeAt i with
      | None => mkRun TypeError d log
      | Some u =>
          runScripts n' (i + 1) (step_upgradeStartup u d) (log ++ [RunStep i])
      end
  end.

(** The branch of a store that is too new calls [showFatalError], which
    lib/Data/Upgrade neither imports nor defines: the call throws, and the
    [process.exit (1)] after it is not reached. *)
Definition upgradeStartup (d : Database) : Run :=
  let currentVersion := getKey_version d 1 in
  if targetVersion <? currentVersion then mkRun ReferenceError d []
  else
    let r := runScripts (Z.to_nat (targetVersion - currentVersion))
                        currentVersion d [] in
    match result r with
    | Returned =>
        let d := setKey_version (db r) targetVersion in
        let d := save d in
        mkRun Returned d (calls r ++ [SetKey "page_config_version" targetVersion; Save])
    | _ => r
    end.

(** [obj.version || 1]: an absent version and the falsy [0] both give 1. *)
Definition version_or_1 (obj : Export) : Z :=
  match version obj with
  | None => 1
  | Some 0 => 1
  | Some v => v
  end.

(** The import loop; the second component lists the steps whose import
    script ran.  [None] is the TypeError of [allUpgrades[i - 1]] being
    undefined. *)
Fixpoint runImports (n : nat) (i : Z) (obj : Export) (ran : list Z)
  : option (Export * list Z) :=
  match n with
  | O => Some (obj, ran)
  | S n' =>
      match upgradeAt i with
      | None => None
      | Some u =>
          match step_upgradeImport u with
          | Some f => runImports n' (i + 1) (f obj) (ran ++ [i])
          | None => runImports n' (i + 1) obj ran
          end
      end
  end.

Definition stamp (obj : Export) : Export :=
  {| version := Some targetVersion; body := body obj |}.

Definition upgradeImport_ran (obj : Export) : option (Export * list Z) :=
  let currentVersion := version_or_1 obj in
  match runImports (Z.to_nat (targetVersion - currentVersion)) currentVersion obj [] with
  | Some (obj, ran) => Some (stamp obj, ran)
  | None => None
  end.

Definition upgradeImport (obj : Export) : option Export :=
  fst <$> upgradeImport_ran obj.

(** The steps numbered [v], [v + 1], ... up to the last one. *)
Definition stepsFrom (v : Z) : list UpgradeStep := drop (Z.to_nat (v - 1)) allUpgrades.

Definition applyStartup (d : Database) (us : list UpgradeStep) : Database :=
  foldl (fun d u => step_upgradeStartup u d) d us.

Definition applyImport (obj : Export) (us : list UpgradeStep) : Export :=
  foldl (fun o u => match step_upgradeImport u with
                    | Some f => f o
                    | None => o
                    end) obj us.

(** The numbers [v], [v + 1], ..., [v + n - 1]. *)
Fixpoint versionsFrom (v : Z) (n : nat) : list Z :=
  match n with
  | O => []
  | S n' => v :: versionsFrom (v + 1) n'
  end.

(** Whether step [i] exists and has an import script. *)
Definition hasImport (i : Z) : bool :=
  match upgradeAt i ≫= step_upgradeImport with
  | Some _ => true
  | None => false
  end.

Definition stepsRun (cs : list call) : list Z :=
  omap (fun c => match c with RunStep i => Some i | _ => None end) cs.

Definition isStoreCall (c : call) : bool :=
  match c with
  | SetKey _ _ | Save => true
  | WriteFile _ _ | RunStep _ => false
  end.

Definition storeCalls (cs : list call) : list call := List.filter isStoreCall cs.

Definition isBackup (c : call) : bool :=
  match c with
  | WriteFile _ _ => true
  | _ => false
  end.

Definition withoutBackups (cs : list call) : list call :=
  List.filter (fun c => negb (isBackup c)) cs.

(** The stores that a sequence of steps starts from, one per step. *)
Fixpoint storesBefore (d : Database) (us : list UpgradeStep) : list Database :=
  match us with
  | [] => []
  | u :: us' => d :: storesBefore (step_upgradeStartup u d) us'
  end.

(** For each version in turn, the backup copy of the store that its step
    starts from and then the step. *)
Fixpoint backupThenStep (i : Z) (ds : list Database) : list call :=
  match ds with
  | [] => []
  | d :: ds' => saveUpgradeCopy d i ++ RunStep i :: backupThenStep (i + 1) ds'
  end.

End Migrator.

End Upgrade.

(** ** lib/Service/ElgatoPlugin *)

Module ElgatoPlugin.

(** *** Frames *)

(** The [arguments] member of an outbound frame. *)
Inductive arguments : Type :=
| ArgVersion (version : Z) (error : option string)
| ArgNewDevice (result : bool)
| ArgInstances (instances : string)
| ArgResultOk
| ArgFillImage (page bank keyIndex : Z) (data : string).

(** What [socketResponse] and [socketCommand] hand to [sendUTF]. *)
Inductive frame : Type :=
| Response (response : string) (args : arguments)
| Command (command : string) (args : arguments).

(** The commands of the wire protocol, as [socket.emit (data.command,
    data.arguments)] delivers them, with [close] for the end of the
    connection.  A [version] member may be missing. *)
Inductive event : Type :=
| EvVersion (version : option Z)
| EvNewDevice (id : string)
| EvGetInstances
| EvRequestButton (page bank : Z)
| EvUnrequestButton (page bank : Z)
| EvClose.

Inductive name : Type :=
| N_version | N_new_device | N_get_instances | N_request_button
| N_unrequest_button | N_close | N_keyup | N_keydown.

Definition name_of (e : event) : name :=
  match e with
  | EvVersion _ => N_version
  | EvNewDevice _ => N_new_device
  | EvGetInstances => N_get_instances
  | EvRequestButton _ _ => N_request_button
  | EvUnrequestButton _ _ => N_unrequest_button
  | EvClose => N_close
  end.

(** *** Sockets as event emitters *)

(** The closures the service attaches to a socket, one constructor per
    function literal; the device id a close handler captured is kept. *)
Inductive handler : Type :=
| H_version
| H_new_device1
| H_new_device2
| H_get_instances
| H_close1 (id : string)
| H_close2 (id : string)
| H_request_button
| H_unrequest_button
| H_close_log.

Record listener : Type := mkListener {
  l_name : name;
  l_once : bool;
  l_handler : handler;
}.

#[global] Instance name_eq_dec : EqDecision name.
Proof. solve_decision. Defined.
#[global] Instance handler_eq_dec : EqDecision handler.
Proof. solve_decision. Defined.
#[global] Instance listener_eq_dec : EqDecision listener.
Proof. solve_decision. Defined.

(** [socket.button_listeners]: the two members of the object literal and
    the page-keyed members that [request_button] adds next to them. *)
Record ButtonListeners : Type := mkButtonListeners {
  dynamic : gmap Z (gset Z);
  static : gmap Z (gset Z);
  pages : gmap Z (gset Z);
}.

Record Socket : Type := mkSocket {
  remoteAddress : string;
  listeners : list listener;
  sent : list frame;
  closed : bool;
  button_listeners : option ButtonListeners;
}.

(** Calls received by the surface registry. *)
Inductive surface_call : Type :=
| addDevice (path kind : string)
| removeDevice (path : string).

(** The service and what it reaches: the sockets by connection identity,
    [this.client], the calls made on [this.surfaces] and the events emitted
    on [this.system]. *)
Record Service : Type := mkService {
  sockets : gmap nat Socket;
  client : option nat;
  surfaces : list surface_call;
  system : list (string * nat);
}.

Definition initial : Service :=
  {| sockets := ∅; client := None; surfaces := []; system := [] |}.

(** *** State and exceptions *)

(** A computation on the service; [None] is a thrown exception, the state
    next to it is the one reached when it was thrown. *)
Definition M (A : Type) : Type := Service -> Service * option A.

#[global] Instance M_ret : MRet M := fun A a s => (s, Some a).
#[global] Instance M_bind : MBind M := fun A B f m s =>
  match m s with
  | (s', Some a) => f a s'
  | (s', None) => (s', None)
  end.

Definition throw {A} : M A := fun s => (s, None).
Definition get : M Service := fun s => (s, Some s).
Definition modify (f : Service -> Service) : M unit := fun s => (f s, Some tt).

Definition updSocket (sock : nat) (f : Socket -> Socket) : M unit :=
  modify (fun s => {| sockets := alter f sock (sockets s);
                      client := client s;
                      surfaces := surfaces s;
                      system := system s |}).

Definition setClient (c : option nat) : M unit :=
  modify (fun s => {| sockets := sockets s; client := c;
                      surfaces := surfaces s; system := system s |}).

Definition callSurfaces (c : surface_call) : M unit :=
  modify (fun s => {| sockets := sockets s; client := client s;
                      surfaces := surfaces s ++ [c]; system := system s |}).

Definition systemEmit (ev : string) (sock : nat) : M unit :=
  modify (fun s => {| sockets := sockets s; client := client s;
                      surfaces := surfaces s; system := system s ++ [(ev, sock)] |}).

Definition withListeners (f : list listener -> list listener) (k : Socket) : Socket :=
  {| remoteAddress := remoteAddress k; listeners := f (listeners k);
     sent := sent k; closed := closed k; button_listeners := button_listeners k |}.

Definition withSent (fr : frame) (k : Socket) : Socket :=
  {| remoteAddress := remoteAddress k; listeners := listeners k;
     sent := sent k ++ [fr]; closed := closed k;
     button_listeners := button_listeners k |}.

Definition withClosed (k : Socket) : Socket :=
  {| remoteAddress := remoteAddress k; listeners := listeners k;
     sent := sent k; closed := true; button_listeners := button_listeners k |}.

Definition withButtonListeners (b : option ButtonListeners) (k : Socket) : Socket :=
  {| remoteAddress := remoteAddress k; listeners := listeners k;
     sent := sent k; closed := closed k; button_listeners := b |}.

Definition on (sock : nat) (n : name) (h : handler) : M unit :=
  updSocket sock (withListeners (fun ls => ls ++ [mkListener n false h])).

Definition once (sock : nat) (n : name) (h : handler) : M unit :=
  updSocket sock (withListeners (fun ls => ls ++ [mkListener n true h])).

Definition removeAllListeners (sock : nat) (n : name) : M unit :=
  updSocket sock (withListeners (List.filter (fun l => negb (bool_decide (l_name l = n))))).

Definition sendUTF (sock : nat) (fr : frame) : M unit := updSocket sock (withSent fr).

Definition socketCommand (sock : nat) (command : string) (args : arguments) : M unit :=
  sendUTF sock (Command command args).

Definition socketResponse (sock : nat) (command : string) (args : arguments) : M unit :=
  sendUTF sock (Response command args).

Definition socketClose (sock : nat) : M unit := updSocket sock withClosed.

(** Removes the first occurrence of a listener, as a [once] wrapper does
    with itself before it calls the wrapped function. *)
Fixpoint removeFirst (l : listener) (ls : list listener) : list listener :=
  match ls with
  | [] => []
  | l' :: ls' => if bool_decide (l' = l) then ls' else l' :: removeFirst l ls'
  end.

(** *** The service *)

(** What the renderer returns for a button. *)
Record Button : Type := mkButton {
  buffer : string;
  updated : Z;
}.

Section Service.

(** [this.graphics.getBank] and [this.db.getKey ('instance')]. *)
Variable getBank : Z -> Z -> Button.
Variable instances : string.

(** [parseInt] is the identity on the integers that [page] and [bank]
    are. *)
Definition handleBankChanged (page bank : Z) : M unit :=
  let bank := bank - 1 in
  s ← get;
  match client s with
  | Some c =>
      match sockets s !! c ≫= button_listeners with
      | Some listeners =>
          match pages listeners !! page with
          | Some banks =>
              if bool_decide (bank ∈ banks) then
                let button := getBank page (bank + 1) in
                socketCommand c "fillImage"
                  (ArgFillImage page bank bank (buffer button))
              else mret tt
          | None => mret tt
          end
      | None => mret tt
      end
  | None => mret tt
  end.

Definition initAPI1 (sock : nat) : M unit :=
  once sock N_new_device H_new_device1.

Definition initAPI2 (sock : nat) : M unit :=
  once sock N_new_device H_new_device2;;
  on sock N_request_button H_request_button;;
  on sock N_unrequest_button H_unrequest_button.

Definition initSocket (sock : nat) : M unit :=
  on sock N_version H_version.

Definition deviceId (k : Socket) : string := "elgato_plugin-" +:+ remoteAddress k.

(** Reading a member of [socket.button_listeners] throws when the socket
    has none. *)
Definition getButtonListeners (sock : nat) : M ButtonListeners :=
  s ← get;
  match sockets s !! sock ≫= button_listeners with
  | Some bl => mret bl
  | None => throw
  end.

Definition setPage (bl : ButtonListeners) (page : Z) (banks : gset Z) : ButtonListeners :=
  {| dynamic := dynamic bl; static := static bl;
     pages := <[page := banks]> (pages bl) |}.

Definition emptyButtonListeners : ButtonListeners :=
  {| dynamic := ∅; static := ∅; pages := ∅ |}.

(** The bodies of the listeners. *)
Definition runHandler (sock : nat) (h : handler) (e : event) : M unit :=
  match h, e with
  | H_version, EvVersion version =>
      match version with
      | Some v =>
          if 2 <? v then
            socketResponse sock "version" (ArgVersion 2 (Some "cannot continue"));;
            socketClose sock
          else if v =? 1 then
            socketResponse sock "version" (ArgVersion 1 None);;
            initAPI1 sock
          else
            socketResponse sock "version" (ArgVersion 2 None);;
            initAPI2 sock
      | None =>
          socketResponse sock "version" (ArgVersion 2 None);;
          initAPI2 sock
      end
  | H_new_device1, EvNewDevice _ =>
      s ← get;
      match sockets s !! sock with
      | Some k =>
          let id := deviceId k in
          callSurfaces (addDevice id "streamdeck_plugin");;
          systemEmit (id +:+ "_plugin_startup") sock;;
          socketResponse sock "new_device" (ArgNewDevice true);;
          on sock N_get_instances H_get_instances;;
          on sock N_close (H_close1 id)
      | None => mret tt
      end
  | H_new_device2, EvNewDevice _ =>
      s ← get;
      match sockets s !! sock with
      | Some k =>
          let id := deviceId k in
          callSurfaces (addDevice id "streamdeck_plugin");;
          systemEmit (id +:+ "_plugin_startup") sock;;
          socketResponse sock "new_device" (ArgNewDevice true);;
          updSocket sock (withButtonListeners (Some emptyButtonListeners));;
          setClient (Some sock);;
          on sock N_close (H_close2 id)
      | None => mret tt
      end
  | H_get_instances, EvGetInstances =>
      socketResponse sock "get_instances" (ArgInstances instances)
  | H_close1 id, EvClose =>
      callSurfaces (removeDevice id);;
      removeAllListeners sock N_keyup;;
      removeAllListeners sock N_keydown
  | H_close2 id, EvClose =>
      updSocket sock (withButtonListeners None);;
      callSurfaces (removeDevice id);;
      removeAllListeners sock N_keyup;;
      removeAllListeners sock N_keydown;;
      setClient None
  | H_request_button, EvRequestButton page bank =>
      bl ← getButtonListeners sock;
      let banks := default ∅ (pages bl !! page) in
      updSocket sock (withButtonListeners (Some (setPage bl page ({[bank]} ∪ banks))));;
      socketResponse sock "request_button" ArgResultOk;;
      handleBankChanged page (bank + 1)
  | H_unrequest_button, EvUnrequestButton page bank =>
      bl ← getButtonListeners sock;
      match pages bl !! page with
      | Some banks =>
          updSocket sock (withButtonListeners (Some (setPage bl page (banks ∖ {[bank]}))))
      | None => mret tt
      end;;
      socketResponse sock "request_button" ArgResultOk
  | _, _ => mret tt
  end.

(** [socket.emit]: the listeners registered for the event when it is
    emitted run in registration order; a [once] listener is removed just
    before it runs; an exception ends the emit. *)
Fixpoint callListeners (sock : nat) (ls : list listener) (e : event) : M unit :=
  match ls with
  | [] => mret tt
  | l :: ls' =>
      (if l_once l then updSocket sock (withListeners (removeFirst l)) else mret tt);;
      runHandler sock (l_handler l) e;;
      callListeners sock ls' e
  end.

Definition listenersFor (n : name) (k : Socket) : list listener :=
  List.filter (fun l => bool_decide (l_name l = n)) (listeners k).

Definition emit (sock : nat) (e : event) : M unit :=
  s ← get;
  match sockets s !! sock with
  | Some k => callListeners sock (listenersFor (name_of e) k) e
  | None => mret tt
  end.

Definition acceptedSocket (remoteAddress : string) : Socket :=
  {| remoteAddress := remoteAddress; listeners := []; sent := [];
     closed := false; button_listeners := None |}.

(** [processIncoming]: accept the connection, rig the version handler, and
    listen for frames and for the end of the connection. *)
Definition processIncoming (remoteAddress : string) : M nat :=
  s ← get;
  let sock := fresh (dom (sockets s)) in
  modify (fun s => {| sockets := <[sock := acceptedSocket remoteAddress]> (sockets s);
                      client := client s; surfaces := surfaces s;
                      system := system s |});;
  initSocket sock;;
  on sock N_close H_close_log;;
  mret sock.

(** The [message] listener: an exception of the emit is caught and only
    logged. *)
Definition receive (sock : nat) (e : event) (s : Service) : Service :=
  fst (emit sock e s).

(** What happens to the service from outside. *)
Inductive input : Type :=
| Connect (remoteAddress : string)
| Frame (sock : nat) (e : event)
| BankInvalidated (page bank : Z).

Definition step (s : Service) (i : input) : Service :=
  match i with
  | Connect a => fst (processIncoming a s)
  | Frame sock e => receive sock e s
  | BankInvalidated page bank => fst (handleBankChanged page bank s)
  end.

Definition run (inputs : list input) : Service := foldl step initial inputs.

(** The socket of a connection on which nothing was received yet. *)
Definition newSocket (remoteAddress : string) : Socket :=
  {| remoteAddress := remoteAddress;
     listeners := [mkListener N_version false H_version;
                   mkListener N_close false H_close_log];
     sent := []; closed := false; button_listeners := None |}.

(** The listeners of a socket that negotiated version 2 and then
    registered its device. *)
Definition v2Listeners (remoteAddress : string) : list listener :=
  [mkListener N_version false H_version;
   mkListener N_close false H_close_log;
   mkListener N_request_button false H_request_button;
   mkListener N_unrequest_button false H_unrequest_button;
   mkListener N_close false (H_close2 ("elgato_plugin-" +:+ remoteAddress))].

(** Whether a socket is a registered version 2 session: it carries the
    listeners above and its [button_listeners]. *)
Definition v2Session (s : Service) (sock : nat) : bool :=
  match sockets s !! sock with
  | Some k =>
      bool_decide (listeners k = v2Listeners (remoteAddress k))
      && match button_listeners k with Some _ => true | None => false end
  | None => false
  end.

(** The socket of a new connection after a version above 2 was refused. *)
Definition refusedSocket (remoteAddress : string) : Socket :=
  {| remoteAddress := remoteAddress;
     listeners := listeners (newSocket remoteAddress);
     sent := [Response "version" (ArgVersion 2 (Some "cannot continue"))];
     closed := true; button_listeners := None |}.

(** The socket of a new connection that negotiated version 1: the version 1
    registration handler waits for [new_device]. *)
Definition v1Socket (remoteAddress : string) : Socket :=
  {| remoteAddress := remoteAddress;
     listeners := listeners (newSocket remoteAddress)
                  ++ [mkListener N_new_device true H_new_device1];
     sent := [Response "version" (ArgVersion 1 None)];
     closed := false; button_listeners := None |}.

(** The socket of a new connection that negotiated version 2: the version 2
    registration handler waits for [new_device], next to the two
    subscription handlers. *)
Definition v2Socket (remoteAddress : string) : Socket :=
  {| remoteAddress := remoteAddress;
     listeners := listeners (newSocket remoteAddress)
                  ++ [mkListener N_new_device true H_new_device2;
                      mkListener N_request_button false H_request_button;
                      mkListener N_unrequest_button false H_unrequest_button];
     sent := [Response "version" (ArgVersion 2 None)];
     closed := false; button_listeners := None |}.

Definition setSocket (s : Service) (sock : nat) (k : Socket) : Service :=
  {| sockets := <[sock := k]> (sockets s); client := client s;
     surfaces := surfaces s; system := system s |}.

Definition subscribed (bl : ButtonListeners) (page bank : Z) : bool :=
  match pages bl !! page with
  | Some banks => bool_decide (bank ∈ banks)
  | None => false
  end.

Definition subscribe (bl : ButtonListeners) (page bank : Z) : ButtonListeners :=
  setPage bl page ({[bank]} ∪ default ∅ (pages bl !! page)).

(** The socket of a session after [request_button]: the subscription is
    recorded and the reply is sent. *)
Definition requested (k : Socket) (bl : ButtonListeners) (page bank : Z) : Socket :=
  withSent (Response "request_button" ArgResultOk)
    (withButtonListeners (Some (subscribe bl page bank)) k).

Definition fillImage (page bank : Z) (data : string) : frame :=
  Command "fillImage" (ArgFillImage page bank bank data).

Definition isFillImage (fr : frame) : bool :=
  match fr with
  | Command _ (ArgFillImage _ _ _ _) => true
  | _ => false
  end.

(** The service after a socket registered its device: the registry got
    one [addDevice] call and the surface driver was handed the socket. *)
Definition registered (s : Service) (sock : nat) (k : Socket) (c : option nat) : Service :=
  {| sockets := <[sock := k]> (sockets s);
     client := c;
     surfaces := surfaces s ++ [addDevice (deviceId k) "streamdeck_plugin"];
     system := system s ++ [(deviceId k +:+ "_plugin_startup", sock)] |}.

(** The socket of a version 1 connection after [new_device]. *)
Definition v1Registered (remoteAddress : string) : Socket :=
  {| remoteAddress := remoteAddress;
     listeners := listeners (newSocket remoteAddress)
                  ++ [mkListener N_get_instances false H_get_instances;
                      mkListener N_close false
                        (H_close1 ("elgato_plugin-" +:+ remoteAddress))];
     sent := [Response "version" (ArgVersion 1 None);
              Response "new_device" (ArgNewDevice true)];
     closed := false; button_listeners := None |}.

(** The socket of a version 2 connection after [new_device]. *)
Definition v2Registered (remoteAddress : string) : Socket :=
  {| remoteAddress := remoteAddress;
     listeners := v2Listeners remoteAddress;
     sent := [Response "version" (ArgVersion 2 None);
              Response "new_device" (ArgNewDevice true)];
     closed := false; button_listeners := Some emptyButtonListeners |}.

(** A computation run for an event on a socket that leaves [this.client]
    as it was or, for [new_device], sets it to that socket or, for
    [close], clears it. *)
Definition clientFrom {A} (sock : nat) (e : event) (m : M A) : Prop :=
  forall s,
    client (fst (m s)) = client s
    \/ (client (fst (m s)) = Some sock /\ exists id, e = EvNewDevice id)
    \/ (client (fst (m s)) = None /\ e = EvClose).

(** Whether a socket holds a subscription for a button. *)
Definition subscribedOn (s : Service) (sock : nat) (page bank : Z) : bool :=
  match sockets s !! sock ≫= button_listeners with
  | Some bl => subscribed bl page bank
  | None => false
  end.

(** The [dynamic] and [static] members of a socket's [button_listeners]. *)
Definition dynamicOn (s : Service) (sock : nat) : option (gmap Z (gset Z)) :=
  dynamic <$> (sockets s !! sock ≫= button_listeners).

Definition staticOn (s : Service) (sock : nat) : option (gmap Z (gset Z)) :=
  static <$> (sockets s !! sock ≫= button_listeners).

(** The subscriptions after [unrequest_button]: the bank leaves the set of
    its page when the page has one. *)
Definition unsubscribe (bl : ButtonListeners) (page bank : Z) : ButtonListeners :=
  match pages bl !! page with
  | Some banks => setPage bl page (banks ∖ {[bank]})
  | None => bl
  end.

(** The frames sent on a socket, none when there is no such socket. *)
Definition sentOn (s : Service) (sock : nat) : list frame :=
  match sockets s !! sock with
  | Some k => sent k
  | None => []
  end.

(** A computation that sends nothing on a socket and does not make it
    [this.client], provided it is not [this.client] to begin with. *)
Definition quietOn {A} (other : nat) (m : M A) : Prop :=
  forall s, client s <> Some other ->
    client (fst (m s)) <> Some other
    /\ sentOn (fst (m s)) other = sentOn s other.

(** A computation that makes no call on the surface registry. *)
Definition keepsSurfaces {A} (m : M A) : Prop :=
  forall s, surfaces (fst (m s)) = surfaces s.

End Service.

End ElgatoPlugin.

(** ** lib/Graphics/Preview *)

Module Preview.
Import ElgatoPlugin.

(** What a client is sent, by the name of the event. *)
Inductive emission : Type :=
| preview_bank_data (page bank : Z) (buffer : string) (updated : Z)
| preview_page_data (result : gmap Z Button)
| buttons_bank_data (page : Z) (result : gmap Z Button)
| buttons_page_data (page : Z) (result : gmap Z Button)
| pages (payload : string)
| page_update_ext (page : string) (info : string).

(** How [sendResult] delivers: through the answer function when the
    caller gave one, as an event on the client otherwise. *)
Inductive delivery : Type :=
| ByAnswer (e : emission)
| ByEvent (e : emission).

(** A connected client: [client._preview], [client._previewPage],
    [client.web_buttons] and what it was sent, oldest first. *)
Record Client : Type := mkClient {
  _preview : option (Z * Z);
  _previewPage : option Z;
  web_buttons : bool;
  received : list delivery;
}.

(** The [cache] argument of the page handlers. *)
Inductive cacheArg : Type :=
| CNull
| CUndefined
| CObject (stamps : gmap Z Z).

(** The first argument of [bank_preview]: [false] or a page, then a bank. *)
Inductive previewArg : Type :=
| Off
| On (page bank : Z).

Definition sendResult (answer : bool) (e : emission) (c : Client) : Client :=
  {| _preview := _preview c; _previewPage := _previewPage c;
     web_buttons := web_buttons c;
     received := received c ++ [if answer then ByAnswer e else ByEvent e] |}.

Definition emit (e : emission) (c : Client) : Client := sendResult false e c.

Section Preview.

(** [this.graphics.getBank], the image at an index of the array that
    [this.graphics.getImagesForPage] returns (one image per bank), and what
    comes from the page controller, which is not modelled: the extended
    pages of [handleWebButtons], [this.page.getPage] and the result of
    [getExtendedPageInfo] on a page. *)
Variable getBank : Z -> Z -> Button.
Variable getImagesForPage : Z -> Z -> Button.
Variable pagesPayload : string.
Variable getPage : Z -> string.
Variable pagePayload : Z -> string.

(** [this.clients], by [client.id].  A socket that has disconnected
    delivers no more events: the handlers do nothing for an id that is not
    connected. *)
Abbreviation State := (gmap string Client).

Definition newClient : Client :=
  {| _preview := None; _previewPage := None; web_buttons := false; received := [] |}.

Definition clientConnect (id : string) (st : State) : State := <[id := newClient]> st.

Definition disconnect (id : string) (st : State) : State := delete id st.

(** The test of the two page loops on bank [k] with stamp [u]:
    [cache === undefined || cache[k] === undefined || cache[k] != u]. *)
Definition stale (cache : option (gmap Z Z)) (k u : Z) : bool :=
  match cache with
  | None => true
  | Some stamps =>
      match stamps !! k with
      | None => true
      | Some v => negb (v =? u)
      end
  end.

(** [for (let i = ...; i < global.MAX_BUTTONS; ++i)], for the [n]
    iterations that remain. *)
Fixpoint collect (cache : option (gmap Z Z)) (images : Z -> Button)
    (n : nat) (i : Z) (result : gmap Z Button) : gmap Z Button :=
  match n with
  | O => result
  | S n' =>
      let result :=
        if stale cache (i + 1) (updated (images i))
        then <[i + 1 := images i]> result
        else result in
      collect cache images n' (i + 1) result
  end.

Definition pageDelta (cache : option (gmap Z Z)) (page : Z) : gmap Z Button :=
  collect cache (getImagesForPage page) (Z.to_nat MAX_BUTTONS) 0 ∅.

Definition handlePreview (id : string) (arg : previewArg) (st : State) : State :=
  match st !! id with
  | None => st
  | Some c =>
      match arg with
      | Off =>
          <[id := {| _preview := None; _previewPage := _previewPage c;
                     web_buttons := web_buttons c; received := received c |}]> st
      | On page bank =>
          let c := {| _preview := Some (page, bank); _previewPage := _previewPage c;
                      web_buttons := web_buttons c; received := received c |} in
          let img := getBank page bank in
          <[id := emit (preview_bank_data page bank (buffer img) (updated img)) c]> st
      end
  end.

(** With a [null] cache the test [cache[1]] throws after the page was
    recorded: the second component is [false] and nothing is sent. *)
Definition handlePreviewPage (id : string) (page : Z) (cache : cacheArg)
    (st : State) : State * bool :=
  match st !! id with
  | None => (st, true)
  | Some c =>
      let c := {| _preview := _preview c; _previewPage := Some page;
                  web_buttons := web_buttons c; received := received c |} in
      match cache with
      | CNull => (<[id := c]> st, false)
      | CUndefined => (<[id := emit (preview_page_data (pageDelta None page)) c]> st, true)
      | CObject stamps =>
          (<[id := emit (preview_page_data (pageDelta (Some stamps) page)) c]> st, true)
      end
  end.

Definition handleWebButtons (id : string) (answer : bool) (st : State) : State :=
  match st !! id with
  | None => st
  | Some c =>
      let c := {| _preview := _preview c; _previewPage := _previewPage c;
                  web_buttons := true; received := received c |} in
      <[id := sendResult answer (pages pagesPayload) c]> st
  end.

Definition handleWebButtonsPage (id : string) (page : Z) (cache : cacheArg)
    (answer : bool) (st : State) : State :=
  match st !! id with
  | None => st
  | Some c =>
      match cache with
      | CNull => st
      | CUndefined =>
          <[id := sendResult answer (buttons_page_data page (pageDelta None page)) c]> st
      | CObject stamps =>
          <[id := sendResult answer
                    (buttons_page_data page (pageDelta (Some stamps) page)) c]> st
      end
  end.

(** The body of the loop of [updateBank], for one client. *)
Definition updateClient (page bank : Z) (c : Client) : Client :=
  let c :=
    match _preview c with
    | Some (p, b) =>
        if (p =? page) && (b =? bank) then
          let img := getBank page bank in
          emit (preview_bank_data page bank (buffer img) (updated img)) c
        else c
    | None => c
    end in
  if web_buttons c then
    emit (buttons_bank_data page {[bank := getBank page bank]}) c
  else
    match _previewPage c with
    | Some p =>
        if p =? page then emit (preview_page_data {[bank := getBank page bank]}) c
        else c
    | None => c
    end.

Definition updateBank (page bank : Z) (st : State) : State :=
  updateClient page bank <$> st.

Definition updateWebButtonsPage (id : Z) (st : State) : State :=
  let page := getPage id in
  let newInfo := pagePayload id in
  (fun c => if web_buttons c then emit (page_update_ext page newInfo) c else c)
    <$> st.

(** What a client was sent, nothing when it is not connected. *)
Definition receivedBy (st : State) (id : string) : list delivery :=
  match st !! id with
  | Some c => received c
  | None => []
  end.

End Preview.

End Preview.

(** ** A sample configuration

    Two upgrade steps over stores and exports whose payload records the
    scripts that ran on them; the second step has no import script. *)

Module Sample.
Import Upgrade.

Definition ran_on (n : Z) (d : @Database (list Z)) : @Database (list Z) :=
  {| live := {| page_config_version := page_config_version (live d);
                data := data (live d) ++ [n] |};
     durable := durable d;
     cfgFile := cfgFile d |}.

Definition imported (n : Z) (o : @Export (list Z)) : @Export (list Z) :=
  {| version := version o; body := body o ++ [n] |}.

Definition upgrades : list (@UpgradeStep (list Z) (list Z)) :=
  [ {| step_upgradeStartup := ran_on 1; step_upgradeImport := Some (imported 1) |};
    {| step_upgradeStartup := ran_on 2; step_upgradeImport := None |} ].

Definition json (d : @Database (list Z)) : option string := Some "{}".

Definition anywhere (path : string) : bool := true.

Definition store_at (v : option Z) : @Database (list Z) :=
  {| live := {| page_config_version := v; data := [] |};
     durable := {| page_config_version := v; data := [] |};
     cfgFile := "db" |}.

Definition export_at (v : option Z) : @Export (list Z) :=
  {| version := v; body := [] |}.

(** A renderer whose image of a button names its page and bank. *)
Definition getBank (page bank : Z) : ElgatoPlugin.Button :=
  {| ElgatoPlugin.buffer := pretty page +:+ "/" +:+ pretty bank;
     ElgatoPlugin.updated := 0 |}.

Definition instances : string := "{}".

Import ElgatoPlugin.

(** One connection, nothing received yet. *)
Definition connected : Service :=
  run getBank instances [Connect "a"].

(** One connection that negotiated version 1, and one that negotiated
    version 2, neither registered yet. *)
Definition negotiated1 : Service :=
  run getBank instances [Connect "a"; Frame 0 (EvVersion (Some 1))].

Definition negotiated2 : Service :=
  run getBank instances [Connect "a"; Frame 0 (EvVersion (Some 2))].

(** One connection that negotiated version 2 and registered its device. *)
Definition one_session : Service :=
  run getBank instances
    [Connect "a"; Frame 0 (EvVersion (Some 2)); Frame 0 (EvNewDevice "x")].

(** The same session after [request_button {page: 1, bank: 3}]. *)
Definition one_subscription : Service :=
  step getBank instances one_session (Frame 0 (EvRequestButton 1 3)).

(** Two connections that negotiated version 2 and registered, the second
    after the first. *)
Definition two_sessions : Service :=
  run getBank instances
    [Connect "a"; Connect "b";
     Frame 0 (EvVersion (Some 2)); Frame 0 (EvNewDevice "x");
     Frame 1 (EvVersion None); Frame 1 (EvNewDevice "y")].

(** A line of parameters: a pair, a flag, a quoted value with a space, and
    the first key again. *)
Definition line : list LineParameters.param :=
  [LineParameters.Plain "bank" "3"; LineParameters.Flag "force";
   LineParameters.Quoted "text" "on air"; LineParameters.Plain "bank" "4"].

End Sample.

(** * Properties *)

(** ** Key mapping *)

Section KeyMapping.
Import Util.

Lemma js_ge_div_pos (row a b : Z) :
  0 < b -> (b | a) -> js_ge row (js_div a b) = (a / b <=? row).
Proof.
  intros Hb [k ->]. rewrite Z.div_mul by lia.
  destruct b as [|p|p]; try lia. cbn [js_div js_ge].
  unfold Qle_bool, inject_Z; cbn [Qnum Qden].
  apply eq_true_iff_eq. rewrite !Z.leb_le. nia.
Qed.

Lemma rem_mod_nonneg (a b : Z) : 0 <= a -> 0 < b -> Z.rem a b = a mod b.
Proof. intros. apply Z.rem_mod_nonneg; lia. Qed.

Lemma toDeviceKey_full (keysPerRow key : Z) :
  toDeviceKey MAX_BUTTONS keysPerRow key = key.
Proof. reflexivity. Qed.

Lemma toDeviceKey_cropped (keysTotal keysPerRow key : Z) :
  valid_layout keysTotal keysPerRow ->
  0 <= key ->
  keysTotal <> MAX_BUTTONS ->
  toDeviceKey keysTotal keysPerRow key = cropped_spec keysTotal keysPerRow key.
Proof.
  intros [Hw Hdiv] Hk Hne. unfold toDeviceKey, cropped_spec, MAX_BUTTONS_PER_ROW in *.
  destruct (Z.eqb_spec keysTotal MAX_BUTTONS) as [|_]; [contradiction|].
  rewrite rem_mod_nonneg by lia.
  pose proof (Z.mod_pos_bound key 8 ltac:(lia)) as Hc.
  pose proof (Z.div_pos key 8 Hk ltac:(lia)) as Hr.
  replace (key mod 8 <? 0) with false by (symmetry; apply Z.ltb_ge; lia).
  replace (key / 8 <? 0) with false by (symmetry; apply Z.ltb_ge; lia).
  cbn [orb].
  destruct (Z.ltb_spec keysPerRow (key mod 8)) as [Hlt|Hge].
  - replace (keysPerRow <=? key mod 8) with true by (symmetry; apply Z.leb_le; lia).
    reflexivity.
  - destruct (Z.leb_spec keysPerRow (key mod 8)) as [Hle|Hgt].
    + now rewrite orb_true_r.
    + rewrite !orb_false_r. rewrite js_ge_div_pos by (lia || assumption).
      reflexivity.
Qed.

(** The global key of a device key splits back into the device row and
    column. *)
Lemma toGlobalKey_split (keysPerRow key : Z) :
  1 <= keysPerRow <= 8 -> 0 <= key ->
  exists g, toGlobalKey keysPerRow key = Some g
            /\ 0 <= g
            /\ g / 8 = key / keysPerRow
            /\ g mod 8 = key mod keysPerRow.
Proof.
  intros Hw Hk. unfold toGlobalKey, MAX_BUTTONS_PER_ROW.
  destruct (Z.eqb_spec keysPerRow 0) as [|_]; [lia|].
  rewrite rem_mod_nonneg by lia.
  pose proof (Z.mod_pos_bound key keysPerRow ltac:(lia)) as Hc.
  pose proof (Z.div_pos key keysPerRow Hk ltac:(lia)) as Hr.
  eexists; split; [reflexivity|]. split; [nia|].
  split.
  - rewrite Z.add_comm, Z.div_add by lia.
    rewrite Z.div_small by lia. lia.
  - rewrite Z.add_comm, Z.mod_add by lia. apply Z.mod_small; lia.
Qed.

(** C1, as the specification states it, fails on a 32-key layout that is
    not 8 wide: the source tests the identity layout by [keysTotal] alone,
    so key 5 of the layout (32, 4) is returned unchanged where the cropping
    gives -1. *)
Lemma C1_counterexample :
  valid_layout 32 4 /\ 0 <= 5 < 32
  /\ toDeviceKey 32 4 5 = 5
  /\ toDeviceKey_spec 32 4 5 = -1
  /\ toDeviceKey 32 4 5 <> toDeviceKey_spec 32 4 5.
Proof.
  split; [split; [unfold MAX_BUTTONS_PER_ROW; lia | exists 8; reflexivity] |].
  split; [lia |].
  split; [reflexivity |]. split; [reflexivity | discriminate].
Qed.

(** C1 (amended): for every layout satisfying the DeviceLayout invariants
    and every logical key in [0,32), [toDeviceKey] returns the key
    unchanged when [keysTotal] is 32 (whatever [keysPerRow] is); otherwise,
    with [row = key / 8] and [col = key % 8], it returns -1 exactly when
    [col] is outside [0, keysPerRow) or [row] is outside
    [0, keysTotal / keysPerRow), and [row * keysPerRow + col] otherwise. *)
Theorem C1_toDeviceKey (keysTotal keysPerRow key : Z) :
  valid_layout keysTotal keysPerRow ->
  0 <= key < 32 ->
  toDeviceKey keysTotal keysPerRow key
  = if keysTotal =? 32 then key else cropped_spec keysTotal keysPerRow key.
Proof.
  intros Hl Hk. destruct (Z.eqb_spec keysTotal 32) as [-> | Hne].
  - apply toDeviceKey_full.
  - apply toDeviceKey_cropped; [assumption | lia | exact Hne].
Qed.

Lemma C1_toDeviceKey_witness :
  valid_layout 15 5 /\ 0 <= 10 < 32 /\ toDeviceKey 15 5 10 = 7.
Proof.
  assert (Hl : valid_layout 15 5).
  { split; [unfold MAX_BUTTONS_PER_ROW; lia | exists 3; reflexivity]. }
  assert (Hk : 0 <= 10 < 32) by lia.
  split; [exact Hl |]. split; [exact Hk |].
  exact (C1_toDeviceKey 15 5 10 Hl Hk).
Defined.

(** C2, as the specification states it, fails: the column of the new grid
    is [k % 5 + 1], so the legacy key 1 maps to 1, not to 0 (and 6 to 9,
    15 to 21). *)
Lemma C2_counterexample :
  ~ (from15to32 1 = 0 /\ from15to32 6 = 8 /\ from15to32 15 = 18).
Proof. intros [H _]. vm_compute in H. discriminate. Qed.

(** C2 (amended): [from15to32 1 = 1], [from15to32 6 = 9] and
    [from15to32 15 = 21]. *)
Theorem C2_from15to32_values :
  from15to32 1 = 1 /\ from15to32 6 = 9 /\ from15to32 15 = 21.
Proof. repeat split. Qed.

(** C3: the round trip fails on a 32-key layout that is not 8 wide,
    although [toGlobalKey] is documented as the reverse of [toDeviceKey]:
    the layout (32, 4) satisfies the invariants, its device key 4 has
    global key 8, and [toDeviceKey], which returns every key of a 32-key
    device unchanged whatever its width, gives 8 back and not 4. *)
Lemma C3_counterexample :
  valid_layout 32 4 /\ 0 <= 4 < 32
  /\ toGlobalKey 4 4 = Some 8
  /\ toDeviceKey 32 4 8 = 8
  /\ toDeviceKey 32 4 <$> toGlobalKey 4 4 <> Some 4.
Proof.
  split; [split; [unfold MAX_BUTTONS_PER_ROW; lia | exists 8; reflexivity] |].
  split; [lia |].
  split; [reflexivity |]. split; [reflexivity | discriminate].
Qed.

(** X31: [toDeviceKey] undoes [toGlobalKey] on every layout but the
    32-key layouts narrower than 8: for a layout with [1 <= keysPerRow <= 8]
    and [keysTotal] a multiple of [keysPerRow] (small enough for the global
    key to stay an exact integer) that is not such a layout, and every
    device key with [0 <= deviceKey < keysTotal], the device key of the
    global key of [deviceKey] is [deviceKey]. *)
Theorem toDeviceKey_toGlobalKey (keysTotal keysPerRow deviceKey : Z) :
  valid_layout keysTotal keysPerRow ->
  1 <= keysPerRow ->
  keysTotal <= 2 ^ 50 ->
  keysTotal <> 32 \/ keysPerRow = 8 ->
  0 <= deviceKey < keysTotal ->
  toDeviceKey keysTotal keysPerRow <$> toGlobalKey keysPerRow deviceKey
  = Some deviceKey.
Proof.
  intros Hl Hpos _ Hid Hk. pose proof Hl as [Hw [q Hq]].
  unfold MAX_BUTTONS_PER_ROW in Hw.
  destruct (toGlobalKey_split keysPerRow deviceKey) as (g & -> & Hg & Hrow & Hcol);
    [lia | lia |].
  cbn [fmap option_fmap option_map]. f_equal.
  pose proof (Z.mod_pos_bound deviceKey keysPerRow ltac:(lia)) as Hc.
  pose proof (Z.div_mod deviceKey keysPerRow ltac:(lia)) as Hdm.
  destruct (Z.eq_dec keysTotal 32) as [-> | Hne].
  - destruct Hid as [Hid | ->]; [contradiction|].
    rewrite toDeviceKey_full.
    pose proof (Z.div_mod g 8 ltac:(lia)). lia.
  - rewrite toDeviceKey_cropped by (assumption || lia).
    unfold cropped_spec. rewrite Hrow, Hcol.
    assert (Hq' : keysTotal / keysPerRow = q) by (subst keysTotal; apply Z.div_mul; lia).
    rewrite Hq'.
    assert (deviceKey / keysPerRow < q).
    { apply Z.div_lt_upper_bound; lia. }
    pose proof (Z.div_pos deviceKey keysPerRow ltac:(lia) ltac:(lia)).
    replace (deviceKey mod keysPerRow <? 0) with false by (symmetry; apply Z.ltb_ge; lia).
    replace (keysPerRow <=? deviceKey mod keysPerRow) with false by (symmetry; apply Z.leb_gt; lia).
    replace (deviceKey / keysPerRow <? 0) with false by (symmetry; apply Z.ltb_ge; lia).
    replace (q <=? deviceKey / keysPerRow) with false by (symmetry; apply Z.leb_gt; lia).
    cbn [orb]. lia.
Qed.

Lemma toDeviceKey_toGlobalKey_witness :
  toDeviceKey 15 5 <$> toGlobalKey 5 7 = Some 7.
Proof.
  apply (toDeviceKey_toGlobalKey 15 5 7).
  - split; [unfold MAX_BUTTONS_PER_ROW; lia | exists 3; reflexivity].
  - lia.
  - lia.
  - left; lia.
  - lia.
Defined.

(** C10: for every [oldKey >= 1] the result of [from15to32] lies in
    [1, 31]: the mapped column [k % 5 + 1] is at least 1, so the result is
    never 0, and a computed result of 32 or more is clamped to 31. *)
Theorem C10_from15to32_range (key : Z) :
  1 <= key ->
  1 <= from15to32 key <= 31
  /\ 1 <= Z.rem (key - 1) 5 + 1
  /\ (32 <= (key - 1) / 5 * 8 + (Z.rem (key - 1) 5 + 1) -> from15to32 key = 31).
Proof.
  intros Hk. unfold from15to32.
  rewrite rem_mod_nonneg by lia.
  pose proof (Z.mod_pos_bound (key - 1) 5 ltac:(lia)) as Hc.
  pose proof (Z.div_pos (key - 1) 5 ltac:(lia) ltac:(lia)) as Hr.
  destruct (Z.leb_spec 32 ((key - 1) / 5 * 8 + ((key - 1) mod 5 + 1))); lia.
Qed.

Lemma C10_from15to32_range_witness :
  1 <= from15to32 21 <= 31
  /\ 1 <= Z.rem (21 - 1) 5 + 1
  /\ (32 <= (21 - 1) / 5 * 8 + (Z.rem (21 - 1) 5 + 1) -> from15to32 21 = 31).
Proof. apply (C10_from15to32_range 21). lia. Defined.

(** *** More on the key mappings *)

Lemma from15to32_unclamped (key : Z) :
  1 <= key <= 20 ->
  from15to32 key = (key - 1) / 5 * 8 + ((key - 1) mod 5 + 1)
  /\ from15to32 key / 8 = (key - 1) / 5
  /\ from15to32 key mod 8 = (key - 1) mod 5 + 1.
Proof.
  intros Hk. unfold from15to32. rewrite rem_mod_nonneg by lia.
  pose proof (Z.mod_pos_bound (key - 1) 5 ltac:(lia)) as Hc.
  assert (Hr : 0 <= (key - 1) / 5 <= 3).
  { split; [apply Z.div_pos; lia|].
    apply Z.lt_succ_r. apply Z.div_lt_upper_bound; lia. }
  destruct (Z.leb_spec 32 ((key - 1) / 5 * 8 + ((key - 1) mod 5 + 1))) as [|_]; [lia|].
  split; [reflexivity|]. split.
  - rewrite Z.add_comm, Z.div_add by lia. rewrite Z.div_small by lia. lia.
  - rewrite Z.add_comm, Z.mod_add by lia. apply Z.mod_small. lia.
Qed.

(** X14: on the legacy keys 1 to 20 (the 15 keys of a legacy page among
    them) [from15to32] never clamps: the key keeps its row, moves to the
    column after its own, and no two keys are mapped to the same place. *)
Theorem from15to32_injective_below_21 (k1 k2 : Z) :
  1 <= k1 <= 20 -> 1 <= k2 <= 20 ->
  from15to32 k1 = (k1 - 1) / 5 * 8 + ((k1 - 1) mod 5 + 1)
  /\ from15to32 k1 <= 30
  /\ (from15to32 k1 = from15to32 k2 -> k1 = k2).
Proof.
  intros H1 H2.
  destruct (from15to32_unclamped k1 H1) as (E1 & R1 & C1).
  destruct (from15to32_unclamped k2 H2) as (E2 & R2 & C2).
  pose proof (Z.mod_pos_bound (k1 - 1) 5 ltac:(lia)) as Hc1.
  assert (Hr1 : (k1 - 1) / 5 <= 3).
  { apply Z.lt_succ_r. apply Z.div_lt_upper_bound; lia. }
  split; [exact E1|]. split; [lia|].
  intros Heq. rewrite Heq in R1, C1.
  pose proof (Z.div_mod (k1 - 1) 5 ltac:(lia)).
  pose proof (Z.div_mod (k2 - 1) 5 ltac:(lia)).
  lia.
Qed.

Lemma from15to32_injective_below_21_witness :
  1 <= 5 <= 20 /\ 1 <= 6 <= 20
  /\ from15to32 5 = 5 /\ (from15to32 5 = from15to32 6 -> 5 = 6).
Proof.
  assert (H1 : 1 <= 5 <= 20) by lia. assert (H2 : 1 <= 6 <= 20) by lia.
  split; [exact H1|]. split; [exact H2|].
  destruct (from15to32_injective_below_21 5 6 H1 H2) as (E & _ & Hi).
  split; [exact E | exact Hi].
Defined.

(** X15: every legacy key from 21 on is mapped to the same key 31: beyond
    the fourth legacy row the clamp collapses all keys. *)
Theorem from15to32_clamps_from_21 (key : Z) :
  21 <= key -> from15to32 key = 31.
Proof.
  intros Hk. unfold from15to32. rewrite rem_mod_nonneg by lia.
  pose proof (Z.mod_pos_bound (key - 1) 5 ltac:(lia)) as Hc.
  assert (Hr : 4 <= (key - 1) / 5) by (apply Z.div_le_lower_bound; lia).
  destruct (Z.leb_spec 32 ((key - 1) / 5 * 8 + ((key - 1) mod 5 + 1)));
    [reflexivity | lia].
Qed.

Lemma from15to32_clamps_from_21_witness :
  21 <= 40 /\ from15to32 40 = 31.
Proof. split; [lia | apply (from15to32_clamps_from_21 40); lia]. Defined.

(** X16: a migrated legacy page looks the same on a 15-key device: for a
    legacy key [k] from 1 to 15, the zero-based position [from15to32 k - 1]
    of the 32-key grid is, on the layout (15, 5), the device key [k - 1]. *)
Theorem legacy_key_on_15_key_device (k : Z) :
  1 <= k <= 15 ->
  toDeviceKey 15 5 (from15to32 k - 1) = k - 1.
Proof.
  intros Hk.
  destruct (from15to32_unclamped k ltac:(lia)) as (E & R & C).
  pose proof (Z.mod_pos_bound (k - 1) 5 ltac:(lia)) as Hc.
  assert (Hr : 0 <= (k - 1) / 5 <= 2).
  { split; [apply Z.div_pos; lia|].
    apply Z.lt_succ_r. apply Z.div_lt_upper_bound; lia. }
  pose proof (Z.div_mod (k - 1) 5 ltac:(lia)) as Hdm.
  rewrite toDeviceKey_cropped;
    [| split; [unfold MAX_BUTTONS_PER_ROW; lia | exists 3; reflexivity]
     | lia | unfold MAX_BUTTONS; lia].
  unfold cropped_spec.
  assert (Hd : (from15to32 k - 1) / 8 = (k - 1) / 5).
  { rewrite E. replace ((k - 1) / 5 * 8 + ((k - 1) mod 5 + 1) - 1)
      with ((k - 1) mod 5 + (k - 1) / 5 * 8) by lia.
    rewrite Z.div_add by lia. rewrite Z.div_small by lia. lia. }
  assert (Hm : (from15to32 k - 1) mod 8 = (k - 1) mod 5).
  { rewrite E. replace ((k - 1) / 5 * 8 + ((k - 1) mod 5 + 1) - 1)
      with ((k - 1) mod 5 + (k - 1) / 5 * 8) by lia.
    rewrite Z.mod_add by lia. apply Z.mod_small. lia. }
  rewrite Hd, Hm. change (15 / 5) with 3.
  replace ((k - 1) mod 5 <? 0) with false by (symmetry; apply Z.ltb_ge; lia).
  replace (5 <=? (k - 1) mod 5) with false by (symmetry; apply Z.leb_gt; lia).
  replace ((k - 1) / 5 <? 0) with false by (symmetry; apply Z.ltb_ge; lia).
  replace (3 <=? (k - 1) / 5) with false by (symmetry; apply Z.leb_gt; lia).
  cbn [orb]. lia.
Qed.

Lemma legacy_key_on_15_key_device_witness :
  1 <= 15 <= 15 /\ toDeviceKey 15 5 (from15to32 15 - 1) = 15 - 1.
Proof. split; [lia | apply (legacy_key_on_15_key_device 15); lia]. Defined.

(** X17: [toGlobalKey] undoes [toDeviceKey]: when a logical key has a
    device key on a layout that is not a 32-key layout narrower than 8, the
    global key of that device key is the logical key again. *)
Theorem toGlobalKey_toDeviceKey (keysTotal keysPerRow key : Z) :
  0 <= key ->
  keysTotal <> 32 \/ keysPerRow = 8 ->
  toDeviceKey keysTotal keysPerRow key <> -1 ->
  toGlobalKey keysPerRow (toDeviceKey keysTotal keysPerRow key) = Some key.
Proof.
  intros Hk Hid. unfold toDeviceKey, MAX_BUTTONS, MAX_BUTTONS_PER_ROW.
  pose proof (Z.mod_pos_bound key 8 ltac:(lia)) as Hc.
  pose proof (Z.div_pos key 8 Hk ltac:(lia)) as Hr.
  pose proof (Z.div_mod key 8 ltac:(lia)) as Hdm.
  destruct (Z.eqb_spec keysTotal 32) as [Heq | Hne].
  - destruct Hid as [Hid | ->]; [contradiction|]. intros _.
    unfold toGlobalKey, MAX_BUTTONS_PER_ROW. cbn [Z.eqb].
    rewrite rem_mod_nonneg by lia. f_equal. lia.
  - rewrite rem_mod_nonneg by lia.
    destruct (keysPerRow <? key mod 8); [intros Hx; now destruct Hx|].
    destruct (js_ge (key / 8) (js_div keysTotal keysPerRow)); cbn [orb];
      [intros Hx; now destruct Hx|].
    destruct (Z.leb_spec keysPerRow (key mod 8)) as [|Hlt];
      [intros Hx; now destruct Hx|].
    intros _. unfold toGlobalKey, MAX_BUTTONS_PER_ROW.
    destruct (Z.eqb_spec keysPerRow 0) as [|_]; [lia|].
    rewrite rem_mod_nonneg by nia. f_equal.
    rewrite Z.div_add_l by lia.
    rewrite (Z.div_small (key mod 8) keysPerRow) by lia.
    rewrite (Z.add_comm (key / 8 * keysPerRow)), Z.mod_add by lia.
    rewrite (Z.mod_small (key mod 8) keysPerRow) by lia. lia.
Qed.

Lemma toGlobalKey_toDeviceKey_witness :
  0 <= 10 /\ toDeviceKey 15 5 10 <> -1
  /\ toGlobalKey 5 (toDeviceKey 15 5 10) = Some 10.
Proof.
  assert (Hk : 0 <= 10) by lia.
  assert (Hd : toDeviceKey 15 5 10 <> -1) by (vm_compute; discriminate).
  split; [exact Hk|]. split; [exact Hd|].
  apply (toGlobalKey_toDeviceKey 15 5 10 Hk); [left; lia | exact Hd].
Defined.

(** X18: on a layout that satisfies the DeviceLayout invariants, a logical
    key of the grid is either absent from the device ([-1]) or mapped to a
    device key below [keysTotal]. *)
Theorem toDeviceKey_in_range (keysTotal keysPerRow key : Z) :
  valid_layout keysTotal keysPerRow ->
  0 <= key < 32 ->
  toDeviceKey keysTotal keysPerRow key = -1
  \/ 0 <= toDeviceKey keysTotal keysPerRow key < keysTotal.
Proof.
  intros Hl Hk. destruct (Z.eq_dec keysTotal 32) as [-> | Hne].
  - right. rewrite toDeviceKey_full. lia.
  - rewrite toDeviceKey_cropped by (assumption || lia).
    destruct Hl as [Hw [q Hq]]. unfold cropped_spec.
    pose proof (Z.mod_pos_bound key 8 ltac:(lia)) as Hc.
    pose proof (Z.div_pos key 8 ltac:(lia) ltac:(lia)) as Hr.
    destruct (Z.ltb_spec (key mod 8) 0); [lia|].
    destruct (Z.leb_spec keysPerRow (key mod 8)); cbn [orb]; [now left|].
    destruct (Z.ltb_spec (key / 8) 0); [lia|]. cbn [orb].
    destruct (Z.leb_spec (keysTotal / keysPerRow) (key / 8)); [now left|].
    right. subst keysTotal. rewrite Z.div_mul in * by lia. nia.
Qed.

Lemma toDeviceKey_in_range_witness :
  valid_layout 15 5 /\ 0 <= 18 < 32
  /\ (toDeviceKey 15 5 18 = -1 \/ 0 <= toDeviceKey 15 5 18 < 15).
Proof.
  assert (Hl : valid_layout 15 5).
  { split; [unfold MAX_BUTTONS_PER_ROW; lia | exists 3; reflexivity]. }
  assert (Hk : 0 <= 18 < 32) by lia.
  split; [exact Hl|]. split; [exact Hk|].
  exact (toDeviceKey_in_range 15 5 18 Hl Hk).
Defined.

(** X19: the global key of a device key lies in the logical grid whenever
    the device has at most four rows of at most eight keys. *)
Theorem toGlobalKey_in_grid (keysTotal keysPerRow deviceKey : Z) :
  1 <= keysPerRow <= 8 ->
  keysTotal <= 4 * keysPerRow ->
  0 <= deviceKey < keysTotal ->
  exists g, toGlobalKey keysPerRow deviceKey = Some g /\ 0 <= g < 32.
Proof.
  intros Hw Hrows Hk.
  destruct (toGlobalKey_split keysPerRow deviceKey Hw ltac:(lia))
    as (g & Hg & Hpos & Hrow & Hcol).
  exists g. split; [exact Hg|].
  pose proof (Z.mod_pos_bound deviceKey keysPerRow ltac:(lia)) as Hc.
  assert (deviceKey / keysPerRow < 4) by (apply Z.div_lt_upper_bound; lia).
  pose proof (Z.div_mod g 8 ltac:(lia)). lia.
Qed.

Lemma toGlobalKey_in_grid_witness :
  1 <= 5 <= 8 /\ 15 <= 4 * 5 /\ 0 <= 14 < 15
  /\ exists g, toGlobalKey 5 14 = Some g /\ 0 <= g < 32.
Proof.
  assert (Hw : 1 <= 5 <= 8) by lia. assert (Hr : 15 <= 4 * 5) by lia.
  assert (Hk : 0 <= 14 < 15) by lia.
  split; [exact Hw|]. split; [exact Hr|]. split; [exact Hk|].
  exact (toGlobalKey_in_grid 15 5 14 Hw Hr Hk).
Defined.

End KeyMapping.

(** ** Colours *)

Section ColorProps.
Import JS Colors.

Lemma pretty_N_char_digit (d : N) :
  (d < 10)%N ->
  digitValue (pretty_N_char d) = Some (Z.of_N d)
  /\ isWhite (pretty_N_char d) = false
  /\ pretty_N_char d <> "-"%char /\ pretty_N_char d <> "+"%char.
Proof.
  intros Hd.
  destruct d as [|p]; [repeat split; discriminate|].
  do 4 (destruct p as [p|p|]; try lia; try (repeat split; discriminate)).
Qed.

(** The digits that [pretty] writes for a positive number are read back by
    [digits], after whatever was read before. *)
Lemma digits_pretty_N_go (x : N) :
  (0 < x)%N ->
  exists k, 0 <= k /\ forall s acc seen,
    digits 10 (pretty_N_go x s) acc seen
    = digits 10 s (acc * 10 ^ k + Z.of_N x) true.
Proof.
  induction (N.lt_wf_0 x) as [x _ IH]. intros Hx.
  assert (Hd : (x mod 10 < 10)%N) by (apply N.mod_lt; lia).
  destruct (pretty_N_char_digit _ Hd) as (Hv & _).
  pose proof (N.div_mod x 10 ltac:(lia)) as Hdm.
  destruct (decide (x / 10 = 0)%N) as [Hz | Hnz].
  - exists 1. split; [lia|]. intros s acc seen.
    rewrite pretty_N_go_step by exact Hx. rewrite Hz, pretty_N_go_0.
    cbn [digits]. rewrite Hv.
    destruct (Z.ltb_spec (Z.of_N (x mod 10)) 10); [|lia].
    f_equal. lia.
  - destruct (IH (x / 10)%N) as (k & Hk & Hgo).
    { apply N.div_lt; lia. }
    { lia. }
    exists (k + 1). split; [lia|]. intros s acc seen.
    rewrite pretty_N_go_step by exact Hx. rewrite Hgo.
    cbn [digits]. rewrite Hv.
    destruct (Z.ltb_spec (Z.of_N (x mod 10)) 10); [|lia].
    f_equal. rewrite Z.pow_add_r by lia.
    replace (Z.of_N x) with (10 * Z.of_N (x / 10) + Z.of_N (x mod 10)) by lia.
    lia.
Qed.

Lemma pretty_N_go_head (x : N) :
  (0 < x)%N -> forall s,
  exists d s', (d < 10)%N /\ pretty_N_go x s = String (pretty_N_char d) s'.
Proof.
  induction (N.lt_wf_0 x) as [x _ IH]. intros Hx s.
  rewrite pretty_N_go_step by exact Hx.
  destruct (decide (x / 10 = 0)%N) as [Hz | Hnz].
  - rewrite Hz, pretty_N_go_0. exists (x mod 10)%N, s.
    split; [apply N.mod_lt; lia | reflexivity].
  - apply IH; [apply N.div_lt; lia | now apply N.neq_0_lt_0].
Qed.

Lemma parseInt_base10 (x : arg) :
  parseInt x 10
  = let '(sign, s) := stripSign (trimStart (toString x)) in
    (fun v => sign * v) <$> digits 10 s 0 false.
Proof. reflexivity. Qed.

Lemma parseInt_positive (p : positive) :
  parseInt (Str (pretty (N.pos p))) 10 = Some (Z.pos p).
Proof.
  rewrite parseInt_base10. unfold toString, pretty, pretty_N.
  destruct (decide (N.pos p = 0)%N) as [|_]; [discriminate|].
  destruct (pretty_N_go_head (N.pos p) ltac:(lia) "") as (d & s' & Hd & Hs).
  destruct (pretty_N_char_digit d Hd) as (_ & Hw & Hm & Hp).
  assert (Htrim : trimStart (pretty_N_go (N.pos p) "") = pretty_N_go (N.pos p) "").
  { rewrite Hs. cbn [trimStart]. now rewrite Hw. }
  assert (Hsign : stripSign (pretty_N_go (N.pos p) "")
                  = (1, pretty_N_go (N.pos p) "")).
  { rewrite Hs. unfold stripSign.
    destruct (pretty_N_char d) as [[] [] [] [] [] [] [] []]; try reflexivity;
      congruence. }
  rewrite Htrim, Hsign.
  destruct (digits_pretty_N_go (N.pos p) ltac:(lia)) as (k & _ & Hgo).
  rewrite Hgo. cbn. f_equal.
Qed.

(** [parseInt] of an integer number in base 10 is the number. *)
Lemma parseInt_Num (n : Z) : parseInt (Num n) 10 = Some n.
Proof.
  destruct n as [|p|p].
  - reflexivity.
  - apply parseInt_positive.
  - pose proof (parseInt_positive p) as Hp.
    rewrite parseInt_base10 in *. unfold toString in *.
    change (pretty (Z.neg p)) with (String "-"%char (pretty (N.pos p))).
    change (trimStart (String "-"%char (pretty (N.pos p))))
      with (String "-"%char (pretty (N.pos p))).
    cbn [stripSign].
    assert (Hplain : stripSign (trimStart (pretty (N.pos p)))
                     = (1, pretty (N.pos p))).
    { unfold pretty, pretty_N.
      destruct (decide (N.pos p = 0)%N) as [|_]; [discriminate|].
      destruct (pretty_N_go_head (N.pos p) ltac:(lia) "") as (d & s' & Hd & Hgo).
      destruct (pretty_N_char_digit d Hd) as (_ & Hw & Hm & Hpl).
      rewrite Hgo. cbn [trimStart]. rewrite Hw. unfold stripSign.
      destruct (pretty_N_char d) as [[] [] [] [] [] [] [] []]; try reflexivity;
        congruence. }
    rewrite Hplain in Hp.
    destruct (digits 10 (pretty (N.pos p)) 0 false) as [v|]; [|discriminate].
    cbn in *. injection Hp as Hv. f_equal. lia.
Qed.

Lemma byte_high_bits (y m : Z) : 0 <= y < 256 -> 8 <= m -> Z.testbit y m = false.
Proof.
  intros Hy Hm. rewrite <- (Z.mod_small y (2 ^ 8)) by (change (2 ^ 8) with 256; lia).
  apply Z.mod_pow2_bits_high. lia.
Qed.

Lemma lor_disjoint (x y : Z) : Z.land x y = 0 -> Z.lor x y = x + y.
Proof.
  intros H. rewrite <- Z.lxor_lor by exact H. symmetry.
  now apply Z.add_nocarry_lxor.
Qed.

Lemma pack_bytes (x y z : Z) :
  0 <= x < 256 -> 0 <= y < 256 -> 0 <= z < 256 ->
  Z.lor (Z.lor (Z.shiftl x 16) (Z.shiftl y 8)) z = x * 65536 + y * 256 + z.
Proof.
  intros Hx Hy Hz.
  assert (H1 : Z.land (Z.shiftl x 16) (Z.shiftl y 8) = 0).
  { apply Z.bits_inj'. intros n Hn.
    rewrite Z.land_spec, Z.bits_0, !Z.shiftl_spec by lia.
    destruct (Z.lt_ge_cases n 16).
    - rewrite (Z.testbit_neg_r x) by lia. reflexivity.
    - rewrite (byte_high_bits y (n - 8)) by lia. apply andb_false_r. }
  rewrite (lor_disjoint _ _ H1).
  assert (H2 : Z.land (Z.shiftl x 16 + Z.shiftl y 8) z = 0).
  { rewrite <- (lor_disjoint _ _ H1).
    apply Z.bits_inj'. intros n Hn.
    rewrite Z.land_spec, Z.lor_spec, Z.bits_0, !Z.shiftl_spec by lia.
    destruct (Z.lt_ge_cases n 8).
    - rewrite (Z.testbit_neg_r x), (Z.testbit_neg_r y) by lia. reflexivity.
    - rewrite (byte_high_bits z n) by lia. apply andb_false_r. }
  rewrite (lor_disjoint _ _ H2).
  rewrite !Z.shiftl_mul_pow2 by lia. reflexivity.
Qed.

Lemma land_255 (d : Z) : Z.land d 255 = d mod 256.
Proof. change 255 with (Z.ones 8). rewrite Z.land_ones by lia. reflexivity. Qed.

Lemma rgbRev_components (d : Z) :
  rgbRev d = {| r := (d / 65536) mod 256; g := (d / 256) mod 256; b := d mod 256 |}.
Proof.
  unfold rgbRev. rewrite !Z.shiftr_land.
  change (Z.shiftr 16711680 16) with 255. change (Z.shiftr 65280 8) with 255.
  rewrite !land_255, !Z.shiftr_div_pow2 by lia. reflexivity.
Qed.

Lemma decimalToRgb_components (d : Z) :
  decimalToRgb d
  = {| red := (d / 65536) mod 256; green := (d / 256) mod 256; blue := d mod 256 |}.
Proof.
  unfold decimalToRgb. rewrite !land_255, !Z.shiftr_div_pow2 by lia. reflexivity.
Qed.

Lemma rgb_Num (x y z : Z) :
  rgb (Num x) (Num y) (Num z) 10
  = Some ((x mod 256) * 65536 + (y mod 256) * 256 + z mod 256).
Proof.
  unfold rgb. rewrite !parseInt_Num, !land_255. f_equal.
  apply pack_bytes; apply Z.mod_pos_bound; lia.
Qed.

(** X20: for integer components, [rgb] keeps the low byte of each and packs
    the three bytes into a number below 2^24: red in bits 16 to 23, green
    in bits 8 to 15, blue in bits 0 to 7. *)
Theorem rgb_packs_low_bytes (x y z : Z) :
  safeInteger x -> safeInteger y -> safeInteger z ->
  exists c, rgb (Num x) (Num y) (Num z) 10 = Some c
            /\ c = (x mod 256) * 65536 + (y mod 256) * 256 + z mod 256
            /\ 0 <= c < 16777216.
Proof.
  intros _ _ _. eexists. split; [apply rgb_Num|]. split; [reflexivity|].
  pose proof (Z.mod_pos_bound x 256 ltac:(lia)).
  pose proof (Z.mod_pos_bound y 256 ltac:(lia)).
  pose proof (Z.mod_pos_bound z 256 ltac:(lia)). lia.
Qed.

Lemma rgb_packs_low_bytes_witness :
  safeInteger 300 /\ safeInteger (-1) /\ safeInteger 7
  /\ exists c, rgb (Num 300) (Num (-1)) (Num 7) 10 = Some c
               /\ c = (300 mod 256) * 65536 + ((-1) mod 256) * 256 + 7 mod 256
               /\ 0 <= c < 16777216.
Proof.
  assert (H1 : safeInteger 300) by (unfold safeInteger; lia).
  assert (H2 : safeInteger (-1)) by (unfold safeInteger; lia).
  assert (H3 : safeInteger 7) by (unfold safeInteger; lia).
  split; [exact H1|]. split; [exact H2|]. split; [exact H3|].
  exact (rgb_packs_low_bytes 300 (-1) 7 H1 H2 H3).
Defined.

(** X21: [rgbRev] and [decimalToRgb] both undo [rgb]: for components from
    0 to 255, the number that [rgb] returns is split back into the same
    three components. *)
Theorem rgb_round_trip (x y z : Z) :
  0 <= x < 256 -> 0 <= y < 256 -> 0 <= z < 256 ->
  exists c, rgb (Num x) (Num y) (Num z) 10 = Some c
            /\ rgbRev c = {| r := x; g := y; b := z |}
            /\ decimalToRgb c = {| red := x; green := y; blue := z |}.
Proof.
  intros Hx Hy Hz. eexists. split; [apply rgb_Num|].
  rewrite rgbRev_components, decimalToRgb_components.
  rewrite !(Z.mod_small x), !(Z.mod_small y), !(Z.mod_small z) by lia.
  assert (E1 : (x * 65536 + y * 256 + z) / 65536 = x).
  { replace (x * 65536 + y * 256 + z) with ((y * 256 + z) + x * 65536) by lia.
    rewrite Z.div_add by lia. rewrite Z.div_small by lia. lia. }
  assert (E2 : ((x * 65536 + y * 256 + z) / 256) mod 256 = y).
  { replace (x * 65536 + y * 256 + z) with (z + (x * 256 + y) * 256) by lia.
    rewrite Z.div_add by lia. rewrite (Z.div_small z) by lia.
    rewrite Z.add_0_l, (Z.add_comm (x * 256)), Z.mod_add by lia.
    apply Z.mod_small; lia. }
  assert (E3 : (x * 65536 + y * 256 + z) mod 256 = z).
  { replace (x * 65536 + y * 256 + z) with (z + (x * 256 + y) * 256) by lia.
    rewrite Z.mod_add by lia. apply Z.mod_small; lia. }
  rewrite E1, E2, E3, (Z.mod_small x) by lia. split; reflexivity.
Qed.

Lemma rgb_round_trip_witness :
  0 <= 255 < 256 /\ 0 <= 128 < 256 /\ 0 <= 0 < 256
  /\ exists c, rgb (Num 255) (Num 128) (Num 0) 10 = Some c
               /\ rgbRev c = {| r := 255; g := 128; b := 0 |}
               /\ decimalToRgb c = {| red := 255; green := 128; blue := 0 |}.
Proof.
  assert (H1 : 0 <= 255 < 256) by lia. assert (H2 : 0 <= 128 < 256) by lia.
  assert (H3 : 0 <= 0 < 256) by lia.
  split; [exact H1|]. split; [exact H2|]. split; [exact H3|].
  exact (rgb_round_trip 255 128 0 H1 H2 H3).
Defined.

(** X22: [decimalToRgb] and [rgbRev] split every integer into the same
    three bytes, each from 0 to 255, and packing them again with [rgb]
    gives back the low 24 bits of the integer. *)
Theorem split_then_pack (d : Z) :
  safeInteger d ->
  red (decimalToRgb d) = r (rgbRev d)
  /\ green (decimalToRgb d) = g (rgbRev d)
  /\ blue (decimalToRgb d) = b (rgbRev d)
  /\ 0 <= r (rgbRev d) < 256 /\ 0 <= g (rgbRev d) < 256 /\ 0 <= b (rgbRev d) < 256
  /\ rgb (Num (r (rgbRev d))) (Num (g (rgbRev d))) (Num (b (rgbRev d))) 10
     = Some (d mod 16777216).
Proof.
  intros _. rewrite rgb_Num, rgbRev_components, decimalToRgb_components.
  cbn [red green blue r g b].
  pose proof (Z.mod_pos_bound (d / 65536) 256 ltac:(lia)).
  pose proof (Z.mod_pos_bound (d / 256) 256 ltac:(lia)).
  pose proof (Z.mod_pos_bound d 256 ltac:(lia)).
  repeat (split; [reflexivity || lia|]).
  f_equal. rewrite !Z.mod_mod by lia.
  pose proof (Z.div_mod d 256 ltac:(lia)).
  pose proof (Z.div_mod (d / 256) 256 ltac:(lia)).
  pose proof (Z.div_mod (d / 256 / 256) 256 ltac:(lia)).
  pose proof (Z.div_mod d 16777216 ltac:(lia)).
  pose proof (Z.mod_pos_bound d 16777216 ltac:(lia)).
  replace (d / 65536) with (d / 256 / 256) in * by (rewrite Z.div_div by lia; reflexivity).
  assert (Hq : d / 16777216 = d / 256 / 256 / 256).
  { rewrite !Z.div_div by lia. reflexivity. }
  lia.
Qed.

Lemma split_then_pack_witness :
  safeInteger 16744448
  /\ rgb (Num (r (rgbRev 16744448))) (Num (g (rgbRev 16744448)))
         (Num (b (rgbRev 16744448))) 10
     = Some (16744448 mod 16777216).
Proof.
  assert (H : safeInteger 16744448) by (unfold safeInteger; lia).
  split; [exact H|].
  destruct (split_then_pack 16744448 H) as (_ & _ & _ & _ & _ & _ & Hp).
  exact Hp.
Defined.

(** X23: [argb] never reads its alpha argument: the value it parses into
    [a] is the red component, so for integer components (red small enough
    for the product to be exact) the result is the red component times 2^24
    plus the packed colour, whatever alpha was given. *)
Theorem argb_ignores_alpha (a a' : arg) (x y z : Z) :
  - 2 ^ 28 < x < 2 ^ 28 -> safeInteger y -> safeInteger z ->
  argb a (Num x) (Num y) (Num z) 10
  = Some (x * 16777216
          + ((x mod 256) * 65536 + (y mod 256) * 256 + z mod 256))
  /\ argb a (Num x) (Num y) (Num z) 10 = argb a' (Num x) (Num y) (Num z) 10.
Proof.
  intros _ _ _. unfold argb. rewrite !parseInt_Num, rgb_Num. auto.
Qed.

Lemma argb_ignores_alpha_witness :
  - 2 ^ 28 < 255 < 2 ^ 28 /\ safeInteger 0
  /\ argb (Num 1) (Num 255) (Num 0) (Num 0) 10 = Some 4294901760.
Proof.
  assert (H1 : - 2 ^ 28 < 255 < 2 ^ 28) by lia.
  assert (H2 : safeInteger 0) by (unfold safeInteger; lia).
  split; [exact H1|]. split; [exact H2|].
  destruct (argb_ignores_alpha (Num 1) (Num 1) 255 0 0 H1 H2 H2) as [Hv _].
  exact Hv.
Defined.

End ColorProps.

(** ** Configuration upgrades *)

Section Upgrades.
Import Upgrade.

Context {Data Body : Type}.
Variable allUpgrades : list (@UpgradeStep Data Body).
Variable getJSON : @Database Data -> option string.
Variable writable : string -> bool.

Local Abbreviation target := (targetVersion allUpgrades).
Local Abbreviation stepAt := (upgradeAt allUpgrades).
Local Abbreviation steps := (stepsFrom allUpgrades).

Lemma target_pos : 1 <= target.
Proof. unfold targetVersion. lia. Qed.

Lemma upgradeAt_Some (i : Z) :
  1 <= i < target ->
  exists u, stepAt i = Some u
            /\ drop (Z.to_nat (i - 1)) allUpgrades
               = u :: drop (Z.to_nat (i + 1 - 1)) allUpgrades.
Proof.
  intros Hi. unfold upgradeAt, targetVersion in *.
  destruct (Z.ltb_spec (i - 1) 0) as [|_]; [lia|].
  destruct (lookup_lt_is_Some_2 allUpgrades (Z.to_nat (i - 1))) as [u Hu]; [lia|].
  exists u. split; [exact Hu|].
  replace (Z.to_nat (i + 1 - 1)) with (S (Z.to_nat (i - 1))) by lia.
  apply drop_S. exact Hu.
Qed.

Lemma upgradeAt_below (i : Z) : i < 1 -> stepAt i = None.
Proof.
  intros Hi. unfold upgradeAt.
  destruct (Z.ltb_spec (i - 1) 0); [reflexivity | lia].
Qed.

Lemma stepsRun_app (xs ys : list call) :
  stepsRun (xs ++ ys) = stepsRun xs ++ stepsRun ys.
Proof. unfold stepsRun. apply omap_app. Qed.

Lemma storeCalls_app (xs ys : list call) :
  storeCalls (xs ++ ys) = storeCalls xs ++ storeCalls ys.
Proof. unfold storeCalls. apply List.filter_app. Qed.

Lemma saveUpgradeCopy_quiet (d : Database) (i : Z) :
  stepsRun (saveUpgradeCopy getJSON writable d i) = []
  /\ storeCalls (saveUpgradeCopy getJSON writable d i) = [].
Proof.
  unfold saveUpgradeCopy. destruct (getJSON d); [|split; reflexivity].
  destruct (writable _); split; reflexivity.
Qed.

(** The loop, started at a step that exists and with no more iterations
    than steps remain, returns after running exactly these steps. *)
Lemma runScripts_spec (n : nat) : forall (i : Z) (d : Database) (log : list call),
  1 <= i -> i + Z.of_nat n <= target ->
  let r := runScripts allUpgrades getJSON writable n i d log in
  result r = Returned
  /\ db r = applyStartup d (take n (steps i))
  /\ stepsRun (calls r) = stepsRun log ++ versionsFrom i n
  /\ storeCalls (calls r) = storeCalls log.
Proof.
  induction n as [|n IH]; intros i d log Hi Hn; cbn zeta.
  - cbn. rewrite app_nil_r. auto.
  - cbn [runScripts].
    destruct (upgradeAt_Some i) as (u & -> & Hdrop); [lia|].
    specialize (IH (i + 1) (step_upgradeStartup u d)
                   ((log ++ saveUpgradeCopy getJSON writable d i) ++ [RunStep i])
                   ltac:(lia) ltac:(lia)).
    cbn zeta in IH. destruct IH as (Hr & Hd & Hs & Hc).
    destruct (saveUpgradeCopy_quiet d i) as [Hq1 Hq2].
    split; [exact Hr|]. split; [|split].
    + rewrite Hd. unfold stepsFrom. rewrite Hdrop. reflexivity.
    + rewrite Hs, !stepsRun_app, Hq1, app_nil_r. cbn [versionsFrom].
      rewrite <- app_assoc. reflexivity.
    + rewrite Hc, !storeCalls_app, Hq2, !app_nil_r. reflexivity.
Qed.

Lemma steps_all_remaining (v : Z) :
  1 <= v -> take (Z.to_nat (target - v)) (steps v) = steps v.
Proof.
  intros Hv. apply take_ge. unfold stepsFrom, targetVersion.
  rewrite length_drop. lia.
Qed.

(** X13: a store whose version is below 1 makes the first iteration read
    [allUpgrades[i - 1]] below index 0: the run ends in a TypeError, after
    the backup copy and before any step, stamp or save. *)
Lemma upgradeStartup_below_one (d : Database) :
  getKey_version d 1 < 1 ->
  let r := upgradeStartup allUpgrades getJSON writable d in
  result r = TypeError /\ db r = d /\ stepsRun (calls r) = []
  /\ storeCalls (calls r) = []
  /\ calls r = saveUpgradeCopy getJSON writable d (getKey_version d 1).
Proof.
  intros Hv. cbn zeta. unfold upgradeStartup.
  pose proof target_pos.
  destruct (Z.ltb_spec target (getKey_version d 1)) as [|_]; [lia|].
  destruct (Z.to_nat (target - getKey_version d 1)) as [|n] eqn:Hn; [lia|].
  cbn [runScripts]. rewrite upgradeAt_below by exact Hv.
  cbn [result db calls app].
  destruct (saveUpgradeCopy_quiet d (getKey_version d 1)) as [-> ->]. auto.
Qed.

(** C5: when the version stored in the store exceeds the target version,
    [upgradeStartup] does stop before any backup, upgrade step, stamp or
    save, with the store as it found it, but not by reporting and halting:
    the run ends in the ReferenceError of the call of [showFatalError],
    with no effect on its surroundings at all. *)
Theorem C5_upgradeStartup_too_new (d : Database) :
  target < getKey_version d 1 ->
  let r := upgradeStartup allUpgrades getJSON writable d in
  result r = ReferenceError /\ db r = d /\ calls r = []
  /\ stepsRun (calls r) = [] /\ storeCalls (calls r) = [].
Proof.
  intros Hv. cbn zeta. unfold upgradeStartup.
  destruct (Z.ltb_spec target (getKey_version d 1)) as [_|]; [|lia].
  cbn. auto.
Qed.

(** C6: on a store at version [v] with [1 <= v <= target],
    [upgradeStartup] returns after running exactly the steps [v], [v + 1],
    ..., [target - 1], each once and in ascending order (none when
    [v = target]); the store that results is the one these steps produce
    in that order, stamped with the target version and saved, and the stamp
    and the save are the last two calls and the only ones of their kind. *)
Theorem C6_upgradeStartup_steps (d : Database) :
  1 <= getKey_version d 1 <= target ->
  let v := getKey_version d 1 in
  let r := upgradeStartup allUpgrades getJSON writable d in
  result r = Returned
  /\ stepsRun (calls r) = versionsFrom v (Z.to_nat (target - v))
  /\ (v = target -> stepsRun (calls r) = [])
  /\ db r = save (setKey_version (applyStartup d (steps v)) target)
  /\ page_config_version (live (db r)) = Some target
  /\ durable (db r) = live (db r)
  /\ (exists pre, calls r = pre ++ [SetKey "page_config_version" target; Save]
                  /\ storeCalls pre = []).
Proof.
  intros Hv. cbn zeta. unfold upgradeStartup.
  destruct (Z.ltb_spec target (getKey_version d 1)) as [|_]; [lia|].
  destruct (runScripts_spec (Z.to_nat (target - getKey_version d 1))
              (getKey_version d 1) d [] ltac:(lia) ltac:(lia))
    as (Hr & Hd & Hs & Hc).
  rewrite Hr. cbn [result db calls].
  rewrite steps_all_remaining in Hd by lia.
  assert (Hsteps : stepsRun
            (calls (runScripts allUpgrades getJSON writable
                      (Z.to_nat (target - getKey_version d 1))
                      (getKey_version d 1) d [])
             ++ [SetKey "page_config_version" target; Save])
          = versionsFrom (getKey_version d 1)
              (Z.to_nat (target - getKey_version d 1))).
  { rewrite stepsRun_app, Hs. cbn. apply app_nil_r. }
  split; [reflexivity|]. split; [exact Hsteps|]. split.
  { intros Heq. rewrite Hsteps, Heq, Z.sub_diag. reflexivity. }
  rewrite Hd. split; [reflexivity|]. split; [reflexivity|].
  split; [reflexivity|].
  eexists. split; [reflexivity | exact Hc].
Qed.

Lemma runImports_spec (n : nat) : forall (i : Z) (obj : Export) (ran : list Z),
  1 <= i -> i + Z.of_nat n <= target ->
  runImports allUpgrades n i obj ran
  = Some (applyImport obj (take n (steps i)),
          ran ++ List.filter (hasImport allUpgrades) (versionsFrom i n)).
Proof.
  induction n as [|n IH]; intros i obj ran Hi Hn.
  - cbn. rewrite app_nil_r. reflexivity.
  - cbn [runImports versionsFrom List.filter].
    destruct (upgradeAt_Some i) as (u & Hu & Hdrop); [lia|].
    unfold hasImport at 1. rewrite Hu. cbn [mbind option_bind].
    unfold stepsFrom at 1. rewrite Hdrop. cbn [take applyImport foldl].
    destruct (step_upgradeImport u) as [f|].
    + rewrite IH by lia. rewrite <- app_assoc. reflexivity.
    + rewrite IH by lia. reflexivity.
Qed.

Lemma steps_none_left (v : Z) : target <= v -> steps v = [].
Proof.
  intros Hv. unfold stepsFrom. apply drop_ge. unfold targetVersion in Hv. lia.
Qed.

Lemma version_or_1_stamp (obj : Export) :
  version_or_1 (stamp allUpgrades obj) = target.
Proof.
  unfold version_or_1, stamp. cbn [version].
  pose proof target_pos. destruct target; [lia | reflexivity | reflexivity].
Qed.


(** C7: for an exported object whose version (1 when the field is absent)
    is at least 1, [upgradeImport] returns, and what it returns is the
    object that the import scripts of the steps from that version up to
    [target - 1] produce, in order and skipping the steps without one,
    stamped with the target version; importing that result again returns
    it unchanged, and runs no script. *)
Theorem C7_upgradeImport (obj : Export) :
  1 <= version_or_1 obj ->
  let v := version_or_1 obj in
  let o := stamp allUpgrades (applyImport obj (steps v)) in
  (version obj = None -> v = 1)
  /\ upgradeImport allUpgrades obj = Some o
  /\ upgradeImport_ran allUpgrades obj
     = Some (o, List.filter (hasImport allUpgrades)
                  (versionsFrom v (Z.to_nat (target - v))))
  /\ version o = Some target
  /\ upgradeImport allUpgrades o = Some o
  /\ upgradeImport_ran allUpgrades o = Some (o, []).
Proof.
  intros Hv. cbn zeta.
  assert (Hran : upgradeImport_ran allUpgrades obj
     = Some (stamp allUpgrades (applyImport obj (steps (version_or_1 obj))),
             List.filter (hasImport allUpgrades)
               (versionsFrom (version_or_1 obj)
                  (Z.to_nat (target - version_or_1 obj))))).
  { unfold upgradeImport_ran.
    destruct (Z.le_gt_cases (version_or_1 obj) target) as [Hle|Hgt].
    - rewrite runImports_spec by lia.
      rewrite steps_all_remaining by lia. reflexivity.
    - replace (Z.to_nat (target - version_or_1 obj)) with 0%nat by lia.
      rewrite steps_none_left by lia. reflexivity. }
  assert (Hagain : forall o', upgradeImport_ran allUpgrades (stamp allUpgrades o')
                               = Some (stamp allUpgrades o', [])).
  { intros o'. unfold upgradeImport_ran.
    rewrite version_or_1_stamp, Z.sub_diag. reflexivity. }
  split; [|split; [|split; [|split; [|split]]]].
  - intros Hnone. unfold version_or_1. rewrite Hnone. reflexivity.
  - unfold upgradeImport. rewrite Hran. reflexivity.
  - exact Hran.
  - reflexivity.
  - unfold upgradeImport. rewrite Hagain. reflexivity.
  - apply Hagain.
Qed.

(** *** Backups, repeated runs and versions out of range *)

Lemma runScripts_trace (n : nat) : forall (i : Z) (d : Database) (log : list call),
  1 <= i -> i + Z.of_nat n <= target ->
  calls (runScripts allUpgrades getJSON writable n i d log)
  = log ++ backupThenStep getJSON writable i (storesBefore d (take n (steps i))).
Proof.
  induction n as [|n IH]; intros i d log Hi Hn.
  - cbn. now rewrite app_nil_r.
  - cbn [runScripts].
    destruct (upgradeAt_Some i) as (u & -> & Hdrop); [lia|].
    rewrite IH by lia. unfold stepsFrom at 2. rewrite Hdrop.
    cbn [take storesBefore backupThenStep].
    rewrite <- !app_assoc. reflexivity.
Qed.

(** X9: on a store at version [v] with [1 <= v <= target], the effects of
    [upgradeStartup] are, in this order and nothing else: for each version
    [i] from [v] to [target - 1], the backup copy of the store as steps
    [v .. i - 1] left it, written under [<cfgFile>.v<i>] when the store
    serialises and the file can be written, then step [i]; at the end the
    stamp and the save. *)
Theorem upgradeStartup_effects (d : Database) :
  1 <= getKey_version d 1 <= target ->
  let v := getKey_version d 1 in
  calls (upgradeStartup allUpgrades getJSON writable d)
  = backupThenStep getJSON writable v (storesBefore d (steps v))
    ++ [SetKey "page_config_version" target; Save].
Proof.
  intros Hv. cbn zeta. unfold upgradeStartup.
  destruct (Z.ltb_spec target (getKey_version d 1)) as [|_]; [lia|].
  destruct (runScripts_spec (Z.to_nat (target - getKey_version d 1))
              (getKey_version d 1) d [] ltac:(lia) ltac:(lia)) as (Hr & _).
  rewrite Hr. cbn [calls].
  rewrite runScripts_trace by lia. rewrite steps_all_remaining by lia.
  reflexivity.
Qed.

Lemma runScripts_backups (getJSON' : Database -> option string)
    (writable' : string -> bool) (n : nat) :
  forall (i : Z) (d : Database) (log log' : list call),
  withoutBackups log = withoutBackups log' ->
  let r := runScripts allUpgrades getJSON writable n i d log in
  let r' := runScripts allUpgrades getJSON' writable' n i d log' in
  result r = result r' /\ db r = db r'
  /\ withoutBackups (calls r) = withoutBackups (calls r').
Proof.
  assert (Hq : forall (gj : @Database Data -> option string) w d i,
            withoutBackups (saveUpgradeCopy gj w d i) = []).
  { intros gj w d i. unfold saveUpgradeCopy. destruct (gj d); [|reflexivity].
    destruct (w _); reflexivity. }
  assert (Happ : forall xs ys : list call,
            withoutBackups (xs ++ ys) = withoutBackups xs ++ withoutBackups ys).
  { intros. apply List.filter_app. }
  induction n as [|n IH]; intros i d log log' Hlog; cbn zeta.
  - cbn. auto.
  - cbn [runScripts].
    assert (Hlog1 : withoutBackups (log ++ saveUpgradeCopy getJSON writable d i)
                    = withoutBackups (log' ++ saveUpgradeCopy getJSON' writable' d i)).
    { now rewrite !Happ, !Hq, !app_nil_r. }
    destruct (stepAt i) as [u|]; [|cbn; auto].
    apply IH.
    rewrite (Happ (log ++ _) [RunStep i]), (Happ (log' ++ _) [RunStep i]).
    now rewrite Hlog1.
Qed.

(** X10: backups are best effort: whether the store serialises and whether
    the backup files can be written changes neither how [upgradeStartup]
    ends, nor the store it leaves, nor any of its other effects. *)
Theorem backups_are_best_effort (getJSON' : Database -> option string)
    (writable' : string -> bool) (d : Database) :
  let r := upgradeStartup allUpgrades getJSON writable d in
  let r' := upgradeStartup allUpgrades getJSON' writable' d in
  result r = result r' /\ db r = db r'
  /\ withoutBackups (calls r) = withoutBackups (calls r').
Proof.
  cbn zeta. unfold upgradeStartup.
  destruct (target <? getKey_version d 1); [cbn; auto|].
  destruct (runScripts_backups getJSON' writable'
              (Z.to_nat (target - getKey_version d 1)) (getKey_version d 1)
              d [] [] eq_refl) as (Hr & Hd & Hc).
  cbn zeta in Hr, Hd, Hc.
  set (r := runScripts allUpgrades getJSON writable _ _ d []) in *.
  set (r' := runScripts allUpgrades getJSON' writable' _ _ d []) in *.
  rewrite <- Hr.
  destruct (result r) eqn:E; cbn [result db calls].
  - split; [reflexivity|]. split; [now rewrite Hd|].
    unfold withoutBackups in *. rewrite !List.filter_app. now rewrite Hc.
  - rewrite E. auto.
  - rewrite E. auto.
Qed.

Lemma upgradeStartup_ok (d : Database) :
  1 <= getKey_version d 1 <= target ->
  result (upgradeStartup allUpgrades getJSON writable d) = Returned
  /\ db (upgradeStartup allUpgrades getJSON writable d)
     = save (setKey_version (applyStartup d (steps (getKey_version d 1))) target).
Proof.
  intros Hv. unfold upgradeStartup.
  destruct (Z.ltb_spec target (getKey_version d 1)) as [|_]; [lia|].
  destruct (runScripts_spec (Z.to_nat (target - getKey_version d 1))
              (getKey_version d 1) d [] ltac:(lia) ltac:(lia))
    as (Hr & Hd & _).
  rewrite Hr. cbn [result db]. rewrite Hd, steps_all_remaining by lia. auto.
Qed.

(** X11: running [upgradeStartup] again on the store a successful run
    left returns with that store unchanged, and its only effects are the
    stamp and the save: no backup is written and no step is run. *)
Theorem upgradeStartup_twice (d : Database) :
  1 <= getKey_version d 1 <= target ->
  let r1 := upgradeStartup allUpgrades getJSON writable d in
  let r2 := upgradeStartup allUpgrades getJSON writable (db r1) in
  result r2 = Returned
  /\ db r2 = db r1
  /\ calls r2 = [SetKey "page_config_version" target; Save].
Proof.
  intros Hv. cbn zeta.
  destruct (upgradeStartup_ok d Hv) as [_ Hd]. rewrite Hd.
  unfold upgradeStartup.
  change (getKey_version (save (setKey_version _ target)) 1) with target.
  rewrite Z.ltb_irrefl, Z.sub_diag. cbn. auto.
Qed.


End Upgrades.

Section UpgradesSample.
Import Upgrade Sample.

Lemma C5_upgradeStartup_too_new_witness :
  targetVersion upgrades < getKey_version (store_at (Some 4)) 1
  /\ result (upgradeStartup upgrades json anywhere (store_at (Some 4)))
     = ReferenceError
  /\ db (upgradeStartup upgrades json anywhere (store_at (Some 4))) = store_at (Some 4)
  /\ calls (upgradeStartup upgrades json anywhere (store_at (Some 4))) = [].
Proof.
  assert (H : targetVersion upgrades < getKey_version (store_at (Some 4)) 1)
    by (vm_compute; reflexivity).
  split; [exact H|].
  destruct (C5_upgradeStartup_too_new upgrades json anywhere (store_at (Some 4)) H)
    as (Hr & Hd & Hc & _).
  split; [exact Hr|]. split; [exact Hd | exact Hc].
Defined.

Lemma C6_upgradeStartup_steps_witness :
  1 <= getKey_version (store_at None) 1 <= targetVersion upgrades
  /\ stepsRun (calls (upgradeStartup upgrades json anywhere (store_at None))) = [1; 2]
  /\ data (live (db (upgradeStartup upgrades json anywhere (store_at None)))) = [1; 2]
  /\ page_config_version (live (db (upgradeStartup upgrades json anywhere (store_at None))))
     = Some 3.
Proof.
  assert (H : 1 <= getKey_version (store_at None) 1 <= targetVersion upgrades)
    by (vm_compute; split; discriminate).
  split; [exact H|].
  destruct (C6_upgradeStartup_steps upgrades json anywhere (store_at None) H)
    as (_ & Hs & _ & Hd & Hp & _).
  split; [exact Hs|]. split; [rewrite Hd; reflexivity | exact Hp].
Defined.

Lemma C7_upgradeImport_witness :
  1 <= version_or_1 (export_at None)
  /\ upgradeImport upgrades (export_at None)
     = Some {| version := Some 3; body := [1] |}
  /\ upgradeImport_ran upgrades (export_at None)
     = Some ({| version := Some 3; body := [1] |}, [1])
  /\ upgradeImport upgrades {| version := Some 3; body := [1] |}
     = Some {| version := Some 3; body := [1] |}.
Proof.
  assert (H : 1 <= version_or_1 (export_at None)) by (vm_compute; discriminate).
  split; [exact H|].
  destruct (C7_upgradeImport upgrades (export_at None) H)
    as (_ & Hi & Hr & _ & Ha & _).
  split; [exact Hi|]. split; [exact Hr | exact Ha].
Defined.


Lemma upgradeStartup_effects_witness :
  1 <= getKey_version (store_at None) 1 <= targetVersion upgrades
  /\ calls (upgradeStartup upgrades json anywhere (store_at None))
     = [WriteFile "db.v1" "{}"; RunStep 1; WriteFile "db.v2" "{}"; RunStep 2;
        SetKey "page_config_version" 3; Save].
Proof.
  assert (H : 1 <= getKey_version (store_at None) 1 <= targetVersion upgrades)
    by (vm_compute; split; discriminate).
  split; [exact H|].
  rewrite (upgradeStartup_effects upgrades json anywhere (store_at None) H).
  vm_compute. reflexivity.
Defined.

Lemma upgradeStartup_twice_witness :
  1 <= getKey_version (store_at (Some 2)) 1 <= targetVersion upgrades
  /\ calls (upgradeStartup upgrades json anywhere
              (db (upgradeStartup upgrades json anywhere (store_at (Some 2)))))
     = [SetKey "page_config_version" (targetVersion upgrades); Save].
Proof.
  assert (H : 1 <= getKey_version (store_at (Some 2)) 1 <= targetVersion upgrades)
    by (vm_compute; split; discriminate).
  split; [exact H|].
  destruct (upgradeStartup_twice upgrades json anywhere (store_at (Some 2)) H)
    as (_ & _ & Hc).
  exact Hc.
Defined.

Lemma upgradeStartup_below_one_witness :
  getKey_version (store_at (Some 0)) 1 < 1
  /\ result (upgradeStartup upgrades json anywhere (store_at (Some 0))) = TypeError
  /\ db (upgradeStartup upgrades json anywhere (store_at (Some 0))) = store_at (Some 0).
Proof.
  assert (H : getKey_version (store_at (Some 0)) 1 < 1) by (vm_compute; reflexivity).
  split; [exact H|].
  destruct (upgradeStartup_below_one upgrades json anywhere (store_at (Some 0)) H)
    as (Hr & Hd & _).
  split; [exact Hr | exact Hd].
Defined.

End UpgradesSample.

(** ** The Elgato plugin service *)

Section ServiceProps.
Import ElgatoPlugin.

Variable getBank : Z -> Z -> Button.
Variable instances : string.

Lemma bind_run {A B} (m : M A) (f : A -> M B) (s : Service) :
  (m ≫= f) s
  = match m s with
    | (s', Some a) => f a s'
    | (s', None) => (s', None)
    end.
Proof. reflexivity. Qed.

Lemma setSocket_lookup (s : Service) (sock : nat) (k : Socket) :
  sockets (setSocket s sock k) !! sock = Some k.
Proof. apply lookup_insert_eq. Qed.

Lemma setSocket_lookup_ne (s : Service) (sock other : nat) (k : Socket) :
  sock <> other -> sockets (setSocket s sock k) !! other = sockets s !! other.
Proof. intros. cbn. now apply lookup_insert_ne. Qed.

Lemma setSocket_twice (s : Service) (sock : nat) (k k' : Socket) :
  setSocket (setSocket s sock k) sock k' = setSocket s sock k'.
Proof. unfold setSocket. cbn. now rewrite insert_insert_eq. Qed.

Lemma updSocket_run (s : Service) (sock : nat) (f : Socket -> Socket) (k : Socket) :
  sockets s !! sock = Some k ->
  updSocket sock f s = (setSocket s sock (f k), Some tt).
Proof.
  intros Hk. unfold updSocket, modify, setSocket. do 2 f_equal.
  apply map_eq. intros i. rewrite lookup_alter, lookup_insert.
  case_decide; [subst; now rewrite Hk | reflexivity].
Qed.

(** Unfolds the sequencing of computations that return at once. *)
Ltac run_binds :=
  repeat first
    [ rewrite bind_run
    | progress cbv [mret M_ret]
    | progress cbv beta iota ].

(** Runs a sequence of socket updates on a state whose socket is known. *)
Ltac run_socket Hk :=
  repeat first
    [ rewrite bind_run
    | rewrite (updSocket_run _ _ _ _ Hk)
    | rewrite (updSocket_run _ _ _ _ (setSocket_lookup _ _ _))
    | rewrite setSocket_twice
    | progress cbv beta iota ].

Lemma sentOn_setSocket (s : Service) (sock other : nat) (k : Socket) :
  sentOn (setSocket s sock k) other
  = if bool_decide (sock = other) then sent k else sentOn s other.
Proof.
  unfold sentOn. case_bool_decide as Heq.
  - subst. now rewrite setSocket_lookup.
  - now rewrite setSocket_lookup_ne.
Qed.

(** [handleBankChanged] as one case distinction. *)
Lemma handleBankChanged_run (s : Service) (page bank : Z) :
  handleBankChanged getBank page bank s
  = match client s with
    | Some c =>
        match sockets s !! c with
        | Some k =>
            if subscribedOn s c page (bank - 1)
            then (setSocket s c
                    (withSent (fillImage page (bank - 1) (buffer (getBank page bank))) k),
                  Some tt)
            else (s, Some tt)
        | None => (s, Some tt)
        end
    | None => (s, Some tt)
    end.
Proof.
  unfold handleBankChanged, subscribedOn, subscribed. rewrite bind_run. cbn [get].
  destruct (client s) as [c|]; [|reflexivity].
  destruct (sockets s !! c) as [k|] eqn:Hk; [|reflexivity].
  cbn [mbind option_bind].
  destruct (button_listeners k) as [bl|]; [|reflexivity].
  destruct (pages bl !! page) as [banks|]; [|reflexivity].
  case_bool_decide; [|reflexivity].
  unfold socketCommand, sendUTF. rewrite (updSocket_run _ _ _ k Hk).
  unfold fillImage. now replace (bank - 1 + 1) with bank by lia.
Qed.

(** C9 (amended): the frames a bank-change signal for [(page, bank)] adds
    to a socket are: the single frame [fillImage] carrying [page], the key
    index [bank - 1] as both [bank] and [keyIndex] and the image of the
    button, when the socket is [this.client] and holds a subscription for
    [(page, bank - 1)]; no frame otherwise. *)
Theorem C9_bank_change_pushes (s : Service) (page bank : Z) (sock : nat) :
  sentOn (step getBank instances s (BankInvalidated page bank)) sock
  = sentOn s sock
    ++ (if bool_decide (client s = Some sock) && subscribedOn s sock page (bank - 1)
        then [fillImage page (bank - 1) (buffer (getBank page bank))]
        else []).
Proof.
  cbn [step]. rewrite handleBankChanged_run.
  destruct (client s) as [c|] eqn:Hc; [|now rewrite app_nil_r].
  destruct (decide (c = sock)) as [->|Hne].
  - rewrite bool_decide_eq_true_2 by reflexivity. cbn [andb].
    destruct (sockets s !! sock) as [k|] eqn:Hk.
    + destruct (subscribedOn s sock page (bank - 1)); cbn [fst].
      * rewrite sentOn_setSocket, bool_decide_eq_true_2 by reflexivity.
        unfold sentOn. now rewrite Hk.
      * now rewrite app_nil_r.
    + unfold subscribedOn. rewrite Hk. cbn. now rewrite app_nil_r.
  - rewrite bool_decide_eq_false_2 by congruence. cbn [andb].
    rewrite app_nil_r.
    destruct (sockets s !! c) as [k|]; [|reflexivity].
    destruct (subscribedOn s c page (bank - 1)); [|reflexivity].
    cbn [fst]. rewrite sentOn_setSocket. now rewrite bool_decide_eq_false_2.
Qed.

Lemma listenersFor_version_new (a : string) :
  listenersFor N_version (newSocket a) = [mkListener N_version false H_version].
Proof. reflexivity. Qed.

(** The three ways the version handler leaves a new connection. *)
Lemma runHandler_version_new (s : Service) (sock : nat) (a : string) (version : option Z) :
  sockets s !! sock = Some (newSocket a) ->
  runHandler getBank instances sock H_version (EvVersion version) s
  = (setSocket s sock
       match version with
       | Some v => if 2 <? v then refusedSocket a
                   else if v =? 1 then v1Socket a
                   else v2Socket a
       | None => v2Socket a
       end, Some tt).
Proof.
  intros Hk. cbn [runHandler].
  assert (Hv2 : (socketResponse sock "version" (ArgVersion 2 None);; initAPI2 sock) s
                = (setSocket s sock (v2Socket a), Some tt)).
  { unfold initAPI2, socketResponse, sendUTF, on, once. run_socket Hk.
    reflexivity. }
  destruct version as [v|]; [|exact Hv2].
  destruct (2 <? v).
  - unfold socketResponse, sendUTF, socketClose. run_socket Hk. reflexivity.
  - destruct (v =? 1); [|exact Hv2].
    unfold initAPI1, socketResponse, sendUTF, once. run_socket Hk. reflexivity.
Qed.

Lemma receive_version_new (s : Service) (sock : nat) (a : string) (version : option Z) :
  sockets s !! sock = Some (newSocket a) ->
  receive getBank instances sock (EvVersion version) s
  = setSocket s sock
      match version with
      | Some v => if 2 <? v then refusedSocket a
                  else if v =? 1 then v1Socket a
                  else v2Socket a
      | None => v2Socket a
      end.
Proof.
  intros Hk. unfold receive, emit. rewrite bind_run. cbn [get]. rewrite Hk.
  cbn [name_of]. rewrite listenersFor_version_new.
  cbn [callListeners l_once l_handler]. run_binds.
  rewrite (runHandler_version_new s sock a version Hk). reflexivity.
Qed.

(** A refused connection has no listener for [new_device]: the frame is
    dropped and nothing is registered. *)
Lemma receive_new_device_refused (s : Service) (sock : nat) (a id : string) :
  sockets s !! sock = Some (refusedSocket a) ->
  receive getBank instances sock (EvNewDevice id) s = s.
Proof.
  intros Hk. unfold receive, emit. rewrite bind_run. cbn [get]. rewrite Hk.
  reflexivity.
Qed.

(** C8: on a new connection, a [version] message with a version above 2
    is answered with the error reply that carries version 2 and the socket
    is closed, with no call to the surface registry then or on a later
    [new_device]; version 1 is answered with [{version: 1}] and the version
    1 registration handler is installed; every other message, a missing
    version and 0 included, is answered with [{version: 2}] and the version
    2 handlers are installed. *)
Theorem C8_version_negotiation (s : Service) (sock : nat) (a : string)
    (version : option Z) :
  sockets s !! sock = Some (newSocket a) ->
  let s' := receive getBank instances sock (EvVersion version) s in
  (forall v, version = Some v -> 2 < v ->
     s' = setSocket s sock (refusedSocket a)
     /\ sentOn s' sock = [Response "version" (ArgVersion 2 (Some "cannot continue"))]
     /\ (closed <$> sockets s' !! sock) = Some true
     /\ surfaces s' = surfaces s
     /\ forall id, receive getBank instances sock (EvNewDevice id) s' = s')
  /\ (version = Some 1 ->
     s' = setSocket s sock (v1Socket a)
     /\ sentOn s' sock = [Response "version" (ArgVersion 1 None)])
  /\ (version = None \/ (exists v, version = Some v /\ v <= 2 /\ v <> 1) ->
     s' = setSocket s sock (v2Socket a)
     /\ sentOn s' sock = [Response "version" (ArgVersion 2 None)]).
Proof.
  intros Hk. cbn zeta. rewrite (receive_version_new s sock a version Hk).
  split; [|split].
  - intros v -> Hv. destruct (Z.ltb_spec 2 v) as [_|]; [|lia].
    split; [reflexivity|].
    split; [now rewrite sentOn_setSocket, bool_decide_eq_true_2|].
    split; [now rewrite setSocket_lookup|].
    split; [reflexivity|].
    intros id. apply (receive_new_device_refused _ sock a). apply setSocket_lookup.
  - intros ->. cbn. split; [reflexivity|].
    now rewrite sentOn_setSocket, bool_decide_eq_true_2.
  - intros Hv.
    assert (Hs : match version with
                 | Some v => if 2 <? v then refusedSocket a
                             else if v =? 1 then v1Socket a else v2Socket a
                 | None => v2Socket a
                 end = v2Socket a).
    { destruct Hv as [->|(v & -> & Hle & Hne)]; [reflexivity|].
      destruct (Z.ltb_spec 2 v); [lia|].
      destruct (Z.eqb_spec v 1); [lia | reflexivity]. }
    rewrite Hs. split; [reflexivity|].
    now rewrite sentOn_setSocket, bool_decide_eq_true_2.
Qed.

(** Runs socket updates interleaved with updates of the other members. *)
Ltac run_service :=
  repeat first
    [ rewrite bind_run
    | erewrite updSocket_run by (cbn [sockets setSocket]; apply lookup_insert_eq)
    | progress cbv [mret M_ret get modify callSurfaces systemEmit setClient]
    | progress cbv beta iota ].

(** Registration under version 2: the device is added to the registry
    under the address-derived id, the socket becomes [this.client] and a
    registered version 2 session with no subscription. *)
Lemma receive_new_device_v2 (s : Service) (sock : nat) (a id : string) :
  sockets s !! sock = Some (v2Socket a) ->
  let s' := receive getBank instances sock (EvNewDevice id) s in
  s' = registered s sock (v2Registered a) (Some sock)
  /\ v2Session s' sock = true.
Proof.
  intros Hk. cbn zeta.
  assert (Hs : receive getBank instances sock (EvNewDevice id) s
               = registered s sock (v2Registered a) (Some sock)).
  { unfold receive, emit. rewrite bind_run. cbn [get]. rewrite Hk.
    change (listenersFor (name_of (EvNewDevice id)) (v2Socket a))
      with [mkListener N_new_device true H_new_device2].
    cbn [callListeners l_once l_handler]. rewrite bind_run.
    rewrite (updSocket_run _ _ _ _ Hk). cbv beta iota.
    rewrite bind_run. cbn [runHandler]. rewrite bind_run. cbn [get].
    rewrite setSocket_lookup. cbv beta iota.
    unfold socketResponse, sendUTF, on. run_service.
    unfold registered, setSocket. cbn [sockets client surfaces system fst].
    rewrite !insert_insert_eq. reflexivity. }
  rewrite Hs. split; [reflexivity|].
  unfold v2Session, registered. cbn [sockets]. rewrite lookup_insert_eq.
  rewrite bool_decide_eq_true_2 by reflexivity. reflexivity.
Qed.

(** Registration under version 1: the same registry call; the socket then
    serves [get_instances] and is not [this.client]. *)
Lemma receive_new_device_v1 (s : Service) (sock : nat) (a id : string) :
  sockets s !! sock = Some (v1Socket a) ->
  receive getBank instances sock (EvNewDevice id) s
  = registered s sock (v1Registered a) (client s).
Proof.
  intros Hk. unfold receive, emit. rewrite bind_run. cbn [get]. rewrite Hk.
  change (listenersFor (name_of (EvNewDevice id)) (v1Socket a))
    with [mkListener N_new_device true H_new_device1].
  cbn [callListeners l_once l_handler]. rewrite bind_run.
  rewrite (updSocket_run _ _ _ _ Hk). cbv beta iota.
  rewrite bind_run. cbn [runHandler]. rewrite bind_run. cbn [get].
  rewrite setSocket_lookup. cbv beta iota.
  unfold socketResponse, sendUTF, on. run_service.
  unfold registered, setSocket. cbn [sockets client surfaces system fst].
  rewrite !insert_insert_eq. reflexivity.
Qed.

Lemma subscribed_subscribe_same (bl : ButtonListeners) (page bank : Z) :
  subscribed (subscribe bl page bank) page bank = true.
Proof.
  unfold subscribed, subscribe, setPage. cbn [pages].
  rewrite lookup_insert_eq. apply bool_decide_eq_true_2. set_solver.
Qed.

Lemma subscribed_subscribe_other (bl : ButtonListeners) (page bank p b : Z) :
  (p, b) <> (page, bank) ->
  subscribed (subscribe bl page bank) p b = subscribed bl p b.
Proof.
  intros Hne. unfold subscribed, subscribe, setPage. cbn [pages].
  destruct (decide (p = page)) as [-> | Hp].
  - assert (b <> bank) by congruence.
    rewrite lookup_insert_eq.
    destruct (pages bl !! page) as [banks|]; cbn [default].
    + apply bool_decide_ext. rewrite elem_of_union, elem_of_singleton. tauto.
    + apply bool_decide_eq_false_2.
      rewrite elem_of_union, elem_of_singleton, elem_of_empty. tauto.
  - now rewrite lookup_insert_ne.
Qed.

Lemma v2Session_inv (s : Service) (sock : nat) :
  v2Session s sock = true ->
  exists k bl, sockets s !! sock = Some k
               /\ listeners k = v2Listeners (remoteAddress k)
               /\ button_listeners k = Some bl.
Proof.
  unfold v2Session. destruct (sockets s !! sock) as [k|]; [|discriminate].
  intros [Hl Hb]%andb_prop. apply bool_decide_eq_true_1 in Hl.
  destruct (button_listeners k) as [bl|] eqn:Hbl; [|discriminate].
  exists k, bl. repeat split; [exact Hl | exact Hbl].
Qed.

Lemma listenersFor_request_v2 (k : Socket) :
  listeners k = v2Listeners (remoteAddress k) ->
  listenersFor N_request_button k
  = [mkListener N_request_button false H_request_button].
Proof. unfold listenersFor. intros ->. reflexivity. Qed.

(** [request_button] on a registered version 2 session records the
    subscription, replies, and then runs [handleBankChanged] for the
    button, whichever socket [this.client] is. *)
Lemma receive_request_button (s : Service) (sock : nat) (k : Socket)
    (bl : ButtonListeners) (page bank : Z) :
  sockets s !! sock = Some k ->
  listeners k = v2Listeners (remoteAddress k) ->
  button_listeners k = Some bl ->
  receive getBank instances sock (EvRequestButton page bank) s
  = fst (handleBankChanged getBank page (bank + 1)
           (setSocket s sock (requested k bl page bank))).
Proof.
  intros Hk Hl Hb. unfold receive, emit. rewrite bind_run. cbn [get]. rewrite Hk.
  cbn [name_of]. rewrite (listenersFor_request_v2 k Hl).
  cbn [callListeners l_once l_handler]. run_binds.
  cbn [runHandler]. unfold getButtonListeners at 1. run_binds. cbn [get].
  rewrite Hk. cbn [mbind option_bind]. rewrite Hb. run_binds.
  unfold socketResponse, sendUTF. run_socket Hk.
  fold (subscribe bl page bank).
  change (withSent (Response "request_button" ArgResultOk)
            (withButtonListeners (Some (subscribe bl page bank)) k))
    with (requested k bl page bank).
  destruct (handleBankChanged getBank page (bank + 1)
              (setSocket s sock (requested k bl page bank))) as [s' [[]|]];
    reflexivity.
Qed.

(** C4 (amended): in a registered version 2 session that is the service's
    current client, [request_button {page, bank}] records [bank] under the
    page key of the socket's [button_listeners] (its [dynamic] and [static]
    members stay as they were), replies [{result: 'ok'}] and then sends
    exactly one [fillImage] frame for the button, carrying the image the
    renderer has for bank [bank + 1] of the page; no other socket is sent
    anything. *)
Theorem C4_request_button (s : Service) (sock : nat) (page bank : Z) :
  v2Session s sock = true ->
  client s = Some sock ->
  let s' := receive getBank instances sock (EvRequestButton page bank) s in
  sentOn s' sock
  = sentOn s sock ++ [Response "request_button" ArgResultOk;
                      fillImage page bank (buffer (getBank page (bank + 1)))]
  /\ (forall other, other <> sock -> sentOn s' other = sentOn s other)
  /\ subscribedOn s' sock page bank = true
  /\ (forall p b, (p, b) <> (page, bank) ->
        subscribedOn s' sock p b = subscribedOn s sock p b)
  /\ dynamicOn s' sock = dynamicOn s sock
  /\ staticOn s' sock = staticOn s sock.
Proof.
  intros (k & bl & Hk & Hl & Hb)%v2Session_inv Hc. cbn zeta.
  rewrite (receive_request_button s sock k bl page bank Hk Hl Hb).
  assert (Hc1 : client (setSocket s sock (requested k bl page bank)) = Some sock)
    by exact Hc.
  assert (Hsub : subscribedOn (setSocket s sock (requested k bl page bank))
                   sock page (bank + 1 - 1) = true).
  { unfold subscribedOn. rewrite setSocket_lookup. cbn.
    replace (bank + 1 - 1) with bank by lia. apply subscribed_subscribe_same. }
  rewrite handleBankChanged_run, Hc1, setSocket_lookup, Hsub.
  cbn [fst]. rewrite setSocket_twice.
  replace (bank + 1 - 1) with bank by lia.
  unfold subscribedOn, dynamicOn, staticOn, sentOn.
  rewrite setSocket_lookup, Hk. cbn [mbind option_bind fmap option_fmap option_map].
  rewrite Hb. cbn.
  split; [now rewrite <- app_assoc|].
  split; [intros other Hne; now rewrite lookup_insert_ne|].
  split; [apply subscribed_subscribe_same|].
  split; [intros p b Hne; now apply subscribed_subscribe_other|].
  split; reflexivity.
Qed.

(** *** Who the current client is *)

Lemma clientFrom_bind {A B} (sock : nat) (e : event) (m : M A) (f : A -> M B) :
  clientFrom sock e m -> (forall a, clientFrom sock e (f a)) ->
  clientFrom sock e (m ≫= f).
Proof.
  intros Hm Hf s. rewrite bind_run. specialize (Hm s).
  destruct (m s) as [s1 [a|]]; cbn [fst] in *; [|exact Hm].
  destruct (Hf a s1) as [H1 | H1]; [rewrite H1; exact Hm | right; exact H1].
Qed.

Lemma clientFrom_ret {A} (sock : nat) (e : event) (a : A) :
  clientFrom sock e (mret a).
Proof. intros s. now left. Qed.

Lemma clientFrom_throw {A} (sock : nat) (e : event) :
  clientFrom sock e (@throw A).
Proof. intros s. now left. Qed.

Lemma clientFrom_get (sock : nat) (e : event) : clientFrom sock e get.
Proof. intros s. now left. Qed.

Lemma clientFrom_updSocket (sock : nat) (e : event) (k : nat) (f : Socket -> Socket) :
  clientFrom sock e (updSocket k f).
Proof. intros s. now left. Qed.

Lemma clientFrom_callSurfaces (sock : nat) (e : event) (c : surface_call) :
  clientFrom sock e (callSurfaces c).
Proof. intros s. now left. Qed.

Lemma clientFrom_systemEmit (sock : nat) (e : event) (ev : string) (k : nat) :
  clientFrom sock e (systemEmit ev k).
Proof. intros s. now left. Qed.

Lemma clientFrom_clear (sock : nat) : clientFrom sock EvClose (setClient None).
Proof. intros s. right. right. split; reflexivity. Qed.

Lemma clientFrom_register (sock : nat) (id : string) :
  clientFrom sock (EvNewDevice id) (setClient (Some sock)).
Proof. intros s. right. left. split; [reflexivity | eauto]. Qed.

Lemma client_handleBankChanged (page bank : Z) (s : Service) :
  client (fst (handleBankChanged getBank page bank s)) = client s.
Proof.
  rewrite handleBankChanged_run.
  destruct (client s) as [c'|] eqn:Hc; [|exact Hc].
  destruct (sockets s !! c'); [destruct (subscribedOn s c' page (bank - 1))|];
    exact Hc.
Qed.

Lemma clientFrom_handleBankChanged (sock : nat) (e : event) (page bank : Z) :
  clientFrom sock e (handleBankChanged getBank page bank).
Proof. intros s. left. apply client_handleBankChanged. Qed.

Create HintDb client_db.

#[local] Hint Resolve clientFrom_ret clientFrom_throw clientFrom_get
  clientFrom_updSocket clientFrom_callSurfaces clientFrom_systemEmit
  clientFrom_clear clientFrom_register clientFrom_handleBankChanged
  : client_db.

Ltac client_steps :=
  repeat first
    [ progress auto with client_db
    | apply clientFrom_bind; [|intros ?]
    | match goal with
      | |- clientFrom _ _ (match ?x with _ => _ end) => destruct x
      | |- clientFrom _ _ (if ?x then _ else _) => destruct x
      end ].

Lemma clientFrom_runHandler (sock : nat) (h : handler) (e : event) :
  clientFrom sock e (runHandler getBank instances sock h e).
Proof.
  destruct h, e; cbn [runHandler];
    unfold initAPI1, initAPI2, socketResponse, socketClose, sendUTF, on, once,
      removeAllListeners, getButtonListeners;
    client_steps.
Qed.

Lemma clientFrom_callListeners (sock : nat) (e : event) (ls : list listener) :
  clientFrom sock e (callListeners getBank instances sock ls e).
Proof.
  induction ls as [|l ls IH]; cbn [callListeners].
  - apply clientFrom_ret.
  - apply clientFrom_bind; [destruct (l_once l); auto with client_db|].
    intros _. apply clientFrom_bind; [apply clientFrom_runHandler|].
    intros _. exact IH.
Qed.

(** X8: [this.client] changes only by a registration or a close: after
    one step it is what it was before, or the step delivered a
    [new_device] frame and it is the socket of that frame, or the step
    delivered the [close] of a socket and it is cleared.  A new connection,
    a bank change and every other frame leave it as it is. *)
Theorem client_step (s : Service) (i : input) :
  client (step getBank instances s i) = client s
  \/ (exists sock id, i = Frame sock (EvNewDevice id)
                      /\ client (step getBank instances s i) = Some sock)
  \/ (exists sock, i = Frame sock EvClose
                   /\ client (step getBank instances s i) = None).
Proof.
  destruct i as [a|sock e|page bank]; cbn [step].
  - left. reflexivity.
  - unfold receive, emit.
    assert (Hm : clientFrom sock e
                   (s0 ← get;
                    match sockets s0 !! sock with
                    | Some k => callListeners getBank instances sock
                                  (listenersFor (name_of e) k) e
                    | None => mret tt
                    end)).
    { apply clientFrom_bind; [apply clientFrom_get|]. intros s0.
      destruct (sockets s0 !! sock);
        [apply clientFrom_callListeners | apply clientFrom_ret]. }
    destruct (Hm s) as [H1 | [[H1 [id ->]] | [H1 ->]]].
    + left. exact H1.
    + right. left. exists sock, id. split; [reflexivity | exact H1].
    + right. right. exists sock. split; [reflexivity | exact H1].
  - left. apply client_handleBankChanged.
Qed.

(** *** Unsubscribing *)

Lemma subscribed_unsubscribe_same (bl : ButtonListeners) (page bank : Z) :
  subscribed (unsubscribe bl page bank) page bank = false.
Proof.
  unfold subscribed, unsubscribe.
  destruct (pages bl !! page) as [banks|] eqn:Hp.
  - unfold setPage. cbn [pages]. rewrite lookup_insert_eq.
    apply bool_decide_eq_false_2.
    rewrite elem_of_difference, elem_of_singleton. tauto.
  - now rewrite Hp.
Qed.

Lemma subscribed_unsubscribe_other (bl : ButtonListeners) (page bank p b : Z) :
  (p, b) <> (page, bank) ->
  subscribed (unsubscribe bl page bank) p b = subscribed bl p b.
Proof.
  intros Hne. unfold subscribed, unsubscribe.
  destruct (pages bl !! page) as [banks|] eqn:Hp; [|reflexivity].
  unfold setPage. cbn [pages].
  destruct (decide (p = page)) as [-> | Hpp].
  - assert (b <> bank) by congruence.
    rewrite lookup_insert_eq, Hp. apply bool_decide_ext.
    rewrite elem_of_difference, elem_of_singleton. tauto.
  - now rewrite lookup_insert_ne.
Qed.

Lemma listenersFor_unrequest_v2 (k : Socket) :
  listeners k = v2Listeners (remoteAddress k) ->
  listenersFor N_unrequest_button k
  = [mkListener N_unrequest_button false H_unrequest_button].
Proof. unfold listenersFor. intros ->. reflexivity. Qed.

Lemma withButtonListeners_same (k : Socket) (bl : ButtonListeners) :
  button_listeners k = Some bl -> withButtonListeners (Some bl) k = k.
Proof. destruct k. cbn. intros ->. reflexivity. Qed.

Lemma receive_unrequest_button (s : Service) (sock : nat) (k : Socket)
    (bl : ButtonListeners) (page bank : Z) :
  sockets s !! sock = Some k ->
  listeners k = v2Listeners (remoteAddress k) ->
  button_listeners k = Some bl ->
  receive getBank instances sock (EvUnrequestButton page bank) s
  = setSocket s sock
      (withSent (Response "request_button" ArgResultOk)
         (withButtonListeners (Some (unsubscribe bl page bank)) k)).
Proof.
  intros Hk Hl Hb. unfold receive, emit. rewrite bind_run. cbn [get]. rewrite Hk.
  cbn [name_of]. rewrite (listenersFor_unrequest_v2 k Hl).
  cbn [callListeners l_once l_handler]. run_binds.
  cbn [runHandler]. unfold getButtonListeners at 1. run_binds. cbn [get].
  rewrite Hk. cbn [mbind option_bind]. rewrite Hb. run_binds.
  unfold unsubscribe, socketResponse, sendUTF.
  destruct (pages bl !! page) as [banks|].
  - run_socket Hk. reflexivity.
  - run_socket Hk. now rewrite (withButtonListeners_same k bl Hb).
Qed.

(** X1: [unrequest_button] on a registered version 2 session removes the
    button from the session's subscriptions and leaves the others, is
    answered with one reply (named [request_button]) and no push, changes
    neither [this.client] nor the registry, and a later change of that
    button's image sends nothing on this socket. *)
Theorem unrequest_button_effect (s : Service) (sock : nat) (page bank : Z) :
  v2Session s sock = true ->
  let s' := receive getBank instances sock (EvUnrequestButton page bank) s in
  sentOn s' sock = sentOn s sock ++ [Response "request_button" ArgResultOk]
  /\ (forall other, other <> sock -> sentOn s' other = sentOn s other)
  /\ subscribedOn s' sock page bank = false
  /\ (forall p b, (p, b) <> (page, bank) ->
        subscribedOn s' sock p b = subscribedOn s sock p b)
  /\ client s' = client s
  /\ surfaces s' = surfaces s
  /\ sentOn (step getBank instances s' (BankInvalidated page (bank + 1))) sock
     = sentOn s' sock.
Proof.
  intros (k & bl & Hk & Hl & Hb)%v2Session_inv. cbn zeta.
  rewrite (receive_unrequest_button s sock k bl page bank Hk Hl Hb).
  set (k' := withSent _ _).
  assert (Hsub : subscribedOn (setSocket s sock k') sock page bank = false).
  { unfold subscribedOn. rewrite setSocket_lookup. cbn.
    apply subscribed_unsubscribe_same. }
  split; [rewrite sentOn_setSocket, bool_decide_eq_true_2 by reflexivity;
          unfold sentOn; now rewrite Hk|].
  split; [intros other Hne; rewrite sentOn_setSocket;
          now rewrite bool_decide_eq_false_2 by congruence|].
  split; [exact Hsub|].
  split.
  { intros p b Hne. unfold subscribedOn. rewrite setSocket_lookup, Hk. cbn.
    rewrite Hb. now apply subscribed_unsubscribe_other. }
  split; [reflexivity|]. split; [reflexivity|].
  cbn [step]. rewrite handleBankChanged_run.
  change (client (setSocket s sock k')) with (client s).
  destruct (client s) as [c|]; [|reflexivity].
  destruct (decide (c = sock)) as [-> | Hne].
  - rewrite setSocket_lookup. replace (bank + 1 - 1) with bank by lia.
    now rewrite Hsub.
  - destruct (sockets (setSocket s sock k') !! c); [|reflexivity].
    destruct (subscribedOn (setSocket s sock k') c page (bank + 1 - 1));
      [|reflexivity].
    cbn [fst]. rewrite sentOn_setSocket.
    now rewrite bool_decide_eq_false_2 by congruence.
Qed.

(** X2: on a socket that negotiated version 2 but has not registered a
    device, [request_button] and [unrequest_button] read a member of the
    missing [button_listeners]; the exception is caught by the message
    listener: nothing is sent and nothing changes. *)
Theorem subscription_before_registration (s : Service) (sock : nat) (a : string)
    (page bank : Z) :
  sockets s !! sock = Some (v2Socket a) ->
  receive getBank instances sock (EvRequestButton page bank) s = s
  /\ receive getBank instances sock (EvUnrequestButton page bank) s = s.
Proof.
  intros Hk. unfold receive, emit. rewrite !bind_run. cbn [get]. rewrite Hk.
  change (listenersFor (name_of (EvRequestButton page bank)) (v2Socket a))
    with [mkListener N_request_button false H_request_button].
  change (listenersFor (name_of (EvUnrequestButton page bank)) (v2Socket a))
    with [mkListener N_unrequest_button false H_unrequest_button].
  cbn [callListeners l_once l_handler]. run_binds.
  cbn [runHandler]. unfold getButtonListeners. run_binds. cbn [get].
  rewrite Hk. cbn. auto.
Qed.

(** *** Registration and closing *)

(** Like [run_service], from a state whose socket is given by [Hk]. *)
Ltac run_service_from Hk :=
  repeat first
    [ rewrite bind_run
    | erewrite updSocket_run by (cbn [sockets]; exact Hk)
    | erewrite updSocket_run by (cbn [sockets setSocket]; apply lookup_insert_eq)
    | progress cbv [mret M_ret get modify callSurfaces systemEmit setClient]
    | progress cbv beta iota ].

(** X3: [new_device] on a socket that negotiated version 2 makes one
    [addDevice] call under the id derived from the remote address, whatever
    id the device supplied, replies [{result: true}], makes the socket
    [this.client] and a registered session without subscriptions; the
    handler is used up, so a second [new_device] changes nothing. *)
Theorem register_v2_once (s : Service) (sock : nat) (a id : string) :
  sockets s !! sock = Some (v2Socket a) ->
  let s' := receive getBank instances sock (EvNewDevice id) s in
  surfaces s' = surfaces s ++ [addDevice ("elgato_plugin-" +:+ a) "streamdeck_plugin"]
  /\ sentOn s' sock = [Response "version" (ArgVersion 2 None);
                       Response "new_device" (ArgNewDevice true)]
  /\ client s' = Some sock
  /\ v2Session s' sock = true
  /\ (forall p b, subscribedOn s' sock p b = false)
  /\ (forall id', receive getBank instances sock (EvNewDevice id') s = s')
  /\ (forall id', receive getBank instances sock (EvNewDevice id') s' = s').
Proof.
  intros Hk. cbn zeta.
  destruct (receive_new_device_v2 s sock a id Hk) as [Hs Hv]. cbn zeta in Hs, Hv.
  split; [now rewrite Hs|].
  split.
  { rewrite Hs. unfold sentOn, registered. cbn [sockets].
    now rewrite lookup_insert_eq. }
  split; [now rewrite Hs|]. split; [exact Hv|].
  split.
  { intros p b. rewrite Hs. unfold subscribedOn, registered. cbn [sockets].
    now rewrite lookup_insert_eq. }
  split.
  { intros id'. destruct (receive_new_device_v2 s sock a id' Hk) as [Hs' _].
    cbn zeta in Hs'. now rewrite Hs, Hs'. }
  intros id'. rewrite Hs. unfold receive, emit. rewrite bind_run. cbn [get].
  unfold registered at 1. cbn [sockets]. rewrite lookup_insert_eq. reflexivity.
Qed.

Lemma receive_get_instances_v1 (s : Service) (sock : nat) (k : Socket) (a : string) :
  sockets s !! sock = Some k ->
  listeners k = listeners (v1Registered a) ->
  receive getBank instances sock EvGetInstances s
  = setSocket s sock
      (withSent (Response "get_instances" (ArgInstances instances)) k).
Proof.
  intros Hk Hl. unfold receive, emit. rewrite bind_run. cbn [get]. rewrite Hk.
  unfold listenersFor. rewrite Hl.
  change (List.filter _ (listeners (v1Registered a)))
    with [mkListener N_get_instances false H_get_instances].
  cbn [callListeners l_once l_handler]. run_binds.
  cbn [runHandler]. unfold socketResponse, sendUTF. run_socket Hk. reflexivity.
Qed.

Lemma receive_close_v1 (s : Service) (sock : nat) (a : string) (k : Socket) :
  sockets s !! sock = Some k ->
  listeners k = listeners (v1Registered a) ->
  receive getBank instances sock EvClose s
  = {| sockets := <[sock := k]> (sockets s);
       client := client s;
       surfaces := surfaces s ++ [removeDevice ("elgato_plugin-" +:+ a)];
       system := system s |}.
Proof.
  intros Hk Hl. unfold receive, emit. rewrite bind_run. cbn [get]. rewrite Hk.
  unfold listenersFor. rewrite Hl.
  change (List.filter _ (listeners (v1Registered a)))
    with [mkListener N_close false H_close_log;
          mkListener N_close false (H_close1 ("elgato_plugin-" +:+ a))].
  cbn [callListeners l_once l_handler]. run_binds.
  cbn [runHandler]. unfold removeAllListeners.
  run_service_from Hk.
  unfold setSocket. cbn [fst sockets client surfaces system].
  rewrite insert_insert_eq. do 2 f_equal.
  destruct k as [ra ls st cl bls]. cbn in Hl. subst ls. reflexivity.
Qed.

(** X4: under version 1, [get_instances] is ignored until the device has
    registered; [new_device] makes one [addDevice] call under the
    address-derived id, replies [{result: true}] and leaves [this.client]
    alone; from then on every [get_instances] is answered with the instance
    configuration, and [close] makes the matching [removeDevice] call
    without sending anything. *)
Theorem v1_lifecycle (s : Service) (sock : nat) (a id : string) :
  sockets s !! sock = Some (v1Socket a) ->
  let s' := receive getBank instances sock (EvNewDevice id) s in
  receive getBank instances sock EvGetInstances s = s
  /\ surfaces s' = surfaces s ++ [addDevice ("elgato_plugin-" +:+ a) "streamdeck_plugin"]
  /\ sentOn s' sock = [Response "version" (ArgVersion 1 None);
                       Response "new_device" (ArgNewDevice true)]
  /\ client s' = client s
  /\ sentOn (receive getBank instances sock EvGetInstances s') sock
     = sentOn s' sock ++ [Response "get_instances" (ArgInstances instances)]
  /\ surfaces (receive getBank instances sock EvClose s')
     = surfaces s' ++ [removeDevice ("elgato_plugin-" +:+ a)]
  /\ sentOn (receive getBank instances sock EvClose s') sock = sentOn s' sock
  /\ client (receive getBank instances sock EvClose s') = client s.
Proof.
  intros Hk. cbn zeta. rewrite (receive_new_device_v1 s sock a id Hk).
  assert (Hk' : sockets (registered s sock (v1Registered a) (client s)) !! sock
                = Some (v1Registered a)) by apply lookup_insert_eq.
  split.
  { unfold receive, emit. rewrite bind_run. cbn [get]. rewrite Hk. reflexivity. }
  split; [reflexivity|].
  split; [unfold sentOn; now rewrite Hk'|].
  split; [reflexivity|].
  rewrite (receive_get_instances_v1 _ sock _ a Hk' eq_refl).
  rewrite (receive_close_v1 _ sock a _ Hk' eq_refl).
  split.
  { rewrite sentOn_setSocket, bool_decide_eq_true_2 by reflexivity.
    unfold sentOn. now rewrite Hk'. }
  split; [reflexivity|].
  split; [|reflexivity].
  unfold sentOn. cbn [sockets]. now rewrite lookup_insert_eq, Hk'.
Qed.

Lemma receive_close_v2 (s : Service) (sock : nat) (k : Socket) :
  sockets s !! sock = Some k ->
  listeners k = v2Listeners (remoteAddress k) ->
  receive getBank instances sock EvClose s
  = {| sockets := <[sock := withButtonListeners None k]> (sockets s);
       client := None;
       surfaces := surfaces s ++ [removeDevice (deviceId k)];
       system := system s |}.
Proof.
  intros Hk Hl. unfold receive, emit. rewrite bind_run. cbn [get]. rewrite Hk.
  unfold listenersFor. rewrite Hl.
  change (List.filter _ (v2Listeners (remoteAddress k)))
    with [mkListener N_close false H_close_log;
          mkListener N_close false (H_close2 (deviceId k))].
  cbn [callListeners l_once l_handler]. run_binds.
  cbn [runHandler]. unfold removeAllListeners.
  run_service_from Hk.
  unfold setSocket. cbn [fst sockets client surfaces system].
  rewrite !insert_insert_eq. do 2 f_equal.
  destruct k as [ra ls st cl bls]. cbn in Hl. subst ls. reflexivity.
Qed.

(** X5: [close] on a registered version 2 session makes the [removeDevice]
    call for its id, drops its subscriptions and clears [this.client],
    whichever socket that was; nothing is sent, and from then on no
    bank-change signal sends a frame to any socket and a [request_button] on
    the closed socket is dropped without a reply. *)
Theorem close_v2_clears_client (s : Service) (sock : nat) (k : Socket) :
  v2Session s sock = true ->
  sockets s !! sock = Some k ->
  let s' := receive getBank instances sock EvClose s in
  surfaces s' = surfaces s ++ [removeDevice ("elgato_plugin-" +:+ remoteAddress k)]
  /\ client s' = None
  /\ (forall other, sentOn s' other = sentOn s other)
  /\ (forall p b, subscribedOn s' sock p b = false)
  /\ (forall page bank other,
        sentOn (step getBank instances s' (BankInvalidated page bank)) other
        = sentOn s' other)
  /\ (forall p b, receive getBank instances sock (EvRequestButton p b) s' = s').
Proof.
  intros (k0 & bl & Hk0 & Hl & Hb)%v2Session_inv Hk. cbn zeta.
  assert (k0 = k) as -> by congruence.
  rewrite (receive_close_v2 s sock k Hk Hl).
  split; [reflexivity|]. split; [reflexivity|].
  split.
  { intros other. unfold sentOn. cbn [sockets].
    destruct (decide (sock = other)) as [<- | Hne].
    - now rewrite lookup_insert_eq, Hk.
    - now rewrite lookup_insert_ne. }
  split.
  { intros p b. unfold subscribedOn. cbn [sockets].
    now rewrite lookup_insert_eq. }
  split.
  { intros page bank other. cbn [step]. now rewrite handleBankChanged_run. }
  intros p b. unfold receive, emit. rewrite bind_run. cbn [get sockets].
  rewrite lookup_insert_eq.
  assert (Hls : listenersFor (name_of (EvRequestButton p b))
                  (withButtonListeners None k)
                = [mkListener N_request_button false H_request_button]).
  { unfold listenersFor. cbn [withButtonListeners listeners]. now rewrite Hl. }
  rewrite Hls. cbn [callListeners l_once l_handler]. run_binds.
  cbn [runHandler]. unfold getButtonListeners. run_binds. cbn [get sockets].
  rewrite lookup_insert_eq. reflexivity.
Qed.

(** *** Who is sent frames, and when the registry is called *)

Lemma processIncoming_run (s : Service) (a : string) :
  fst (processIncoming a s) = setSocket s (fresh (dom (sockets s))) (newSocket a).
Proof.
  unfold processIncoming, initSocket, on. run_service.
  unfold setSocket. cbn [fst sockets client surfaces system].
  now rewrite !insert_insert_eq.
Qed.

Lemma quietOn_bind {A B} (other : nat) (m : M A) (f : A -> M B) :
  quietOn other m -> (forall a, quietOn other (f a)) -> quietOn other (m ≫= f).
Proof.
  intros Hm Hf s Hc. rewrite bind_run. specialize (Hm s Hc).
  destruct (m s) as [s1 [a|]]; cbn [fst] in *; [|exact Hm].
  destruct Hm as [Hc1 Hs1]. destruct (Hf a s1 Hc1) as [Hc2 Hs2].
  split; [exact Hc2 | congruence].
Qed.

Lemma quietOn_ret {A} (other : nat) (a : A) : quietOn other (mret a).
Proof. intros s Hc. split; [exact Hc | reflexivity]. Qed.

Lemma quietOn_throw {A} (other : nat) : quietOn other (@throw A).
Proof. intros s Hc. split; [exact Hc | reflexivity]. Qed.

Lemma quietOn_get (other : nat) : quietOn other get.
Proof. intros s Hc. split; [exact Hc | reflexivity]. Qed.

Lemma quietOn_updSocket (other sock : nat) (f : Socket -> Socket) :
  sock <> other -> quietOn other (updSocket sock f).
Proof.
  intros Hne s Hc. split; [exact Hc|].
  unfold sentOn, updSocket, modify. cbn [fst sockets].
  rewrite lookup_alter. case_decide; [congruence | reflexivity].
Qed.

Lemma quietOn_callSurfaces (other : nat) (c : surface_call) :
  quietOn other (callSurfaces c).
Proof. intros s Hc. split; [exact Hc | reflexivity]. Qed.

Lemma quietOn_systemEmit (other : nat) (ev : string) (k : nat) :
  quietOn other (systemEmit ev k).
Proof. intros s Hc. split; [exact Hc | reflexivity]. Qed.

Lemma quietOn_setClient (other : nat) (c : option nat) :
  c <> Some other -> quietOn other (setClient c).
Proof. intros Hne s Hc. split; [exact Hne | reflexivity]. Qed.

Lemma quietOn_handleBankChanged (other : nat) (page bank : Z) :
  quietOn other (handleBankChanged getBank page bank).
Proof.
  intros s Hc. rewrite handleBankChanged_run.
  assert (Hset : forall k sk, client (setSocket s k sk) = client s) by reflexivity.
  destruct (client s) as [c|] eqn:Hcl;
    [|split; [cbn [fst]; now rewrite Hcl | reflexivity]].
  destruct (sockets s !! c); [destruct (subscribedOn s c page (bank - 1))|];
    cbn [fst]; try (split; [now rewrite Hcl | reflexivity]).
  split; [rewrite Hset; exact Hc|].
  rewrite sentOn_setSocket. now rewrite bool_decide_eq_false_2 by congruence.
Qed.

Lemma quietOn_runHandler (other sock : nat) (h : handler) (e : event) :
  sock <> other -> quietOn other (runHandler getBank instances sock h e).
Proof.
  intros Hne.
  assert (Hs : Some sock <> Some other) by congruence.
  assert (Hn : @None nat <> Some other) by discriminate.
  destruct h, e; cbn [runHandler];
    unfold initAPI1, initAPI2, socketResponse, socketClose, sendUTF, on, once,
      removeAllListeners, getButtonListeners;
    repeat first
      [ apply quietOn_handleBankChanged
      | apply quietOn_ret | apply quietOn_throw | apply quietOn_get
      | apply quietOn_updSocket; exact Hne
      | apply quietOn_callSurfaces | apply quietOn_systemEmit
      | apply quietOn_setClient; assumption
      | apply quietOn_bind; [|intros ?]
      | match goal with
        | |- quietOn _ (match ?x with _ => _ end) => destruct x
        | |- quietOn _ (if ?x then _ else _) => destruct x
        end ].
Qed.

Lemma quietOn_callListeners (other sock : nat) (e : event) (ls : list listener) :
  sock <> other -> quietOn other (callListeners getBank instances sock ls e).
Proof.
  intros Hne. induction ls as [|l ls IH]; cbn [callListeners].
  - apply quietOn_ret.
  - apply quietOn_bind.
    { destruct (l_once l); [now apply quietOn_updSocket | apply quietOn_ret]. }
    intros _. apply quietOn_bind; [now apply quietOn_runHandler|].
    intros _. exact IH.
Qed.

(** X6: a socket is sent frames only in reaction to a message of its own
    or while it is [this.client]: no step that is not a frame received on
    the socket sends anything on it unless it is the current client, and a
    new connection sends nothing to anyone. *)
Theorem frames_only_to_sender_or_client (s : Service) (i : input) (other : nat) :
  client s <> Some other ->
  (forall e, i <> Frame other e) ->
  sentOn (step getBank instances s i) other = sentOn s other.
Proof.
  intros Hc Hi. destruct i as [a|sock e|page bank]; cbn [step].
  - rewrite processIncoming_run, sentOn_setSocket. case_bool_decide as Hf; [|reflexivity].
    subst other. unfold sentOn.
    assert (Hnone : sockets s !! fresh (dom (sockets s)) = None).
    { apply not_elem_of_dom. apply is_fresh. }
    now rewrite Hnone.
  - assert (Hne : sock <> other) by (intros ->; now apply (Hi e)).
    unfold receive, emit.
    assert (Hq : quietOn other
                   (s0 ← get;
                    match sockets s0 !! sock with
                    | Some k => callListeners getBank instances sock
                                  (listenersFor (name_of e) k) e
                    | None => mret tt
                    end)).
    { apply quietOn_bind; [apply quietOn_get|]. intros s0.
      destruct (sockets s0 !! sock);
        [now apply quietOn_callListeners | apply quietOn_ret]. }
    apply (Hq s Hc).
  - apply (quietOn_handleBankChanged other page bank s Hc).
Qed.

Lemma keepsSurfaces_bind {A B} (m : M A) (f : A -> M B) :
  keepsSurfaces m -> (forall a, keepsSurfaces (f a)) -> keepsSurfaces (m ≫= f).
Proof.
  intros Hm Hf s. rewrite bind_run. specialize (Hm s).
  destruct (m s) as [s1 [a|]]; cbn [fst] in *; [|exact Hm].
  now rewrite Hf.
Qed.

Lemma keepsSurfaces_updSocket (sock : nat) (f : Socket -> Socket) :
  keepsSurfaces (updSocket sock f).
Proof. intros s. reflexivity. Qed.

Lemma keepsSurfaces_handleBankChanged (page bank : Z) :
  keepsSurfaces (handleBankChanged getBank page bank).
Proof.
  intros s. rewrite handleBankChanged_run.
  destruct (client s) as [c|]; [|reflexivity].
  destruct (sockets s !! c); [|reflexivity].
  destruct (subscribedOn s c page (bank - 1)); reflexivity.
Qed.

Ltac surfaces_steps :=
  repeat first
    [ apply keepsSurfaces_handleBankChanged
    | apply keepsSurfaces_updSocket
    | apply keepsSurfaces_bind; [|intros ?]
    | match goal with
      | |- keepsSurfaces (match ?x with _ => _ end) => destruct x
      | |- keepsSurfaces (if ?x then _ else _) => destruct x
      end
    | (intros ?; reflexivity) ].

Lemma keepsSurfaces_runHandler (sock : nat) (h : handler) (e : event) :
  (forall id, e <> EvNewDevice id) -> e <> EvClose ->
  keepsSurfaces (runHandler getBank instances sock h e).
Proof.
  intros Hn Hcl.
  destruct h, e; try (now destruct (Hn id)); try easy; cbn [runHandler];
    unfold initAPI1, initAPI2, socketResponse, socketClose, sendUTF, on, once,
      removeAllListeners, getButtonListeners;
    surfaces_steps.
Qed.

Lemma keepsSurfaces_callListeners (sock : nat) (e : event) (ls : list listener) :
  (forall id, e <> EvNewDevice id) -> e <> EvClose ->
  keepsSurfaces (callListeners getBank instances sock ls e).
Proof.
  intros Hn Hcl. induction ls as [|l ls IH]; cbn [callListeners].
  - intros s. reflexivity.
  - apply keepsSurfaces_bind.
    { destruct (l_once l); [apply keepsSurfaces_updSocket | intros s; reflexivity]. }
    intros _. apply keepsSurfaces_bind; [now apply keepsSurfaces_runHandler|].
    intros _. exact IH.
Qed.

(** X7: the surface registry is called only while a [new_device] or a
    [close] is handled: a new connection, a bank-change signal and every
    other frame ([version], [get_instances], [request_button],
    [unrequest_button]) leave the registry's call log as it was. *)
Theorem registry_called_only_on_register_and_close (s : Service) (i : input) :
  match i with
  | Frame _ (EvNewDevice _) | Frame _ EvClose => True
  | _ => surfaces (step getBank instances s i) = surfaces s
  end.
Proof.
  assert (Hframe : forall sock e,
            (forall id, e <> EvNewDevice id) -> e <> EvClose ->
            surfaces (receive getBank instances sock e s) = surfaces s).
  { intros sock e Hn Hcl. unfold receive, emit.
    assert (Hq : keepsSurfaces
                   (s0 ← get;
                    match sockets s0 !! sock with
                    | Some k => callListeners getBank instances sock
                                  (listenersFor (name_of e) k) e
                    | None => mret tt
                    end)).
    { apply keepsSurfaces_bind; [intros s0; reflexivity|]. intros s0.
      destruct (sockets s0 !! sock);
        [now apply keepsSurfaces_callListeners | intros s1; reflexivity]. }
    apply Hq. }
  destruct i as [a|sock e|page bank]; cbn [step].
  - now rewrite processIncoming_run.
  - destruct e; try exact I; apply Hframe; discriminate.
  - apply keepsSurfaces_handleBankChanged.
Qed.

End ServiceProps.

Section ServiceSample.
Import ElgatoPlugin Sample.

(** The protocol scenario of the specification: version 2 is negotiated,
    the device registers with one [addDevice] call, and
    [request_button {page: 1, bank: 3}] is answered and followed by one
    [fillImage] for page 1, bank 3. *)
Lemma protocol_scenario :
  sentOn one_subscription 0
  = [Response "version" (ArgVersion 2 None);
     Response "new_device" (ArgNewDevice true);
     Response "request_button" ArgResultOk;
     Command "fillImage" (ArgFillImage 1 3 3 "1/4")]
  /\ surfaces one_subscription = [addDevice "elgato_plugin-a" "streamdeck_plugin"]
  /\ client one_subscription = Some 0%nat.
Proof. vm_compute. auto. Qed.

(** C4, as the specification states it, fails for a version 2 session that
    is not the service's current client: with two registered sessions, the
    first one's [request_button {page: 1, bank: 3}] is recorded and
    answered, but [handleBankChanged] looks at the second session, which
    holds no such subscription, and no [fillImage] is sent to anyone. *)
Lemma C4_counterexample :
  v2Session two_sessions 0 = true
  /\ client two_sessions = Some 1%nat
  /\ sentOn (receive getBank instances 0 (EvRequestButton 1 3) two_sessions) 0
     = sentOn two_sessions 0 ++ [Response "request_button" ArgResultOk]
  /\ sentOn (receive getBank instances 0 (EvRequestButton 1 3) two_sessions) 1
     = sentOn two_sessions 1
  /\ sentOn (receive getBank instances 0 (EvRequestButton 1 3) two_sessions) 0
     <> sentOn two_sessions 0
        ++ [Response "request_button" ArgResultOk;
            fillImage 1 3 (buffer (getBank 1 4))]
  /\ List.filter isFillImage
       (sentOn (receive getBank instances 0 (EvRequestButton 1 3) two_sessions) 0
        ++ sentOn (receive getBank instances 0 (EvRequestButton 1 3) two_sessions) 1)
     = []
  /\ dynamicOn (receive getBank instances 0 (EvRequestButton 1 3) two_sessions) 0
     = Some ∅.
Proof.
  split; [vm_compute; reflexivity|].
  split; [vm_compute; reflexivity|].
  split; [vm_compute; reflexivity|].
  split; [vm_compute; reflexivity|].
  split; [vm_compute; discriminate|].
  split; [vm_compute; reflexivity|].
  vm_compute; reflexivity.
Qed.

Lemma C4_request_button_witness :
  v2Session one_session 0 = true
  /\ client one_session = Some 0%nat
  /\ sentOn (receive getBank instances 0 (EvRequestButton 1 3) one_session) 0
     = sentOn one_session 0
       ++ [Response "request_button" ArgResultOk;
           fillImage 1 3 (buffer (getBank 1 (3 + 1)))].
Proof.
  assert (Hv : v2Session one_session 0 = true) by (vm_compute; reflexivity).
  assert (Hc : client one_session = Some 0%nat) by (vm_compute; reflexivity).
  split; [exact Hv|]. split; [exact Hc|].
  destruct (C4_request_button getBank instances one_session 0%nat 1 3 Hv Hc)
    as (Hs & _).
  exact Hs.
Defined.

Lemma C8_version_negotiation_witness :
  sockets connected !! 0%nat = Some (newSocket "a")
  /\ sentOn (receive getBank instances 0 (EvVersion (Some 3)) connected) 0
     = [Response "version" (ArgVersion 2 (Some "cannot continue"))]
  /\ surfaces (receive getBank instances 0 (EvVersion (Some 3)) connected)
     = surfaces connected.
Proof.
  assert (Hk : sockets connected !! 0%nat = Some (newSocket "a"))
    by (vm_compute; reflexivity).
  split; [exact Hk|].
  destruct (C8_version_negotiation getBank instances connected 0%nat "a"
              (Some 3) Hk) as (Hhigh & _ & _).
  destruct (Hhigh 3 eq_refl ltac:(lia)) as (_ & Hs & _ & Hr & _).
  split; [exact Hs | exact Hr].
Defined.

(** C9, as the specification states it, fails on the numbering of banks:
    with the button of key index 3 on page 1 subscribed, the signal for
    [(1, 4)] pushes a frame whose [bank] and [keyIndex] are 3 although no
    subscription for [(1, 4)] is held, and the signal for [(1, 3)] pushes
    nothing. *)
Lemma C9_counterexample :
  client one_subscription = Some 0%nat
  /\ subscribedOn one_subscription 0 1 3 = true
  /\ subscribedOn one_subscription 0 1 4 = false
  /\ sentOn (step getBank instances one_subscription (BankInvalidated 1 4)) 0
     = sentOn one_subscription 0 ++ [fillImage 1 3 (buffer (getBank 1 4))]
  /\ sentOn (step getBank instances one_subscription (BankInvalidated 1 4)) 0
     <> sentOn one_subscription 0
  /\ sentOn (step getBank instances one_subscription (BankInvalidated 1 3)) 0
     = sentOn one_subscription 0.
Proof.
  split; [vm_compute; reflexivity|].
  split; [vm_compute; reflexivity|].
  split; [vm_compute; reflexivity|].
  split; [vm_compute; reflexivity|].
  split; [vm_compute; discriminate|].
  vm_compute; reflexivity.
Qed.

Lemma unrequest_button_effect_witness :
  v2Session one_subscription 0 = true
  /\ subscribedOn one_subscription 0 1 3 = true
  /\ subscribedOn
       (receive getBank instances 0 (EvUnrequestButton 1 3) one_subscription) 0 1 3
     = false.
Proof.
  assert (Hv : v2Session one_subscription 0 = true) by (vm_compute; reflexivity).
  split; [exact Hv|]. split; [vm_compute; reflexivity|].
  destruct (unrequest_button_effect getBank instances one_subscription 0%nat 1 3 Hv)
    as (_ & _ & Hs & _).
  exact Hs.
Defined.

Lemma subscription_before_registration_witness :
  sockets negotiated2 !! 0%nat = Some (v2Socket "a")
  /\ receive getBank instances 0 (EvRequestButton 1 3) negotiated2 = negotiated2.
Proof.
  assert (Hk : sockets negotiated2 !! 0%nat = Some (v2Socket "a"))
    by (vm_compute; reflexivity).
  split; [exact Hk|].
  destruct (subscription_before_registration getBank instances negotiated2
              0%nat "a" 1 3 Hk) as [Hr _].
  exact Hr.
Defined.

Lemma register_v2_once_witness :
  sockets negotiated2 !! 0%nat = Some (v2Socket "a")
  /\ surfaces (receive getBank instances 0 (EvNewDevice "x") negotiated2)
     = surfaces negotiated2 ++ [addDevice ("elgato_plugin-" +:+ "a") "streamdeck_plugin"].
Proof.
  assert (Hk : sockets negotiated2 !! 0%nat = Some (v2Socket "a"))
    by (vm_compute; reflexivity).
  split; [exact Hk|].
  destruct (register_v2_once getBank instances negotiated2 0%nat "a" "x" Hk)
    as (Hs & _).
  exact Hs.
Defined.

Lemma v1_lifecycle_witness :
  sockets negotiated1 !! 0%nat = Some (v1Socket "a")
  /\ receive getBank instances 0 EvGetInstances negotiated1 = negotiated1.
Proof.
  assert (Hk : sockets negotiated1 !! 0%nat = Some (v1Socket "a"))
    by (vm_compute; reflexivity).
  split; [exact Hk|].
  destruct (v1_lifecycle getBank instances negotiated1 0%nat "a" "x" Hk)
    as (Hs & _).
  exact Hs.
Defined.

Lemma close_v2_clears_client_witness :
  v2Session two_sessions 0 = true
  /\ sockets two_sessions !! 0%nat = Some (v2Registered "a")
  /\ client two_sessions = Some 1%nat
  /\ client (receive getBank instances 0 EvClose two_sessions) = None.
Proof.
  assert (Hv : v2Session two_sessions 0 = true) by (vm_compute; reflexivity).
  assert (Hk : sockets two_sessions !! 0%nat = Some (v2Registered "a"))
    by (vm_compute; reflexivity).
  split; [exact Hv|]. split; [exact Hk|]. split; [vm_compute; reflexivity|].
  destruct (close_v2_clears_client getBank instances two_sessions 0%nat
              (v2Registered "a") Hv Hk) as (_ & Hc & _).
  exact Hc.
Defined.

Lemma frames_only_to_sender_or_client_witness :
  client two_sessions <> Some 0%nat
  /\ sentOn (step getBank instances two_sessions (BankInvalidated 1 4)) 0
     = sentOn two_sessions 0.
Proof.
  assert (Hc : client two_sessions <> Some 0%nat) by (vm_compute; discriminate).
  split; [exact Hc|].
  apply (frames_only_to_sender_or_client getBank instances two_sessions
           (BankInvalidated 1 4) 0%nat Hc).
  intros e. discriminate.
Defined.

Lemma client_step_witness :
  client (step getBank instances two_sessions (Frame 0 EvClose)) = None
  /\ client two_sessions = Some 1%nat
  /\ (client (step getBank instances two_sessions (Frame 0 EvClose))
      = client two_sessions
      \/ (exists sock id, Frame 0 EvClose = Frame sock (EvNewDevice id)
                          /\ client (step getBank instances two_sessions (Frame 0 EvClose))
                             = Some sock)
      \/ (exists sock, Frame 0 EvClose = Frame sock EvClose
                       /\ client (step getBank instances two_sessions (Frame 0 EvClose))
                          = None)).
Proof.
  split; [vm_compute; reflexivity|]. split; [vm_compute; reflexivity|].
  exact (client_step getBank instances two_sessions (Frame 0 EvClose)).
Defined.

End ServiceSample.

(** ** The bank preview relay *)

Section PreviewProps.
Import ElgatoPlugin Preview.

Variable getBank : Z -> Z -> Button.
Variable getImagesForPage : Z -> Z -> Button.
Variable pagesPayload : string.
Variable pagePayload : Z -> string.

Lemma collect_lookup (cache : option (gmap Z Z)) (images : Z -> Button) (n : nat) :
  forall (i : Z) (result : gmap Z Button) (k : Z),
  collect cache images n i result !! k
  = if (i + 1 <=? k) && (k <=? i + Z.of_nat n)
       && stale cache k (updated (images (k - 1)))
    then Some (images (k - 1))
    else result !! k.
Proof.
  induction n as [|n IH]; intros i result k.
  - cbn [collect].
    destruct (Z.leb_spec (i + 1) k); destruct (Z.leb_spec k (i + Z.of_nat 0));
      cbn [andb]; try reflexivity; lia.
  - cbn [collect]. rewrite IH.
    destruct (decide (k = i + 1)) as [-> | Hne].
    + replace (i + 1 + 1 <=? i + 1) with false by (symmetry; apply Z.leb_gt; lia).
      replace (i + 1 <=? i + 1) with true by (symmetry; apply Z.leb_le; lia).
      replace (i + 1 <=? i + Z.of_nat (S n)) with true
        by (symmetry; apply Z.leb_le; lia).
      cbn [andb]. replace (i + 1 - 1) with i by lia.
      destruct (stale cache (i + 1) (updated (images i))); [|reflexivity].
      apply lookup_insert_eq.
    + assert (Hres : (if stale cache (i + 1) (updated (images i))
                      then <[i + 1 := images i]> result else result) !! k
                     = result !! k).
      { destruct (stale cache (i + 1) (updated (images i))); [|reflexivity].
        apply lookup_insert_ne. lia. }
      rewrite Hres.
      replace ((i + 1 + 1 <=? k) && (k <=? i + 1 + Z.of_nat n))
        with ((i + 1 <=? k) && (k <=? i + Z.of_nat (S n))); [reflexivity|].
      destruct (Z.leb_spec (i + 1 + 1) k); destruct (Z.leb_spec k (i + 1 + Z.of_nat n));
        destruct (Z.leb_spec (i + 1) k); destruct (Z.leb_spec k (i + Z.of_nat (S n)));
        cbn [andb]; try reflexivity; lia.
Qed.

Lemma pageDelta_lookup_eq (cache : option (gmap Z Z)) (page k : Z) :
  pageDelta getImagesForPage cache page !! k
  = if (1 <=? k) && (k <=? 32)
       && stale cache k (updated (getImagesForPage page (k - 1)))
    then Some (getImagesForPage page (k - 1))
    else None.
Proof. unfold pageDelta. rewrite collect_lookup. reflexivity. Qed.

Lemma pageDelta_empty (stamps : gmap Z Z) (page : Z) :
  pageDelta getImagesForPage (Some stamps) page = ∅
  <-> forall k, 1 <= k <= 32 ->
                stamps !! k = Some (updated (getImagesForPage page (k - 1))).
Proof.
  split.
  - intros He k Hk. pose proof (f_equal (fun m => m !! k) He) as Hl.
    cbn beta in Hl. rewrite pageDelta_lookup_eq, lookup_empty in Hl.
    destruct (Z.leb_spec 1 k); [| lia]. destruct (Z.leb_spec k 32); [| lia].
    cbn [andb stale] in Hl.
    destruct (stamps !! k) as [v |]; [| discriminate].
    destruct (Z.eqb_spec v (updated (getImagesForPage page (k - 1))))
      as [Heq | Hne]; [now rewrite Heq | discriminate].
  - intros Hall. apply map_eq. intros k.
    rewrite lookup_empty, pageDelta_lookup_eq.
    destruct (Z.leb_spec 1 k); cbn [andb]; [| reflexivity].
    destruct (Z.leb_spec k 32); cbn [andb]; [| reflexivity].
    cbn [stale]. rewrite (Hall k) by lia. now rewrite Z.eqb_refl.
Qed.

(** What the two page handlers send for a cache that is not [null]. *)
Lemma handleWebButtonsPage_sends (st : gmap string Client) (id : string)
    (c : Client) (page : Z) (cache : cacheArg) (answer : bool) :
  st !! id = Some c ->
  cache <> CNull ->
  let result :=
    pageDelta getImagesForPage
      (match cache with CObject stamps => Some stamps | _ => None end) page in
  receivedBy (handleWebButtonsPage getImagesForPage id page cache answer st) id
  = received c ++ [if answer then ByAnswer (buttons_page_data page result)
                   else ByEvent (buttons_page_data page result)].
Proof.
  intros Hc Hn. cbn zeta. unfold handleWebButtonsPage, receivedBy. rewrite Hc.
  destruct cache as [| |stamps]; [contradiction | |];
    rewrite lookup_insert_eq; destruct answer; reflexivity.
Qed.

Lemma handlePreviewPage_sends (st : gmap string Client) (id : string)
    (c : Client) (page : Z) (cache : cacheArg) :
  st !! id = Some c ->
  cache <> CNull ->
  let result :=
    pageDelta getImagesForPage
      (match cache with CObject stamps => Some stamps | _ => None end) page in
  snd (handlePreviewPage getImagesForPage id page cache st) = true
  /\ receivedBy (fst (handlePreviewPage getImagesForPage id page cache st)) id
     = received c ++ [ByEvent (preview_page_data result)]
  /\ _previewPage <$> fst (handlePreviewPage getImagesForPage id page cache st) !! id
     = Some (Some page).
Proof.
  intros Hc Hn. cbn zeta. unfold handlePreviewPage, receivedBy. rewrite Hc.
  destruct cache as [| |stamps]; [contradiction | |];
    cbn [fst snd]; rewrite lookup_insert_eq; repeat split; reflexivity.
Qed.

(** X24: asked for a page with a cache of stamps, [handlePreviewPage] and
    [handleWebButtonsPage] send one reply each, with the same map: it
    holds, under its bank number from 1 to 32, the image of every bank
    whose stamp the cache lacks or holds with another value, and nothing
    else.  Asked without a cache they send all 32 images.  The preview
    handler sends by event and records the page; the other sends through
    the answer function when it has one. *)
Theorem page_handlers_reply (st : gmap string Client) (id : string) (c : Client)
    (page : Z) (stamps : gmap Z Z) (answer : bool) :
  st !! id = Some c ->
  exists result every : gmap Z Button,
    receivedBy
      (handleWebButtonsPage getImagesForPage id page (CObject stamps) answer st) id
    = received c ++ [if answer then ByAnswer (buttons_page_data page result)
                     else ByEvent (buttons_page_data page result)]
    /\ snd (handlePreviewPage getImagesForPage id page (CObject stamps) st) = true
    /\ receivedBy
         (fst (handlePreviewPage getImagesForPage id page (CObject stamps) st)) id
       = received c ++ [ByEvent (preview_page_data result)]
    /\ receivedBy
         (handleWebButtonsPage getImagesForPage id page CUndefined answer st) id
       = received c ++ [if answer then ByAnswer (buttons_page_data page every)
                        else ByEvent (buttons_page_data page every)]
    /\ receivedBy
         (fst (handlePreviewPage getImagesForPage id page CUndefined st)) id
       = received c ++ [ByEvent (preview_page_data every)]
    /\ (forall k b, result !! k = Some b
                    <-> 1 <= k <= 32 /\ b = getImagesForPage page (k - 1)
                        /\ stamps !! k <> Some (updated b))
    /\ (forall k b, every !! k = Some b
                    <-> 1 <= k <= 32 /\ b = getImagesForPage page (k - 1))
    /\ _previewPage
         <$> fst (handlePreviewPage getImagesForPage id page (CObject stamps) st) !! id
       = Some (Some page).
Proof.
  intros Hc.
  exists (pageDelta getImagesForPage (Some stamps) page),
         (pageDelta getImagesForPage None page).
  destruct (handlePreviewPage_sends st id c page (CObject stamps) Hc ltac:(discriminate))
    as (Hok & Hsent & Hpage).
  destruct (handlePreviewPage_sends st id c page CUndefined Hc ltac:(discriminate))
    as (_ & Hsent' & _).
  split; [exact (handleWebButtonsPage_sends st id c page (CObject stamps) answer Hc
                   ltac:(discriminate))|].
  split; [exact Hok|]. split; [exact Hsent|].
  split; [exact (handleWebButtonsPage_sends st id c page CUndefined answer Hc
                   ltac:(discriminate))|].
  split; [exact Hsent'|].
  cut ((forall k b, pageDelta getImagesForPage (Some stamps) page !! k = Some b
                    <-> 1 <= k <= 32 /\ b = getImagesForPage page (k - 1)
                        /\ stamps !! k <> Some (updated b))
       /\ (forall k b, pageDelta getImagesForPage None page !! k = Some b
                       <-> 1 <= k <= 32 /\ b = getImagesForPage page (k - 1))).
  { intros [H1 H2]. split; [exact H1|]. split; [exact H2 | exact Hpage]. }
  split; intros k b; rewrite pageDelta_lookup_eq; cbn [stale];
    destruct (Z.leb_spec 1 k); destruct (Z.leb_spec k 32); cbn [andb];
    try (split; [discriminate | intros (Hk & _); lia]).
  - destruct (stamps !! k) as [v|] eqn:Hv.
    + destruct (Z.eqb_spec v (updated (getImagesForPage page (k - 1))))
        as [Heq | Hne]; cbn [negb].
      * split; [discriminate|]. intros (_ & -> & Hx). now rewrite Heq in Hx.
      * split.
        -- intros [= <-]. split; [lia|]. split; [reflexivity|]. congruence.
        -- intros (_ & -> & _). reflexivity.
    + split.
      * intros [= <-]. split; [lia|]. split; [reflexivity | discriminate].
      * intros (_ & -> & _). reflexivity.
  - split.
    + intros [= <-]. split; [lia | reflexivity].
    + intros (_ & ->). reflexivity.
Qed.

(** X25: the cache protocol settles exactly on the current stamps: the
    reply of [handleWebButtonsPage], and that of [handlePreviewPage], to a
    request made with a cache is the empty map if and only if the cache
    holds, for every bank from 1 to 32, the stamp of the image of that
    bank. *)
Theorem page_reply_settles (st : gmap string Client) (id : string) (c : Client)
    (page : Z) (stamps : gmap Z Z) (answer : bool) :
  st !! id = Some c ->
  (receivedBy
     (handleWebButtonsPage getImagesForPage id page (CObject stamps) answer st) id
   = received c ++ [if answer then ByAnswer (buttons_page_data page ∅)
                    else ByEvent (buttons_page_data page ∅)]
   <-> forall k, 1 <= k <= 32 ->
                 stamps !! k = Some (updated (getImagesForPage page (k - 1))))
  /\ (receivedBy
        (fst (handlePreviewPage getImagesForPage id page (CObject stamps) st)) id
      = received c ++ [ByEvent (preview_page_data ∅)]
      <-> forall k, 1 <= k <= 32 ->
                    stamps !! k = Some (updated (getImagesForPage page (k - 1)))).
Proof.
  intros Hc.
  rewrite (handleWebButtonsPage_sends st id c page (CObject stamps) answer Hc
             ltac:(discriminate)).
  destruct (handlePreviewPage_sends st id c page (CObject stamps) Hc ltac:(discriminate))
    as (_ & -> & _).
  rewrite <- pageDelta_empty.
  generalize (pageDelta getImagesForPage (Some stamps) page). intros result.
  split; split.
  - intros Heq%app_inv_head. destruct answer; injection Heq as Heq; exact Heq.
  - intros ->. reflexivity.
  - intros Heq%app_inv_head. injection Heq as Heq. exact Heq.
  - intros ->. reflexivity.
Qed.

Lemma receivedBy_fmap (f : Client -> Client) (st : gmap string Client) (id : string) :
  receivedBy (f <$> st) id
  = match st !! id with
    | Some c => received (f c)
    | None => []
    end.
Proof. unfold receivedBy. rewrite lookup_fmap. now destruct (st !! id). Qed.

(** X26: once a client has asked for [web_buttons], every bank change of
    every page is relayed to it as [buttons_bank_data] with the current
    image, although it never named a page, and the relay of
    [preview_page_data] for the page it previews stops. *)
Theorem web_buttons_gets_every_change (st : gmap string Client) (id : string)
    (c : Client) (answer : bool) (page bank : Z) :
  st !! id = Some c ->
  _preview c = None ->
  receivedBy
    (updateBank getBank page bank (handleWebButtons pagesPayload id answer st)) id
  = received c
    ++ [if answer then ByAnswer (pages pagesPayload) else ByEvent (pages pagesPayload);
        ByEvent (buttons_bank_data page {[bank := getBank page bank]})].
Proof.
  intros Hc Hp. unfold updateBank, handleWebButtons. rewrite Hc.
  rewrite receivedBy_fmap, lookup_insert_eq.
  destruct c as [pv pp wb rc]. cbn in Hp. subst pv.
  unfold updateClient, sendResult, emit. cbn.
  now rewrite <- app_assoc.
Qed.

(** X27: a [null] cache is no request at all for [web_buttons_page]
    (nothing is sent and nothing changes), while [bank_preview_page]
    records the page and then fails on reading the cache, so that no reply
    is sent but later changes of that page are relayed. *)
Theorem null_cache (st : gmap string Client) (id : string) (c : Client)
    (page bank : Z) (answer : bool) :
  st !! id = Some c ->
  web_buttons c = false ->
  _preview c = None ->
  handleWebButtonsPage getImagesForPage id page CNull answer st = st
  /\ snd (handlePreviewPage getImagesForPage id page CNull st) = false
  /\ receivedBy (fst (handlePreviewPage getImagesForPage id page CNull st)) id
     = received c
  /\ receivedBy
       (updateBank getBank page bank
          (fst (handlePreviewPage getImagesForPage id page CNull st))) id
     = received c ++ [ByEvent (preview_page_data {[bank := getBank page bank]})].
Proof.
  intros Hc Hw Hp. unfold handleWebButtonsPage, handlePreviewPage. rewrite Hc.
  cbn [fst snd]. split; [reflexivity|]. split; [reflexivity|].
  split.
  - unfold receivedBy. now rewrite lookup_insert_eq.
  - unfold updateBank. rewrite receivedBy_fmap, lookup_insert_eq.
    destruct c as [pv pp wb rc]. cbn in Hp, Hw. subst pv wb.
    unfold updateClient, emit, sendResult. cbn.
    now rewrite Z.eqb_refl.
Qed.

(** X28: [bank_preview] for a bank is answered at once with its image and
    subscribes the client to that bank alone: a later change is relayed as
    [preview_bank_data] exactly when it is that page and bank;
    [bank_preview] with [false] ends the subscription. *)
Theorem bank_preview_subscription (st : gmap string Client) (id : string)
    (c : Client) (page bank page' bank' : Z) :
  st !! id = Some c ->
  web_buttons c = false ->
  _previewPage c = None ->
  receivedBy (updateBank getBank page' bank'
                (handlePreview getBank id (On page bank) st)) id
  = received c
    ++ ByEvent (preview_bank_data page bank (buffer (getBank page bank))
                  (updated (getBank page bank)))
    :: (if (page =? page') && (bank =? bank')
        then [ByEvent (preview_bank_data page' bank' (buffer (getBank page' bank'))
                         (updated (getBank page' bank')))]
        else [])
  /\ receivedBy (updateBank getBank page' bank'
                   (handlePreview getBank id Off st)) id
     = received c.
Proof.
  intros Hc Hw Hp. unfold updateBank, handlePreview. rewrite Hc.
  rewrite !receivedBy_fmap, !lookup_insert_eq.
  destruct c as [pv pp wb rc]. cbn in Hp, Hw. subst pp wb.
  unfold updateClient, emit, sendResult. cbn.
  split; [|reflexivity].
  destruct ((page =? page') && (bank =? bank')); cbn.
  - now rewrite <- app_assoc.
  - reflexivity.
Qed.

End PreviewProps.

Section PreviewSample.
Import ElgatoPlugin Preview.

Lemma web_buttons_gets_every_change_witness :
  clientConnect "ui" ∅ !! "ui" = Some newClient
  /\ _preview newClient = None
  /\ receivedBy
       (updateBank Sample.getBank 7 3
          (handleWebButtons "pages" "ui" true (clientConnect "ui" ∅))) "ui"
     = received newClient
       ++ [ByAnswer (pages "pages");
           ByEvent (buttons_bank_data 7 {[3 := Sample.getBank 7 3]})].
Proof.
  assert (Hc : clientConnect "ui" ∅ !! "ui" = Some newClient)
    by (vm_compute; reflexivity).
  assert (Hp : _preview newClient = None) by reflexivity.
  split; [exact Hc|]. split; [exact Hp|].
  exact (web_buttons_gets_every_change Sample.getBank "pages"
           (clientConnect "ui" ∅) "ui" newClient true 7 3 Hc Hp).
Defined.

Lemma page_handlers_reply_witness :
  clientConnect "ui" ∅ !! "ui" = Some newClient
  /\ exists result,
       receivedBy
         (handleWebButtonsPage Sample.getBank "ui" 7 (CObject ∅) false
            (clientConnect "ui" ∅)) "ui"
       = [ByEvent (buttons_page_data 7 result)]
       /\ result !! 3 = Some (Sample.getBank 7 2).
Proof.
  assert (Hc : clientConnect "ui" ∅ !! "ui" = Some newClient)
    by (vm_compute; reflexivity).
  split; [exact Hc|].
  destruct (page_handlers_reply Sample.getBank (clientConnect "ui" ∅) "ui"
              newClient 7 ∅ false Hc)
    as (result & every & Hw & _ & _ & _ & _ & Hres & _ & _).
  exists result. split; [exact Hw|].
  clear Hw. apply Hres. split; [lia|]. split; [reflexivity|].
  rewrite lookup_empty. intros Hx. discriminate Hx.
Defined.

Lemma page_reply_settles_witness :
  clientConnect "ui" ∅ !! "ui" = Some newClient
  /\ ~ receivedBy
         (handleWebButtonsPage Sample.getBank "ui" 7 (CObject ∅) false
            (clientConnect "ui" ∅)) "ui"
       = [ByEvent (buttons_page_data 7 ∅)].
Proof.
  assert (Hc : clientConnect "ui" ∅ !! "ui" = Some newClient)
    by (vm_compute; reflexivity).
  split; [exact Hc|].
  destruct (page_reply_settles Sample.getBank (clientConnect "ui" ∅) "ui"
              newClient 7 ∅ false Hc) as [[Hto _] _].
  intros Hsent. specialize (Hto Hsent 1 ltac:(lia)). clear Hsent.
  rewrite lookup_empty in Hto. discriminate Hto.
Defined.

Lemma null_cache_witness :
  clientConnect "ui" ∅ !! "ui" = Some newClient
  /\ web_buttons newClient = false
  /\ _preview newClient = None
  /\ handleWebButtonsPage Sample.getBank "ui" 7 CNull false (clientConnect "ui" ∅)
     = clientConnect "ui" ∅.
Proof.
  assert (Hc : clientConnect "ui" ∅ !! "ui" = Some newClient)
    by (vm_compute; reflexivity).
  assert (Hw : web_buttons newClient = false) by reflexivity.
  assert (Hp : _preview newClient = None) by reflexivity.
  split; [exact Hc|]. split; [exact Hw|]. split; [exact Hp|].
  destruct (null_cache Sample.getBank Sample.getBank (clientConnect "ui" ∅) "ui"
              newClient 7 3 false Hc Hw Hp) as (Hn & _).
  exact Hn.
Defined.

Lemma bank_preview_subscription_witness :
  clientConnect "ui" ∅ !! "ui" = Some newClient
  /\ web_buttons newClient = false
  /\ _previewPage newClient = None
  /\ receivedBy (updateBank Sample.getBank 7 3
                   (handlePreview Sample.getBank "ui" Off (clientConnect "ui" ∅))) "ui"
     = received newClient.
Proof.
  assert (Hc : clientConnect "ui" ∅ !! "ui" = Some newClient)
    by (vm_compute; reflexivity).
  assert (Hw : web_buttons newClient = false) by reflexivity.
  assert (Hp : _previewPage newClient = None) by reflexivity.
  split; [exact Hc|]. split; [exact Hw|]. split; [exact Hp|].
  destruct (bank_preview_subscription Sample.getBank (clientConnect "ui" ∅) "ui"
              newClient 1 2 7 3 Hc Hw Hp) as (_ & Hoff).
  exact Hoff.
Defined.

End PreviewSample.

(** ** lib/Resources/Util: [parseLineParameters] *)

Section LineParameterProps.
Import JS LineParameters.

Lemma string_app_cons (c : ascii) (s1 s2 : string) :
  (String c s1 ++ s2 = String c (s1 ++ s2))%string.
Proof. reflexivity. Qed.

Lemma string_app_nil_l (s : string) : ("" ++ s = s)%string.
Proof. reflexivity. Qed.

Ltac string_app := rewrite ?string_app_cons, ?string_app_nil_l.

Lemma string_app_assoc (s1 s2 s3 : string) :
  ((s1 ++ s2) ++ s3 = s1 ++ (s2 ++ s3))%string.
Proof.
  induction s1 as [|c s1 IH]; string_app; [reflexivity | now rewrite IH].
Qed.

Lemma string_app_nil_r (s : string) : (s ++ "" = s)%string.
Proof.
  induction s as [|c s IH]; string_app; [reflexivity | now rewrite IH].
Qed.

Lemma all_app (P : ascii -> bool) (s1 s2 : string) :
  all P (s1 ++ s2) = all P s1 && all P s2.
Proof.
  induction s1 as [|c s1 IH]; string_app; simpl; [reflexivity |].
  now rewrite IH, andb_assoc.
Qed.

Lemma all_impl (P Q : ascii -> bool) (s : string) :
  (forall c, P c = true -> Q c = true) -> all P s = true -> all Q s = true.
Proof.
  intros HPQ. induction s as [|c s IH]; cbn; [reflexivity |].
  intros [Hc Hs]%andb_true_iff. rewrite (HPQ _ Hc). cbn. auto.
Qed.

Lemma code_eqb (c d : ascii) :
  (code c =? code d) = false -> String.eqb (String c "") (String d "") = false.
Proof.
  intros H. apply String.eqb_neq. intros [= ->]. rewrite Z.eqb_refl in H.
  discriminate.
Qed.

Lemma wordChar_textChar (c : ascii) : wordChar c = true -> textChar c = true.
Proof. unfold wordChar. now intros [H _]%andb_true_iff. Qed.

Lemma textChar_simple (c : ascii) : textChar c = true -> simple c = true.
Proof.
  unfold textChar. now intros [[H _]%andb_true_iff _]%andb_true_iff.
Qed.

Lemma tokens_simple (s : string) (p : acc) :
  all simple s = true -> fold_left step (tokens s) p = runChars s p.
Proof.
  revert p. induction s as [|c s IH]; intros p; cbn; [reflexivity |].
  intros [Hc Hs]%andb_true_iff. unfold simple in Hc.
  apply andb_true_iff in Hc as [Hb Ht].
  apply negb_true_iff in Hb, Ht. rewrite Hb, Ht. cbn. now apply IH.
Qed.

Lemma fragments_simple (line : string) :
  all simple line = true ->
  fragments line = Some (a (runChars line {| quote := false; a := [""] |})).
Proof.
  destruct line as [|c s]; [reflexivity |].
  intros Hall. unfold fragments, matchAll.
  pose proof (tokens_simple (String c s) {| quote := false; a := [""] |} Hall)
    as Hrun.
  cbn [all] in Hall. apply andb_true_iff in Hall as [Hc Hs].
  unfold simple in Hc. apply andb_true_iff in Hc as [Hb Ht].
  apply negb_true_iff in Hb, Ht.
  revert Hrun. cbn [tokens]. rewrite Hb, Ht. intros Hrun.
  cbn [fmap option_fmap option_map]. now rewrite Hrun.
Qed.

Lemma runChars_app (s1 s2 : string) (p : acc) :
  runChars (s1 ++ s2) p = runChars s2 (runChars s1 p).
Proof.
  revert p.
  induction s1 as [|c s1 IH]; intros p; string_app; simpl; [reflexivity | apply IH].
Qed.

Lemma appendLast_snoc (xs : list string) (l x : string) :
  appendLast (xs ++ [l]) x = xs ++ [(l ++ x)%string].
Proof.
  induction xs as [|h t IH]; [reflexivity |].
  cbn [app appendLast]. rewrite IH. now destruct t.
Qed.

Lemma step_text (c : ascii) (q : bool) (xs : list string) (l : string) :
  textChar c = true -> (q = true \/ (code c =? 32) = false) ->
  step {| quote := q; a := xs ++ [l] |} (String c "")
  = {| quote := q; a := xs ++ [(l ++ String c "")%string] |}.
Proof.
  intros Hc Hq. unfold textChar in Hc.
  apply andb_true_iff in Hc as [[_ Hquote]%andb_true_iff _].
  apply negb_true_iff in Hquote.
  unfold step. cbn [quote a].
  rewrite (code_eqb c (ascii_of_nat 34) Hquote).
  assert (negb q && String.eqb (String c "") " " = false) as ->.
  { destruct Hq as [-> | Hsp]; [reflexivity |].
    rewrite (code_eqb c " "%char Hsp). apply andb_false_r. }
  now rewrite appendLast_snoc.
Qed.

Lemma runChars_text (s : string) (q : bool) (xs : list string) (l : string) :
  (if q then all textChar s else all wordChar s) = true ->
  runChars s {| quote := q; a := xs ++ [l] |}
  = {| quote := q; a := xs ++ [(l ++ s)%string] |}.
Proof.
  revert l. induction s as [|c s IH]; intros l Hs; cbn [runChars].
  - now rewrite string_app_nil_r.
  - assert (textChar c = true /\ (q = true \/ (code c =? 32) = false)
            /\ (if q then all textChar s else all wordChar s) = true)
      as (Hc & Hq & Hrest).
    { destruct q; cbn [all] in Hs; apply andb_true_iff in Hs as [Hc Hrest].
      - auto.
      - split; [now apply wordChar_textChar |]. split; [| exact Hrest].
        right. unfold wordChar in Hc.
        apply andb_true_iff in Hc as [_ Hsp]. now apply negb_true_iff. }
    rewrite (step_text c q xs l Hc Hq), (IH _ Hrest), string_app_assoc.
    reflexivity.
Qed.

Lemma step_quote (q : bool) (xs : list string) :
  runChars dquote {| quote := q; a := xs |} = {| quote := negb q; a := xs |}.
Proof. reflexivity. Qed.

Lemma step_equals (q : bool) (xs : list string) (l : string) :
  runChars "=" {| quote := q; a := xs ++ [l] |}
  = {| quote := q; a := xs ++ [(l ++ "=")%string] |}.
Proof.
  cbn [runChars]. unfold step. cbn [quote a].
  change (String.eqb "=" (String (ascii_of_nat 34) "")) with false.
  change (String.eqb "=" " ") with false. rewrite andb_false_r.
  now rewrite appendLast_snoc.
Qed.

Lemma step_space (xs : list string) :
  runChars " " {| quote := false; a := xs |}
  = {| quote := false; a := xs ++ [""] |}.
Proof. reflexivity. Qed.

Lemma runChars_render (p : param) (xs : list string) (l : string) :
  wellFormed p = true ->
  runChars (render p) {| quote := false; a := xs ++ [l] |}
  = {| quote := false; a := xs ++ [(l ++ bare p)%string] |}.
Proof.
  destruct p as [k | k v | k v]; cbn [wellFormed render bare].
  - intros Hk. now apply (runChars_text k false).
  - intros [Hk Hv]%andb_true_iff.
    rewrite !runChars_app, (runChars_text k false _ _ Hk), step_equals,
      (runChars_text v false _ _ Hv), !string_app_assoc.
    reflexivity.
  - intros [Hk Hv]%andb_true_iff.
    rewrite !runChars_app, (runChars_text k false _ _ Hk), step_equals,
      step_quote, (runChars_text v true _ _ Hv), step_quote,
      !string_app_assoc.
    reflexivity.
Qed.

Lemma runChars_line (ps : list param) :
  Forall (fun p => wellFormed p = true) ps ->
  forall (p : param) (xs : list string) (l : string),
    wellFormed p = true ->
    runChars (String.concat " " (render <$> p :: ps))
      {| quote := false; a := xs ++ [l] |}
    = {| quote := false; a := xs ++ [(l ++ bare p)%string] ++ (bare <$> ps) |}.
Proof.
  induction 1 as [|p' ps Hp' Hps IH]; intros p xs l Hp.
  - cbn [fmap list_fmap String.concat]. rewrite (runChars_render p xs l Hp).
    now rewrite app_nil_r.
  - change (String.concat " " (render <$> p :: p' :: ps))
      with (render p ++ " " ++ String.concat " " (render <$> p' :: ps))%string.
    rewrite !runChars_app, (runChars_render p xs l Hp), step_space.
    rewrite (IH p' (xs ++ [(l ++ bare p)%string]) "" Hp').
    cbn [fmap list_fmap]. now rewrite <- !app_assoc.
Qed.

Lemma simple_render (p : param) : wellFormed p = true -> all simple (render p) = true.
Proof.
  assert (Hw : forall s, all wordChar s = true -> all simple s = true).
  { intros s. apply all_impl. intros c Hc.
    now apply textChar_simple, wordChar_textChar. }
  assert (Ht : forall s, all textChar s = true -> all simple s = true).
  { intros s. apply all_impl, textChar_simple. }
  destruct p as [k | k v | k v]; cbn [wellFormed render].
  - apply Hw.
  - intros [Hk Hv]%andb_true_iff. rewrite !all_app, (Hw _ Hk), (Hw _ Hv).
    reflexivity.
  - intros [Hk Hv]%andb_true_iff. rewrite !all_app, (Hw _ Hk), (Ht _ Hv).
    reflexivity.
Qed.

Lemma simple_line (ps : list param) :
  Forall (fun p => wellFormed p = true) ps ->
  all simple (String.concat " " (render <$> ps)) = true.
Proof.
  induction 1 as [|p ps Hp Hps IH]; [reflexivity |].
  destruct ps as [|p' ps].
  - now apply simple_render.
  - change (String.concat " " (render <$> p :: p' :: ps))
      with (render p ++ " " ++ String.concat " " (render <$> p' :: ps))%string.
    rewrite !all_app, (simple_render p Hp), IH. reflexivity.
Qed.

Lemma fragments_line (ps : list param) :
  ps <> [] -> Forall (fun p => wellFormed p = true) ps ->
  fragments (String.concat " " (render <$> ps)) = Some (bare <$> ps).
Proof.
  intros Hne Hall. rewrite (fragments_simple _ (simple_line ps Hall)).
  destruct ps as [|p ps]; [contradiction |].
  apply Forall_cons in Hall as [Hp Hps].
  pose proof (runChars_line ps Hps p [] "" Hp) as Hrun.
  rewrite string_app_nil_l in Hrun. cbn [app] in Hrun. now rewrite Hrun.
Qed.

Lemma splitEq_text (s : string) :
  all textChar s = true -> splitEq s = [s].
Proof.
  induction s as [|c s IH]; cbn; [reflexivity |].
  intros [Hc Hs]%andb_true_iff. unfold textChar in Hc.
  apply andb_true_iff in Hc as [_ Heq]. apply negb_true_iff in Heq.
  now rewrite Heq, (IH Hs).
Qed.

Lemma splitEq_pair (k v : string) :
  all textChar k = true -> splitEq (k ++ "=" ++ v) = k :: splitEq v.
Proof.
  change ("=" ++ v)%string with (String "=" v).
  induction k as [|c k IH]; string_app; cbn; [reflexivity |].
  intros [Hc Hk]%andb_true_iff. unfold textChar in Hc.
  apply andb_true_iff in Hc as [_ Heq]. apply negb_true_iff in Heq.
  rewrite Heq. now rewrite (IH Hk).
Qed.

Lemma entry_bare (p : param) :
  wellFormed p = true -> entry (bare p) = (key p, val p).
Proof.
  assert (Hw : forall s, all wordChar s = true -> all textChar s = true).
  { intros s. apply all_impl, wordChar_textChar. }
  destruct p as [k | k v | k v]; cbn [wellFormed bare key val]; unfold entry.
  - intros Hk. now rewrite (splitEq_text k (Hw _ Hk)).
  - intros [Hk Hv]%andb_true_iff.
    now rewrite (splitEq_pair k v (Hw _ Hk)), (splitEq_text v (Hw _ Hv)).
  - intros [Hk Hv]%andb_true_iff.
    now rewrite (splitEq_pair k v (Hw _ Hk)), (splitEq_text v Hv).
Qed.

(** X30: a line of well formed parameters separated by single spaces
    (flags, [key=value] pairs, and pairs whose value stands between quotes
    and may hold spaces) parses to the object that holds each key with its
    value, [true] for a flag, a later parameter replacing an earlier one
    of the same key, and the key [__proto__] left out. *)
Theorem parseLineParameters_rendered (ps : list param) :
  ps <> [] -> Forall (fun p => wellFormed p = true) ps ->
  parseLineParameters (String.concat " " (render <$> ps))
  = Some (fold_left (fun res p => assign res (key p) (val p)) ps ∅).
Proof.
  intros Hne Hall. unfold parseLineParameters.
  rewrite (fragments_line ps Hne Hall). cbn [fmap option_fmap option_map].
  f_equal. generalize (∅ : gmap string value) as res.
  induction Hall as [|p ps Hp Hps IH]; intros res; [reflexivity |].
  cbn [fmap list_fmap fold_left]. rewrite (entry_bare p Hp). cbn [fst snd].
  destruct ps as [|p' ps]; [reflexivity |]. now apply IH.
Qed.

(** A line that is not empty and holds line terminators only has no match
    at all: the reduction is of [null] and throws. *)
Theorem parseLineParameters_terminators (line : string) :
  line <> "" -> all isTerminator line = true ->
  parseLineParameters line = None.
Proof.
  intros Hne Hall. unfold parseLineParameters, fragments, matchAll.
  assert (Hts : tokens line = []).
  { clear Hne. induction line as [|c s IH]; [reflexivity |].
    cbn in Hall |- *. apply andb_true_iff in Hall as [Hc Hs].
    rewrite Hc. now apply IH. }
  destruct line; [contradiction |]. now rewrite Hts.
Qed.

End LineParameterProps.

Section LineParameterSample.
Import LineParameters.

Lemma parseLineParameters_rendered_witness :
  Sample.line <> []
  /\ Forall (fun p => wellFormed p = true) Sample.line
  /\ parseLineParameters (String.concat " " (render <$> Sample.line))
     = Some (fold_left (fun res p => assign res (key p) (val p)) Sample.line ∅).
Proof.
  assert (Hne : Sample.line <> []) by discriminate.
  assert (Hall : Forall (fun p => wellFormed p = true) Sample.line)
    by (repeat constructor).
  split; [exact Hne |]. split; [exact Hall |].
  exact (parseLineParameters_rendered Sample.line Hne Hall).
Defined.

End LineParameterSample.
